(** * xgboost_debugger_demo: a shallow embedding of the notebook's code

    The notebook has three [def]s ([get_data], [plot_collection],
    [plot_feature_importance]), a polling loop on the training job, and a
    linear data-preparation pipeline on a pandas frame.  The code that
    talks to external collaborators (the smdebug trial, matplotlib and
    seaborn, [re], the SageMaker client) is embedded as programs over an
    explicit signature of external calls, run against an arbitrary world;
    the frame pipeline is embedded as functions on a column-oriented table,
    with the split points computed on an exact model of Python's floats.
    The definitions come first; the facts about them follow. *)

From Stdlib Require Import List String Ascii ZArith Lia Bool Arith.
From Stdlib Require Import Permutation Sorting.Mergesort Sorting.Sorted Orders.
From Stdlib Require Import DecimalString SpecFloat.
Import ListNotations.

Local Open Scope string_scope.
Local Open Scope list_scope.

(** ** Python exceptions and results *)

(** A raised exception: its class name and its message. *)
Record exn : Type := mk_exn { exn_class : string; exn_msg : string }.

Definition ValueError (msg : string) : exn := mk_exn "ValueError" msg.
Definition KeyError (msg : string) : exn := mk_exn "KeyError" msg.

(** The outcome of a Python expression: an exception or a value. *)
Definition result (A : Type) : Type := (exn + A)%type.

Definition ok {A} (a : A) : result A := inr a.
Definition raise {A} (e : exn) : result A := inl e.

Definition rbind {A B} (r : result A) (f : A -> result B) : result B :=
  match r with
  | inl e => inl e
  | inr a => f a
  end.

(** ** Strings: [sorted], [str.startswith], [in] on a list of strings *)

Module StringOrder <: TotalLeBool.
Definition t := string.
Definition leb := String.leb.
Lemma leb_total : forall s1 s2, leb s1 s2 = true \/ leb s2 s1 = true.
Proof. exact String.leb_total. Qed.
End StringOrder.

Module StringSort := Sort StringOrder.

(** [sorted(xs)] on strings: Python compares strings by code point, which on
    UTF-8 bytes is the bytewise lexicographic order of [String.leb]. *)
Definition sorted (xs : list string) : list string := StringSort.sort xs.

(** [x in xs] for a list of strings. *)
Definition str_in (x : string) (xs : list string) : bool :=
  existsb (String.eqb x) xs.



(** [s.startswith(p)] *)
Definition startswith (p s : string) : bool := String.prefix p s.



(** ** External collaborators as a signature of calls

    Every interaction of the notebook's functions with the smdebug trial,
    with matplotlib/seaborn, with [re] and with the SageMaker client is a
    [call]; the
    type index is the type of the value the call returns when it does not
    raise.  The objects behind the handles are opaque to the notebook. *)

Class Handles : Type := {
  trial : Type;       (* an smdebug trial *)
  tensor : Type;      (* [trial.tensor(name)] *)
  collection : Type;  (* [trial.collection(name)] *)
  ndarray : Type;     (* a saved tensor value *)
  figure : Type;
  axes : Type;
  client : Type;      (* the SageMaker client *)
  estimator : Type    (* the SageMaker estimator *)
}.

Section Notebook.

Context `{Handles}.

(** The two fields of [describe_training_job]'s answer that are read. *)
Record description : Type := mk_description {
  TrainingJobStatus : string;
  SecondaryStatus : string
}.

Inductive call : Type -> Type :=
| TrialTensor (tr : trial) (tname : string) : call tensor
| TensorSteps (t : tensor) : call (list Z)
| TensorValue (t : tensor) (s : Z) : call ndarray
| TrialCollection (tr : trial) (name : string) : call collection
| CollectionTensorNames (c : collection) : call (list string)
| ReMatch (regex s : string) : call bool
| PltSubplots (figsize : Z * Z) : call (figure * axes)
| SnsDespine : call unit
| AxPlot (ax : axes) (steps : list Z) (data : list ndarray)
    (label : string) : call unit
| AxLegend (ax : axes) (loc : string) (bbox_to_anchor : string * string)
  : call unit
| AxSetXlabel (ax : axes) (label : string) : call unit
| DescribeTrainingJob (c : client) (job_name : string) : call description
| StrftimeGmtime (fmt : string) : call string
| Print (line : string) : call unit
| TimeSleep (seconds : Z) : call unit
| UploadFile (bucket key filename : string) : call unit
| EstimatorFit (est : estimator) (inputs : list (string * string))
    (wait : bool) : call unit.

(** A program: it returns, raises, performs a call and continues with
    the value the call returned, or runs a body under a handler
    ([try: body except Exception as e: handle(e)]) and continues with
    the value of the one or the other. *)
Inductive prog (A : Type) : Type :=
| Ret (a : A)
| Raise (e : exn)
| Call {X : Type} (c : call X) (k : X -> prog A)
| Try {B : Type} (body : prog B) (handle : exn -> prog B) (k : B -> prog A).

Arguments Ret {A} a.
Arguments Raise {A} e.
Arguments Call {A X} c k.
Arguments Try {A B} body handle k.

Fixpoint bind {A B} (p : prog A) (f : A -> prog B) : prog B :=
  match p with
  | Ret a => f a
  | Raise e => Raise e
  | Call c k => Call c (fun x => bind (k x) f)
  | Try body handle k => Try body handle (fun x => bind (k x) f)
  end.

Definition do {X} (c : call X) : prog X := Call c Ret.

Notation "x <- p ;; q" := (bind p (fun x => q))
  (at level 61, p at next level, right associativity).
Notation "' pat <- p ;; q" := (bind p (fun x => match x with pat => q end))
  (at level 61, pat pattern, p at next level, right associativity).
Notation "p ;; q" := (bind p (fun _ => q))
  (at level 61, right associativity).

(** [[f(x) for x in xs]] *)
Fixpoint list_comp {X Y} (f : X -> prog Y) (xs : list X) : prog (list Y) :=
  match xs with
  | [] => Ret []
  | x :: xs' => y <- f x ;; ys <- list_comp f xs' ;; Ret (y :: ys)
  end.

(** [for x in xs: body(x)] *)
Fixpoint for_each {X} (xs : list X) (body : X -> prog unit) : prog unit :=
  match xs with
  | [] => Ret tt
  | x :: xs' => body x ;; for_each xs' body
  end.

(** *** Running a program against the outside world

    The world is any state [W] with a [handler] that answers each call
    with a value or an exception.  [run] also logs every call with its
    answer. *)

Inductive event : Type :=
| Ev {X : Type} (c : call X) (r : result X).

Definition handler (W : Type) : Type :=
  forall X, call X -> W -> result X * W.

Fixpoint run {W A} (h : handler W) (p : prog A) (w : W)
  : result A * W * list event :=
  match p with
  | Ret a => (inr a, w, [])
  | Raise e => (inl e, w, [])
  | Call c k =>
      match h _ c w with
      | (inl e, w') => (inl e, w', [Ev c (inl e)])
      | (inr x, w') =>
          let '(r, w'', log) := run h (k x) w' in
          (r, w'', Ev c (inr x) :: log)
      end
  | Try body handle k =>
      match run h body w with
      | (inr b, w1, log1) =>
          let '(r, w2, log2) := run h (k b) w1 in (r, w2, log1 ++ log2)
      | (inl e, w1, log1) =>
          match run h (handle e) w1 with
          | (inr b, w2, log2) =>
              let '(r, w3, log3) := run h (k b) w2 in
              (r, w3, log1 ++ log2 ++ log3)
          | (inl e', w2, log2) => (inl e', w2, log1 ++ log2)
          end
      end
  end.

(** A program without a [try]. *)
Fixpoint handler_free {A} (p : prog A) : Prop :=
  match p with
  | Ret _ => True
  | Raise _ => True
  | Call c k => forall x, handler_free (k x)
  | Try _ _ _ => False
  end.

(** A program without a [raise] of its own. *)
Fixpoint raise_free {A} (p : prog A) : Prop :=
  match p with
  | Ret _ => True
  | Raise _ => False
  | Call c k => forall x, raise_free (k x)
  | Try body handle k =>
      raise_free body /\ (forall e, raise_free (handle e))
      /\ (forall b, raise_free (k b))
  end.

(** *** The notebook's functions *)

(** [def get_data(trial, tname)] *)
Definition get_data (tr : trial) (tname : string)
  : prog (list Z * list ndarray) :=
  t <- do (TrialTensor tr tname) ;;
  steps <- do (TensorSteps t) ;;
  vals <- list_comp (fun s => do (TensorValue t s)) steps ;;
  Ret (steps, vals).

(** The body of the loop of [plot_collection]. *)
Definition plot_if_match (tr : trial) (regex : string) (ax : axes)
  (tensor_name : string) : prog unit :=
  m <- do (ReMatch regex tensor_name) ;;
  if (m : bool) then
    '(steps, data) <- get_data tr tensor_name ;;
    do (AxPlot ax steps data tensor_name)
  else Ret tt.

(** [def plot_collection(trial, collection_name, regex='.*', figsize=(8, 6))] *)
Definition plot_collection (tr : trial) (collection_name : string)
  (regex : string) (figsize : Z * Z) : prog unit :=
  '(fig, ax) <- do (PltSubplots figsize) ;;
  do SnsDespine ;;
  c <- do (TrialCollection tr collection_name) ;;
  tensors <- do (CollectionTensorNames c) ;;
  for_each (sorted tensors) (plot_if_match tr regex ax) ;;
  do (AxLegend ax "center left" ("1", "0.5")) ;;
  do (AxSetXlabel ax "Iteration").

Definition default_regex : string := ".*".
Definition default_figsize : Z * Z := (8, 6)%Z.

Definition SUPPORTED_IMPORTANCE_TYPES : list string :=
  ["weight"; "gain"; "cover"; "total_gain"; "total_cover"].

(** [def plot_feature_importance(trial, importance_type="weight")] *)
Definition plot_feature_importance (tr : trial) (importance_type : string)
  : prog unit :=
  if negb (str_in importance_type SUPPORTED_IMPORTANCE_TYPES) then
    Raise (ValueError
             (importance_type ++
              " is not one of the supported importance types."))
  else
    plot_collection tr "feature_importance"
      ("feature_importance/" ++ importance_type ++ "/.*")
      default_figsize.


(** The start of the names [plot_feature_importance] selects. *)
Definition importance_prefix (importance_type : string) : string :=
  "feature_importance/" ++ importance_type ++ "/".

(** *** The cell that waits for the training job

    [fuel] bounds the number of iterations of the [while] loop; [None]
    is returned when it runs out before the loop condition turns false. *)

Definition loop_exit_statuses : list string := ["Training"; "Completed"].

Fixpoint poll_loop (fuel : nat) (cl : client) (job_name : string)
  (d : description) : prog (option description) :=
  if negb (str_in (SecondaryStatus d) loop_exit_statuses) then
    match fuel with
    | O => Ret None
    | S fuel' =>
        d' <- do (DescribeTrainingJob cl job_name) ;;
        now <- do (StrftimeGmtime "%X") ;;
        do (Print (now ++ ": " ++ TrainingJobStatus d' ++ ", "
                       ++ SecondaryStatus d')) ;;
        do (TimeSleep 15) ;;
        poll_loop fuel' cl job_name d'
    end
  else Ret (Some d).

Definition wait_for_training (fuel : nat) (cl : client) (job_name : string)
  : prog (option description) :=
  d <- do (DescribeTrainingJob cl job_name) ;;
  do (Print ("Training job name: " ++ job_name)) ;;
  do (Print (TrainingJobStatus d)) ;;
  if negb (String.eqb (TrainingJobStatus d) "Completed") then
    poll_loop fuel cl job_name d
  else Ret (Some d).

(** The loop condition is false on [d]. *)
Definition exits (d : description) : bool :=
  str_in (SecondaryStatus d) loop_exit_statuses.

(** The values of [TrainingJobStatus] after which the service no longer
    changes a job: it has completed, failed or been stopped. *)
Definition is_terminal (d : description) : bool :=
  str_in (TrainingJobStatus d) ["Completed"; "Failed"; "Stopped"].

(** The calls before the loop, given the first answer. *)
Definition header_events (cl : client) (job_name : string)
  (d : description) : list event :=
  [ Ev (DescribeTrainingJob cl job_name) (inr d);
    Ev (Print ("Training job name: " ++ job_name)) (inr tt);
    Ev (Print (TrainingJobStatus d)) (inr tt) ].

(** The calls of one iteration of the loop, given the description and
    the time it was answered. *)
Definition poll_events (cl : client) (job_name : string)
  (answer : description * string) : list event :=
  let (d, now) := answer in
  [ Ev (DescribeTrainingJob cl job_name) (inr d);
    Ev (StrftimeGmtime "%X") (inr now);
    Ev (Print (now ++ ": " ++ TrainingJobStatus d ++ ", "
                   ++ SecondaryStatus d)) (inr tt);
    Ev (TimeSleep 15) (inr tt) ].

(** *** Reading the log *)

(** The exception a logged call raised, if it raised. *)
Definition raised (ev : event) : option exn :=
  match ev with
  | Ev _ (inl e) => Some e
  | Ev _ (inr _) => None
  end.

Definition succeeded (ev : event) : Prop := raised ev = None.

(** The label of a successful [ax.plot]. *)
Definition plotted_label (ev : event) : option string :=
  match ev with
  | Ev c r =>
      match c, r with
      | AxPlot _ _ _ label, inr _ => Some label
      | _, _ => None
      end
  end.

(** The pattern, the subject and the answer of a [re.match]. *)
Definition rematch_of (ev : event) : option (string * string * bool) :=
  match ev with
  | Ev c r =>
      match c in call X return result X -> option (string * string * bool)
      with
      | ReMatch regex s =>
          fun r => match r with
                   | inr b => Some (regex, s, b)
                   | inl _ => None
                   end
      | _ => fun _ => None
      end r
  end.

Fixpoint filter_map {X Y} (f : X -> option Y) (xs : list X) : list Y :=
  match xs with
  | [] => []
  | x :: xs' =>
      match f x with
      | Some y => y :: filter_map f xs'
      | None => filter_map f xs'
      end
  end.

Definition plotted (log : list event) : list string :=
  filter_map plotted_label log.

Definition rematches (log : list event) : list (string * string * bool) :=
  filter_map rematch_of log.

(** Whether a call only reads the trial's store. *)
Definition is_read_call {X} (c : call X) : bool :=
  match c with
  | TrialTensor _ _ | TensorSteps _ | TensorValue _ _ => true
  | _ => false
  end.

Definition is_trial_read (ev : event) : bool :=
  match ev with
  | Ev c _ => is_read_call c
  end.

(** The [tensor.value(s)] calls of [get_data], with their answers. *)
Definition value_events (t : tensor) (steps : list Z) (vals : list ndarray)
  : list event :=
  map (fun sv => Ev (TensorValue t (fst sv)) (inr (snd sv)))
      (combine steps vals).

(** The logged answer is one the handler gives to that call. *)
Definition answered_by {W} (h : handler W) (ev : event) : Prop :=
  match ev with
  | Ev c a => exists w, fst (h _ c w) = a
  end.

(** The world answers [re.match(regex, s)] with [m s], whatever the
    subject [s] and its own state: [m] is what the library computes for
    this pattern. *)
Definition re_answers {W} (h : handler W) (regex : string)
  (m : string -> bool) : Prop :=
  forall s w, fst (h bool (ReMatch regex s) w) = inr (m s).

End Notebook.

Arguments Ret {_ A} a.
Arguments Raise {_ A} e.
Arguments Call {_ A X} c k.
Arguments Try {_ A B} body handle k.

(** ** A small in-memory world

    An instance of the outside world to run the programs on: named series
    of integers, collections of names, and a script of answers for
    [describe_training_job]. *)

Module Memory.

#[export] Instance handles : Handles := {|
  trial := unit;
  tensor := string;
  collection := string;
  ndarray := Z;
  figure := unit;
  axes := unit;
  client := unit;
  estimator := unit
|}.

Record world : Type := mk_world {
  tensors : list (string * list (Z * Z));
  collections : list (string * list string);
  job_answers : list description
}.

(** The characters Python's [re] documents as special. *)
Definition is_special (c : ascii) : bool :=
  str_in (String c "")
    ["."; "^"; "$"; "*"; "+"; "?"; "{"; "}"; "["; "]"; "\"; "|"; "("; ")"].

(** The patterns this world's [re.match] knows are the two shapes the
    notebook passes: a text without special characters followed by
    [.*] (the text is empty in the default ['.*']).  Such a pattern
    matches the subjects that start with the text. *)
Fixpoint text_before_dotstar (regex : string) : option string :=
  match regex with
  | EmptyString => None
  | String c rest =>
      if String.eqb regex ".*" then Some EmptyString
      else if is_special c then None
      else option_map (String c) (text_before_dotstar rest)
  end.

Fixpoint lookup {V} (k : string) (m : list (string * V)) : option V :=
  match m with
  | [] => None
  | (k', v) :: m' => if String.eqb k k' then Some v else lookup k m'
  end.

Fixpoint lookup_step (s : Z) (series : list (Z * Z)) : option Z :=
  match series with
  | [] => None
  | (s', v) :: rest => if Z.eqb s s' then Some v else lookup_step s rest
  end.

Definition answer {X} (c : call X) (w : world) : result X * world :=
  match c in call X return result X * world with
  | TrialTensor _ tname =>
      match lookup tname (tensors w) with
      | Some _ => (inr tname, w)
      | None => (inl (mk_exn "TensorUnavailable" tname), w)
      end
  | TensorSteps t =>
      match lookup t (tensors w) with
      | Some series => (inr (map fst series), w)
      | None => (inl (mk_exn "TensorUnavailable" t), w)
      end
  | TensorValue t s =>
      match lookup t (tensors w) with
      | Some series =>
          match lookup_step s series with
          | Some v => (inr v, w)
          | None => (inl (mk_exn "StepUnavailable" t), w)
          end
      | None => (inl (mk_exn "TensorUnavailable" t), w)
      end
  | TrialCollection _ name => (inr name, w)
  | CollectionTensorNames c =>
      match lookup c (collections w) with
      | Some names => (inr names, w)
      | None => (inr [], w)
      end
  | ReMatch regex s =>
      match text_before_dotstar regex with
      | Some text => (inr (startswith text s), w)
      | None => (inl (mk_exn "NotImplementedError" regex), w)
      end
  | PltSubplots _ => (inr (tt, tt), w)
  | SnsDespine => (inr tt, w)
  | AxPlot _ _ _ _ => (inr tt, w)
  | AxLegend _ _ _ => (inr tt, w)
  | AxSetXlabel _ _ => (inr tt, w)
  | DescribeTrainingJob _ _ =>
      match job_answers w with
      | d :: rest => (inr d, mk_world (tensors w) (collections w) rest)
      | [] => (inl (mk_exn "EndOfScript" ""), w)
      end
  | StrftimeGmtime _ => (inr "12:00:00", w)
  | Print _ => (inr tt, w)
  | TimeSleep _ => (inr tt, w)
  | UploadFile _ _ _ => (inr tt, w)
  | EstimatorFit _ _ _ => (inr tt, w)
  end.

Definition handle : handler world := fun X c w => answer c w.

Definition demo : world :=
  mk_world
    [ ("train-error", [(0, 12); (2, 9); (4, 7)]%Z);
      ("feature_importance/gain/f1", [(0, 3); (2, 5)]%Z);
      ("feature_importance/total_gain/f1", [(0, 30); (2, 50)]%Z);
      ("feature_importance/weight/f0", [(0, 1)]%Z) ]
    [ ("metrics", ["train-error"]);
      ("feature_importance",
       ["feature_importance/weight/f0";
        "feature_importance/total_gain/f1";
        "feature_importance/gain/f1"]) ]
    [ mk_description "InProgress" "Starting";
      mk_description "InProgress" "Downloading";
      mk_description "InProgress" "Training";
      mk_description "Completed" "Completed" ].

End Memory.

(** ** Python floats, on the values [int(0.7 * len(...))] goes through

    A finite non-negative double is a pair (mantissa, exponent) standing
    for [mant * 2^expo].  [len] returns a [Py_ssize_t], so the integers
    converted are below [2^63] and no operation here overflows. *)

Module Float64.
Local Open Scope Z_scope.

Record float : Type := mk_float { mant : Z; expo : Z }.

(** Number of significant bits of [m >= 0]. *)
Definition bits (m : Z) : Z := if m =? 0 then 0 else Z.log2 m + 1.

(** [m * 2^e] rounded to 53 significant bits, ties to even. *)
Definition round (m e : Z) : float :=
  let k := bits m - 53 in
  if k <=? 0 then mk_float m e
  else
    let q := m / 2 ^ k in
    let r := m mod 2 ^ k in
    let half := 2 ^ (k - 1) in
    let q' := if (half <? r) || ((r =? half) && Z.odd q) then q + 1 else q in
    mk_float q' (e + k).

(** [float(n)] for [0 <= n] *)
Definition of_int (n : Z) : float := round n 0.

(** [x * y] *)
Definition mul (x y : float) : float :=
  round (mant x * mant y) (expo x + expo y).

(** [int(x)]: truncation, here of a non-negative value *)
Definition to_int (x : float) : Z :=
  if 0 <=? expo x then mant x * 2 ^ expo x
  else mant x / 2 ^ (- expo x).

(** The literals [0.7] and [0.9]: 0x3FE6666666666666 and
    0x3FECCCCCCCCCCCCD. *)
Definition lit_0_7 : float := mk_float 6305039478318694 (-53).
Definition lit_0_9 : float := mk_float 8106479329266893 (-53).

(** [int(c * n)] for a float [c] and an integer [n]: the integer is
    converted to a float, the product is rounded, the result truncated. *)
Definition int_mul_Z (c : float) (n : Z) : Z :=
  to_int (mul c (of_int n)).

Definition int_mul (c : float) (n : nat) : nat :=
  Z.to_nat (int_mul_Z c (Z.of_nat n)).

(** The same computation on the Standard Library's IEEE 754 model, for
    checking [int_mul] against it on concrete lengths. *)
Definition spec_of (x : float) : spec_float :=
  binary_normalize 53 1024 (mant x) (expo x) false.

Definition spec_to_int (x : spec_float) : Z :=
  match x with
  | S754_finite false m e =>
      if 0 <=? e then Z.pos m * 2 ^ e else Z.pos m / 2 ^ (- e)
  | _ => 0
  end.

Definition spec_int_mul_Z (c : float) (n : Z) : Z :=
  spec_to_int
    (SFmul 53 1024 (spec_of c) (binary_normalize 53 1024 n 0 false)).

End Float64.

(** ** The pandas frame and the operations the notebook applies to it *)

Module Pandas.

(** A column and its dtype: [int64] (also the [uint8] indicators),
    [float64] cells carried as their printed form (the notebook does no
    arithmetic on them), and [object] cells holding strings. *)
Inductive column : Type :=
| IntCol (xs : list Z)
| FloatCol (xs : list string)
| ObjCol (xs : list string).

Record DataFrame : Type := mk_frame {
  index : list nat;                    (* row labels *)
  columns : list (string * column)     (* in column order *)
}.

(** [len(df)] *)
Definition nrows (df : DataFrame) : nat := List.length (index df).

Definition labels (df : DataFrame) : list string := map fst (columns df).

Definition col_len (c : column) : nat :=
  match c with
  | IntCol xs => List.length xs
  | FloatCol xs => List.length xs
  | ObjCol xs => List.length xs
  end.

(** Every column has one cell per row. *)
Definition well_formed (df : DataFrame) : Prop :=
  Forall (fun c => col_len (snd c) = nrows df) (columns df).

(** A cell, with the dtype of its column. *)
Inductive cell : Type :=
| IntCell (z : Z)
| FloatCell (s : string)
| ObjCell (s : string).

(** [series.iloc[i]]; nothing at a position beyond the last cell *)
Definition cell_at (c : column) (i : nat) : option cell :=
  match c with
  | IntCol xs => option_map IntCell (nth_error xs i)
  | FloatCol xs => option_map FloatCell (nth_error xs i)
  | ObjCol xs => option_map ObjCell (nth_error xs i)
  end.

(** [df.index[i]] and [df.iloc[i]]: the label of the row at position
    [i], and its cell in every column. *)
Definition iloc (df : DataFrame) (i : nat)
  : option nat * list (string * option cell) :=
  (nth_error (index df) i,
   map (fun c => (fst c, cell_at (snd c) i)) (columns df)).

(** [df.iterrows()]: the rows in order, each with its label. *)
Definition iterrows (df : DataFrame)
  : list (option nat * list (string * option cell)) :=
  map (iloc df) (seq 0 (nrows df)).

Definition has_label (name : string) (c : string * column) : bool :=
  String.eqb (fst c) name.

(** [df[name]]: the columns labelled [name]; [KeyError] when there is
    none. *)
Definition getitem (df : DataFrame) (name : string)
  : result (list (string * column)) :=
  match filter (has_label name) (columns df) with
  | [] => raise (KeyError name)
  | cs => ok cs
  end.

(** [df[name]] used as a one-dimensional series.  With a duplicated
    label pandas hands back a frame, and the assignment of the
    two-dimensional [np.where] result then fails. *)
Definition getitem_series (df : DataFrame) (name : string) : result column :=
  rbind (getitem df name) (fun cs =>
    match cs with
    | [c] => ok (snd c)
    | _ => raise (ValueError "Expected a 1D array")
    end).

(** [series == k] for an integer [k] *)
Definition eq_scalar (c : column) (k : Z) : list bool :=
  match c with
  | IntCol xs => map (fun x => Z.eqb x k) xs
  | FloatCol xs =>
      map (fun x => String.eqb x
             (NilZero.string_of_int (Z.to_int k) ++ ".0")) xs
  | ObjCol xs => map (fun _ => false) xs
  end.

(** [np.in1d(series, names)] for a list of strings *)
Definition np_in1d (c : column) (names : list string) : list bool :=
  match c with
  | ObjCol xs => map (fun x => str_in x names) xs
  | IntCol xs => map (fun _ => false) xs
  | FloatCol xs => map (fun _ => false) xs
  end.

(** [np.where(cond, a, b)] *)
Definition np_where (cond : list bool) (a b : Z) : list Z :=
  map (fun c => if c : bool then a else b) cond.

(** [df[name] = values]: replaces the column of that label, or appends a
    new last column. *)
Definition setitem (df : DataFrame) (name : string) (values : list Z)
  : result DataFrame :=
  if negb (List.length values =? nrows df)%nat then
    raise (ValueError "Length of values does not match List.length of index")
  else if str_in name (labels df) then
    ok (mk_frame (index df)
          (map (fun c => if has_label name c then (name, IntCol values)
                         else c) (columns df)))
  else
    ok (mk_frame (index df) (columns df ++ [(name, IntCol values)])).

Definition is_object (c : string * column) : bool :=
  match snd c with
  | ObjCol _ => true
  | _ => false
  end.

(** The distinct values of a column, in sorted order. *)
Definition levels (xs : list string) : list string :=
  sorted (nodup string_dec xs).

Definition indicator (level : string) (xs : list string) : list Z :=
  map (fun x => if String.eqb x level then 1%Z else 0%Z) xs.

(** The indicator columns of one categorical column. *)
Definition dummies (prefix : string) (xs : list string)
  : list (string * column) :=
  map (fun level => ((prefix ++ "_" ++ level)%string,
                     IntCol (indicator level xs)))
      (levels xs).

Definition dummies_of (c : string * column) : list (string * column) :=
  match snd c with
  | ObjCol xs => dummies (fst c) xs
  | _ => []
  end.

(** [pd.get_dummies(df)]: the columns that are not of dtype [object],
    then the indicator columns of each [object] column, in column
    order. *)
Definition get_dummies (df : DataFrame) : DataFrame :=
  mk_frame (index df)
    (filter (fun c => negb (is_object c)) (columns df)
     ++ flat_map dummies_of (columns df)).

(** [df.drop(names, axis=1)]: [KeyError] when a name labels no column.
    The message names the missing labels; how pandas prints their list
    is not followed. *)
Definition drop (df : DataFrame) (names : list string) : result DataFrame :=
  match filter (fun n => negb (str_in n (labels df))) names with
  | [] =>
      ok (mk_frame (index df)
            (filter (fun c => negb (str_in (fst c) names)) (columns df)))
  | missing =>
      raise (KeyError (String.concat ", " missing ++ " not found in axis"))
  end.

Definition map_col (f : forall X, X -> list X -> list X) (c : column)
  : column :=
  match c with
  | IntCol xs => IntCol (f Z 0%Z xs)
  | FloatCol xs => FloatCol (f string "nan" xs)
  | ObjCol xs => ObjCol (f string "" xs)
  end.

Definition on_rows (f : forall X, X -> list X -> list X) (df : DataFrame)
  : DataFrame :=
  mk_frame (f nat O (index df))
    (map (fun c => (fst c, map_col f (snd c))) (columns df)).

Definition take_list (ps : list nat) (X : Type) (d : X) (xs : list X)
  : list X :=
  map (fun p => nth p xs d) ps.

(** The rows of [df] at the positions [ps]. *)
Definition rows_at (ps : list nat) (df : DataFrame) : DataFrame :=
  on_rows (take_list ps) df.

(** [df.take(ps)]: the rows at the given positions, in that order. *)
Definition take (ps : list nat) (df : DataFrame) : result DataFrame :=
  if forallb (fun p => p <? nrows df)%nat ps then
    ok (rows_at ps df)
  else raise (mk_exn "IndexError" "indices are out-of-bounds").

(** [xs[start:stop]] for non-negative bounds *)
Definition slice (start stop : nat) (X : Type) (d : X) (xs : list X)
  : list X :=
  skipn start (firstn stop xs).

(** [df[start:stop]] *)
Definition iloc_slice (start stop : nat) (df : DataFrame) : DataFrame :=
  on_rows (slice start stop) df.

(** [np.split(df, indices)]: the slices between consecutive division
    points [0, indices..., len(df)]. *)
Definition np_split (df : DataFrame) (indices : list nat)
  : list DataFrame :=
  map (fun se => iloc_slice (fst se) (snd se) df)
      (combine (O :: indices) (indices ++ [nrows df])).

(** [pd.concat([a, b], axis=1)] for two selections of one frame, which
    is the only form the notebook uses: same rows, columns side by side. *)
Definition concat_axis1 (a : list (string * column)) (b : DataFrame)
  : DataFrame :=
  mk_frame (index b) (a ++ columns b).

Definition quote_char : ascii := ascii_of_nat 34.

Definition needs_quoting (s : string) : bool :=
  existsb (fun c => Ascii.eqb c "," || Ascii.eqb c quote_char
                    || Ascii.eqb c "010" || Ascii.eqb c "013")
          (list_ascii_of_string s).

Fixpoint double_quotes (s : string) : string :=
  match s with
  | EmptyString => EmptyString
  | String c s' =>
      if Ascii.eqb c quote_char
      then String c (String c (double_quotes s'))
      else String c (double_quotes s')
  end.

(** A string cell under [csv.QUOTE_MINIMAL]. *)
Definition csv_str (s : string) : string :=
  if needs_quoting s
  then String quote_char (double_quotes s ++ String quote_char "")
  else s.

Definition str_of_Z (z : Z) : string := NilZero.string_of_int (Z.to_int z).

(** The printed cells of a column. *)
Definition fields (c : column) : list string :=
  match c with
  | IntCol xs => map str_of_Z xs
  | FloatCol xs => xs
  | ObjCol xs => map csv_str xs
  end.

(** [df.to_csv(path, index=False, header=False)], as the list of
    records written: one per row, one field per column. *)
Definition to_csv_records (df : DataFrame) : list (list string) :=
  map (fun i => map (fun c => nth i (fields (snd c)) "") (columns df))
      (seq 0 (nrows df)).

Definition newline : string := String "010" "".

(** The text of the file. *)
Definition to_csv (df : DataFrame) : string :=
  String.concat ""
    (map (fun r => (String.concat "," r ++ newline)%string)
         (to_csv_records df)).

End Pandas.

(** ** The data-preparation cells *)

Module Pipeline.
Import Pandas.

Notation "x <- r ;; k" := (rbind r (fun x => k))
  (at level 61, r at next level, right associativity).

(** One record of [bank-additional-full.csv], with the dtypes
    [pd.read_csv] infers for its 21 columns. *)
Record bank_row : Type := mk_bank_row {
  age : Z;
  job : string;
  marital : string;
  education : string;
  default : string;
  housing : string;
  loan : string;
  contact : string;
  month : string;
  day_of_week : string;
  duration : Z;
  campaign : Z;
  pdays : Z;
  previous : Z;
  poutcome : string;
  emp_var_rate : string;
  cons_price_idx : string;
  cons_conf_idx : string;
  euribor3m : string;
  nr_employed : string;
  y : string
}.

(** The header of [bank-additional-full.csv]. *)
Definition header : list string :=
  ["age"; "job"; "marital"; "education"; "default"; "housing"; "loan";
   "contact"; "month"; "day_of_week"; "duration"; "campaign"; "pdays";
   "previous"; "poutcome"; "emp.var.rate"; "cons.price.idx";
   "cons.conf.idx"; "euribor3m"; "nr.employed"; "y"].

(** The frame of the records of a file, each column with its dtype in
    the bank data, under the default index [0 .. n-1]. *)
Definition bank_frame (rows : list bank_row) : DataFrame :=
  mk_frame (seq 0 (List.length rows))
    [ ("age", IntCol (map age rows));
      ("job", ObjCol (map job rows));
      ("marital", ObjCol (map marital rows));
      ("education", ObjCol (map education rows));
      ("default", ObjCol (map default rows));
      ("housing", ObjCol (map housing rows));
      ("loan", ObjCol (map loan rows));
      ("contact", ObjCol (map contact rows));
      ("month", ObjCol (map month rows));
      ("day_of_week", ObjCol (map day_of_week rows));
      ("duration", IntCol (map duration rows));
      ("campaign", IntCol (map campaign rows));
      ("pdays", IntCol (map pdays rows));
      ("previous", IntCol (map previous rows));
      ("poutcome", ObjCol (map poutcome rows));
      ("emp.var.rate", FloatCol (map emp_var_rate rows));
      ("cons.price.idx", FloatCol (map cons_price_idx rows));
      ("cons.conf.idx", FloatCol (map cons_conf_idx rows));
      ("euribor3m", FloatCol (map euribor3m rows));
      ("nr.employed", FloatCol (map nr_employed rows));
      ("y", ObjCol (map y rows)) ].

(** [data = pd.read_csv(...)].  [pd.read_csv] infers the dtype of a
    column from its cells.  Of a file with the header and no record
    every column is of dtype [object].  The records of a file are given
    as [bank_row]s, that is with the dtypes of the bank data; these are
    the dtypes inferred when the cells are as [bank_dtypes] below
    says. *)
Definition read_csv (rows : list bank_row) : DataFrame :=
  match rows with
  | [] => mk_frame [] (map (fun name => (name, ObjCol [])) header)
  | _ :: _ => bank_frame rows
  end.

Definition not_working_jobs : list string :=
  ["student"; "retired"; "unemployed"].

(** The cell that adds the two indicators and calls [get_dummies]. *)
Definition add_indicators (data : DataFrame) : result DataFrame :=
  pdays_col <- getitem_series data "pdays" ;;
  data <- setitem data "no_previous_contact"
            (np_where (eq_scalar pdays_col 999) 1 0) ;;
  job_col <- getitem_series data "job" ;;
  data <- setitem data "not_working"
            (np_where (np_in1d job_col not_working_jobs) 1 0) ;;
  ok (get_dummies data).

Definition dropped_columns : list string :=
  ["duration"; "emp.var.rate"; "cons.price.idx"; "cons.conf.idx";
   "euribor3m"; "nr.employed"].

(** The two cleaning cells: [model_data] after the [drop]. *)
Definition clean (data : DataFrame) : result DataFrame :=
  model_data <- add_indicators data ;;
  drop model_data dropped_columns.

(** What the cleaning cells are to produce from the file's records: the
    two synthetic indicators of a record, *)
Definition no_previous_contact (r : bank_row) : Z :=
  if (pdays r =? 999)%Z then 1%Z else 0%Z.

Definition not_working (r : bank_row) : Z :=
  if str_in (job r) not_working_jobs then 1%Z else 0%Z.

(** the eleven categorical columns, in column order, *)
Definition categorical : list (string * (bank_row -> string)) :=
  [ ("job", job); ("marital", marital); ("education", education);
    ("default", default); ("housing", housing); ("loan", loan);
    ("contact", contact); ("month", month); ("day_of_week", day_of_week);
    ("poutcome", poutcome); ("y", y) ].

(** *** The files whose columns get the dtypes of the bank data

    What [pd.read_csv] infers is the dtypes of [bank_frame] on a file
    with at least one record in which every cell of the five integer
    columns is an integer of 64 bits, every cell of the five float
    columns is a decimal number, and every cell of the eleven
    categorical columns is a text that is neither a number, nor a
    boolean, nor one of the markers of a missing value.  The texts
    accepted here start with a letter, are made of letters, digits,
    dots, hyphens and underscores, and are none of the words that
    [pd.read_csv] reads as a number, a boolean or a missing value, in
    whatever case they are written. *)

Definition int64 (z : Z) : bool :=
  ((- 2 ^ 63 <=? z) && (z <? 2 ^ 63))%Z.

Definition is_digit (c : ascii) : bool :=
  let n := nat_of_ascii c in ((48 <=? n) && (n <=? 57))%nat.

Definition is_upper (c : ascii) : bool :=
  let n := nat_of_ascii c in ((65 <=? n) && (n <=? 90))%nat.

Definition is_lower (c : ascii) : bool :=
  let n := nat_of_ascii c in ((97 <=? n) && (n <=? 122))%nat.

Definition lower (c : ascii) : ascii :=
  if is_upper c then ascii_of_nat (nat_of_ascii c + 32) else c.

Fixpoint lowercase (s : string) : string :=
  match s with
  | EmptyString => EmptyString
  | String c s' => String (lower c) (lowercase s')
  end.

Definition reserved_words : list string :=
  ["nan"; "na"; "null"; "none"; "inf"; "infinity"; "true"; "false"].

Definition text_char (c : ascii) : bool :=
  is_upper c || is_lower c || is_digit c
  || str_in (String c EmptyString) ["."; "-"; "_"].

Definition is_text (s : string) : bool :=
  match s with
  | EmptyString => false
  | String c _ => is_upper c || is_lower c
  end
  && forallb text_char (list_ascii_of_string s)
  && negb (str_in (lowercase s) reserved_words).

Fixpoint all_digits (s : string) : bool :=
  match s with
  | EmptyString => true
  | String c s' => is_digit c && all_digits s'
  end.

(** One digit or more, then possibly a dot and one digit or more. *)
Fixpoint unsigned_decimal (s : string) : bool :=
  match s with
  | EmptyString => false
  | String c s' =>
      is_digit c &&
      match s' with
      | EmptyString => true
      | String "." frac =>
          match frac with
          | EmptyString => false
          | String _ _ => all_digits frac
          end
      | String _ _ => unsigned_decimal s'
      end
  end.

Definition is_decimal (s : string) : bool :=
  match s with
  | String "-" s' => unsigned_decimal s'
  | _ => unsigned_decimal s
  end.

Definition bank_typed (r : bank_row) : bool :=
  forallb int64 [age r; duration r; campaign r; pdays r; previous r]
  && forallb is_decimal
       [emp_var_rate r; cons_price_idx r; cons_conf_idx r; euribor3m r;
        nr_employed r]
  && forallb (fun c => is_text (snd c r)) categorical.

Definition bank_dtypes (rows : list bank_row) : Prop :=
  rows <> [] /\ forallb bank_typed rows = true.

(** their indicator columns, *)
Definition indicator_columns (rows : list bank_row)
  : list (string * column) :=
  flat_map (fun c => dummies (fst c) (map (snd c) rows)) categorical.

(** the label of a record as the file carries it, *)
Definition label (r : bank_row) : Z :=
  if String.eqb (y r) "yes" then 1%Z else 0%Z.

(** and the whole frame: the four numeric columns that are kept, the
    two synthetic indicators, the indicator columns. *)
Definition cleaned (rows : list bank_row) : DataFrame :=
  mk_frame (seq 0 (List.length rows))
    ([ ("age", IntCol (map age rows));
       ("campaign", IntCol (map campaign rows));
       ("pdays", IntCol (map pdays rows));
       ("previous", IntCol (map previous rows));
       ("no_previous_contact", IntCol (map no_previous_contact rows));
       ("not_working", IntCol (map not_working rows)) ]
     ++ indicator_columns rows).

(** The features of a subset: every column but the two of the label. *)
Definition features (df : DataFrame) : list (string * column) :=
  filter (fun c => negb (str_in (fst c) ["y_no"; "y_yes"])) (columns df).

(** numpy's generator, as far as [sample] uses it: seeding a fresh
    generator, and drawing a permutation of [range(n)] from a generator
    (which advances it). *)
Class NumpyRandom : Type := {
  rng : Type;
  RandomState : Z -> rng;
  permutation : rng -> nat -> list nat * rng
}.

Section Split.

Context `{NumpyRandom}.

(** [df.sample(frac=1, random_state=...)]: all rows, in the order of a
    permutation drawn from a generator seeded with [random_state], or
    from numpy's global generator when it is [None].  The global
    generator is threaded through. *)
Definition sample_all (random_state : option Z) (df : DataFrame)
  (global : rng) : result DataFrame * rng :=
  match random_state with
  | Some seed =>
      (take (fst (permutation (RandomState seed) (nrows df))) df, global)
  | None =>
      let (ps, global') := permutation global (nrows df) in
      (take ps df, global')
  end.

(** The split points [int(0.7 * len(df))] and [int(0.9 * len(df))]. *)
Definition split_points (n : nat) : list nat :=
  [Float64.int_mul Float64.lit_0_7 n; Float64.int_mul Float64.lit_0_9 n].

(** The cell that shuffles and splits; the three names on the left of
    the assignment unpack a list of exactly three frames. *)
Definition shuffle_and_split (model_data : DataFrame) (global : rng)
  : result (DataFrame * DataFrame * DataFrame) * rng :=
  let (shuffled, global') := sample_all (Some 1729%Z) model_data global in
  (shuffled <- shuffled ;;
   match np_split shuffled (split_points (nrows model_data)) with
   | [train_data; validation_data; test_data] =>
       ok (train_data, validation_data, test_data)
   | _ => raise (ValueError "not enough values to unpack")
   end,
   global').

(** [pd.concat([df['y_yes'], df.drop(['y_no', 'y_yes'], axis=1)], axis=1)] *)
Definition label_first (df : DataFrame) : result DataFrame :=
  label <- getitem df "y_yes" ;;
  features <- drop df ["y_no"; "y_yes"] ;;
  ok (concat_axis1 label features).

(** The two frames handed to [to_csv]: the train and the validation
    subsets with the label moved to the front. *)
Definition written_frames (rows : list bank_row) (global : rng)
  : result (DataFrame * DataFrame) * rng :=
  match clean (read_csv rows) with
  | inl e => (inl e, global)
  | inr model_data =>
      let (parts, global') := shuffle_and_split model_data global in
      (parts <- parts ;;
       let '(train_data, validation_data, _) := parts in
       train_out <- label_first train_data ;;
       validation_out <- label_first validation_data ;;
       ok (train_out, validation_out),
       global')
  end.

(** The cells from [read_csv] to the two files: the records of
    [train.csv] and of [validation.csv]. *)
Definition prepare (rows : list bank_row) (global : rng)
  : result (list (list string) * list (list string)) * rng :=
  let (frames, global') := written_frames rows global in
  (frames <- frames ;;
   ok (to_csv_records (fst frames), to_csv_records (snd frames)),
   global').

End Split.

(** A generator to run the pipeline with: it draws the positions in
    reverse order and counts its draws. *)
Definition reversing : NumpyRandom := {|
  rng := nat;
  RandomState := Z.to_nat;
  permutation := fun g n => (rev (seq 0 n), S g)
|}.

Definition demo_rows : list bank_row :=
  let r1 := mk_bank_row 30 "student" "single" "basic.9y" "no" "yes" "no"
              "cellular" "may" "mon" 100 1 999 0 "nonexistent"
              "1.1" "93.994" "-36.4" "4.857" "5191.0" "no" in
  let r2 := mk_bank_row 41 "admin." "married" "high.school" "no" "no" "no"
              "telephone" "jun" "tue" 200 2 3 1 "success"
              "1.4" "94.465" "-41.8" "4.961" "5228.1" "yes" in
  [r1; r2; r1; r2; r2].

End Pipeline.

(** ** More of the notebook: what the remaining cells and readings need *)

Section NotebookMore.

Context `{Handles}.

(** The seconds slept, in order. *)
Definition slept (ev : event) : option Z :=
  match ev with
  | Ev c r =>
      match c, r with
      | TimeSleep seconds, inr _ => Some seconds
      | _, _ => None
      end
  end.

Definition sleeps (log : list event) : list Z := filter_map slept log.

(** The descriptions [describe_training_job] answered, in order. *)
Definition described_by (ev : event) : option description :=
  match ev with
  | Ev c r =>
      match c, r with
      | DescribeTrainingJob _ _, inr d => Some d
      | _, _ => None
      end
  end.

Definition described (log : list event) : list description :=
  filter_map described_by log.

(** The names for which [trial.tensor] was called and answered. *)
Definition fetched_name (ev : event) : option string :=
  match ev with
  | Ev c r =>
      match c, r with
      | TrialTensor _ tname, inr _ => Some tname
      | _, _ => None
      end
  end.

Definition fetched (log : list event) : list string :=
  filter_map fetched_name log.

(** The arguments of the successful [ax.plot] calls: label, number of
    steps, number of values. *)
Definition plot_shape (ev : event) : option (string * nat * nat) :=
  match ev with
  | Ev c r =>
      match c, r with
      | AxPlot _ steps data label, inr _ =>
          Some (label, List.length steps, List.length data)
      | _, _ => None
      end
  end.

Definition plot_shapes (log : list event) : list (string * nat * nat) :=
  filter_map plot_shape log.

(** The calls of a successful [get_data], given the answers. *)
Definition get_data_events (tr : trial) (tname : string) (t : tensor)
  (steps : list Z) (vals : list ndarray) : list event :=
  Ev (TrialTensor tr tname) (inr t)
  :: Ev (TensorSteps t) (inr steps)
  :: value_events t steps vals.

(** The service keeps answering descriptions on which the loop goes on
    (a job that failed or was stopped, say), and printing, reading the
    clock and sleeping do not raise. *)
Definition never_training {W} (h : handler W) (cl : client)
  (job_name : string) : Prop :=
  (forall w, exists d w',
      h _ (DescribeTrainingJob cl job_name) w = (inr d, w')
      /\ exits d = false /\ TrainingJobStatus d <> "Completed")
  /\ (forall fmt w, exists now w', h _ (StrftimeGmtime fmt) w = (inr now, w'))
  /\ (forall line w, exists w', h _ (Print line) w = (inr tt, w'))
  /\ (forall seconds w, exists w', h _ (TimeSleep seconds) w = (inr tt, w')).

End NotebookMore.

(** A service on which the job has failed: [describe_training_job]
    always answers ['Failed']; the other calls are answered as in the
    in-memory world. *)
Definition failed_service : handler unit :=
  fun X c _ =>
    (fst (Memory.answer c
            (Memory.mk_world [] [] [mk_description "Failed" "Failed"])),
     tt).

(** ** Where the files go: the upload keys and the training channels *)

Module Storage.

(** [s.endswith(c)] for a one-character [c] *)
Fixpoint ends_with (c : ascii) (s : string) : bool :=
  match s with
  | EmptyString => false
  | String a EmptyString => Ascii.eqb a c
  | String _ s' => ends_with c s'
  end.

(** [os.path.join(a, b)] (posixpath, two arguments) *)
Definition os_path_join (a b : string) : string :=
  if startswith "/" b then b
  else if String.eqb a "" || ends_with "/" a then (a ++ b)%string
  else (a ++ "/" ++ b)%string.

(** The keys of the two objects the upload cell writes. *)
Definition train_key (prefix : string) : string :=
  os_path_join prefix "train/train.csv".

Definition validation_key (prefix : string) : string :=
  os_path_join prefix "validation/validation.csv".

(** The address of the object [Bucket(bucket).Object(key)]. *)
Definition s3_uri (bucket key : string) : string :=
  ("s3://" ++ bucket ++ "/" ++ key)%string.

(** ['s3://{}/{}/train'.format(bucket, prefix)] and
    ['s3://{}/{}/validation/'.format(bucket, prefix)]: the [s3_data] of the
    two training channels, which the service reads as key prefixes. *)
Definition s3_input_train (bucket prefix : string) : string :=
  ("s3://" ++ bucket ++ "/" ++ prefix ++ "/train")%string.

Definition s3_input_validation (bucket prefix : string) : string :=
  ("s3://" ++ bucket ++ "/" ++ prefix ++ "/validation/")%string.

End Storage.

(** ** Reading frames and files *)

Module Reading.
Import Pandas.



(** [s.count(c)] for a one-character [c] *)
Fixpoint count_char (c : ascii) (s : string) : nat :=
  match s with
  | EmptyString => 0
  | String a s' => (if Ascii.eqb a c then 1 else 0) + count_char c s'
  end.

(** The characters of a printed integer. *)
Definition integer_chars : list ascii :=
  ["0"; "1"; "2"; "3"; "4"; "5"; "6"; "7"; "8"; "9"; "-"]%char.

(** The line of a record, without its terminator. *)
Definition csv_line (record : list string) : string :=
  String.concat "," record.

End Reading.

(** * Facts *)

(** ** Strings *)

Lemma str_in_In x xs : str_in x xs = true <-> In x xs.
Proof.
  unfold str_in. rewrite existsb_exists. split.
  - intros [y [Hy Heq]]. apply String.eqb_eq in Heq. now subst.
  - intros H. exists x. split; [assumption | apply String.eqb_refl].
Qed.

Lemma str_in_not_In x xs : str_in x xs = false <-> ~ In x xs.
Proof.
  rewrite <- str_in_In. destruct (str_in x xs); split; intros; congruence.
Qed.

Lemma startswith_app p s : startswith p (p ++ s)%string = true.
Proof.
  unfold startswith. induction p as [|c p IH]; simpl.
  - now destruct s.
  - destruct (ascii_dec c c); [assumption | congruence].
Qed.

Lemma startswith_inv p s :
  startswith p s = true -> exists r, s = (p ++ r)%string.
Proof.
  unfold startswith. revert s. induction p as [|c p IH]; intros s H.
  - exists s. reflexivity.
  - destruct s as [|d s]; simpl in H; [discriminate|].
    destruct (ascii_dec c d) as [->|]; [|discriminate].
    destruct (IH _ H) as [r ->]. now exists r.
Qed.

(** ** Running programs *)

Section NotebookFacts.

Context `{Handles}.
Context {W : Type} (h : handler W).

Notation "x <- p ;; q" := (bind p (fun x => q))
  (at level 61, p at next level, right associativity).

Lemma run_bind {A B} (p : prog A) (f : A -> prog B) (w : W) :
  run h (bind p f) w =
  match run h p w with
  | (inl e, w', log) => (inl e, w', log)
  | (inr a, w', log) =>
      let '(r, w'', log') := run h (f a) w' in (r, w'', log ++ log')
  end.
Proof.
  revert f w.
  induction p as [A a | A e | A X c k IH | A C body IHb hd IHh k IHk];
    intros f w; simpl.
  - now destruct (run h (f a) w) as [[r w'] log'].
  - reflexivity.
  - destruct (h X c w) as [[e | x] w']; [reflexivity|].
    rewrite IH.
    destruct (run h (k x) w') as [[[e | a] w''] log]; [reflexivity|].
    now destruct (run h (f a) w'') as [[r w3] log'].
  - destruct (run h body w) as [[[e | b] w1] log1].
    + destruct (run h (hd e) w1) as [[[e' | b] w2] log2]; [reflexivity|].
      rewrite IHk.
      destruct (run h (k b) w2) as [[[e'' | a] w3] log3]; [reflexivity|].
      destruct (run h (f a) w3) as [[r w4] log4].
      now rewrite <- !app_assoc.
    + rewrite IHk.
      destruct (run h (k b) w1) as [[[e | a] w2] log2]; [reflexivity|].
      destruct (run h (f a) w2) as [[r w3] log3].
      now rewrite <- app_assoc.
Qed.

Lemma run_do {X} (c : call X) (w : W) :
  run h (do c) w =
  match h X c w with
  | (inl e, w') => (inl e, w', [Ev c (inl e)])
  | (inr x, w') => (inr x, w', [Ev c (inr x)])
  end.
Proof. unfold do. simpl. now destruct (h X c w) as [[e | x] w']. Qed.

Lemma run_bind_ok {A B} (p : prog A) (f : A -> prog B) w b w' log :
  run h (bind p f) w = (inr b, w', log) ->
  exists a w1 log1 log2,
    run h p w = (inr a, w1, log1)
    /\ run h (f a) w1 = (inr b, w', log2)
    /\ log = log1 ++ log2.
Proof.
  rewrite run_bind.
  destruct (run h p w) as [[[e | a] w1] log1]; [discriminate|].
  destruct (run h (f a) w1) as [[r w2] log2] eqn:Hf.
  intros Heq. injection Heq as -> -> <-.
  now exists a, w1, log1, log2.
Qed.

Lemma run_do_ok {X} (c : call X) w x w' log :
  run h (do c) w = (inr x, w', log) -> log = [Ev c (inr x)].
Proof.
  rewrite run_do. destruct (h X c w) as [[e | x'] w1]; [discriminate|].
  intros Heq. now injection Heq as -> _ <-.
Qed.

End NotebookFacts.

(** ** Reading tensors: [get_data] *)

Section GetData.

Context `{Handles}.
Context {W : Type} (h : handler W).

Lemma run_values (t : tensor) (steps : list Z) :
  forall w vals w' log,
    run h (list_comp (fun s => do (TensorValue t s)) steps) w
    = (inr vals, w', log) ->
    List.length vals = List.length steps /\ log = value_events t steps vals.
Proof.
  induction steps as [|s steps IH]; intros w vals w' log Hrun.
  - simpl in Hrun. injection Hrun as <- <- <-. now split.
  - simpl in Hrun.
    destruct (h ndarray (TensorValue t s) w) as [[e | v] w1];
      [discriminate|].
    rewrite run_bind in Hrun.
    destruct (run h (list_comp (fun s0 => do (TensorValue t s0)) steps) w1)
      as [[[e | vs] w2] log1] eqn:Hrest; [discriminate|].
    simpl in Hrun. injection Hrun as <- <- <-.
    destruct (IH _ _ _ _ Hrest) as [Hlen ->].
    split; [simpl; now rewrite Hlen | now rewrite app_nil_r].
Qed.

Lemma value_events_reads (t : tensor) steps vals :
  forallb is_trial_read (value_events t steps vals) = true.
Proof.
  unfold value_events. apply forallb_forall. intros ev Hin.
  apply in_map_iff in Hin. destruct Hin as [sv [<- _]]. reflexivity.
Qed.

(** The log of a [get_data] that returned. *)
Lemma run_get_data_ok (tr : trial) (tname : string) (w : W)
  (steps : list Z) (vals : list ndarray) (w' : W) (log : list event) :
  run h (get_data tr tname) w = (inr (steps, vals), w', log) ->
  exists t,
    log = get_data_events tr tname t steps vals
    /\ List.length vals = List.length steps.
Proof.
  intros Hrun. unfold get_data in Hrun.
  apply run_bind_ok in Hrun.
  destruct Hrun as (t & w1 & l1 & l1' & H1 & Hrun & ->).
  apply run_do_ok in H1. subst l1.
  apply run_bind_ok in Hrun.
  destruct Hrun as (steps' & w2 & l2 & l2' & H2 & Hrun & ->).
  apply run_do_ok in H2. subst l2.
  apply run_bind_ok in Hrun.
  destruct Hrun as (vs & w3 & l3 & l3' & Hvals & Hret & ->).
  simpl in Hret. injection Hret as <- <- <- <-.
  destruct (run_values _ _ _ _ _ _ Hvals) as [Hlen ->].
  exists t. split; [|exact Hlen].
  unfold get_data_events. now rewrite app_nil_r.
Qed.

Lemma get_data_events_reads tr tname (t : tensor) steps vals :
  forallb is_trial_read (get_data_events tr tname t steps vals) = true.
Proof. unfold get_data_events. simpl. apply value_events_reads. Qed.

(** C7: [get_data] returns what the store answered, unchanged and in
    order.  When it returns [(steps, vals)], the calls it made are
    exactly [trial.tensor(tname)], [tensor.steps()] (answered [steps])
    and one [tensor.value(s)] per step in order, answered by the
    corresponding element of [vals]; both lists have the same length,
    and every call made is a read of the store. *)
Theorem get_data_pass_through (tr : trial) (tname : string) (w : W)
  (steps : list Z) (vals : list ndarray) (w' : W) (log : list event) :
  run h (get_data tr tname) w = (inr (steps, vals), w', log) ->
  exists t,
    log = Ev (TrialTensor tr tname) (inr t)
          :: Ev (TensorSteps t) (inr steps)
          :: value_events t steps vals
    /\ List.length vals = List.length steps
    /\ (forall i, (i < List.length steps)%nat ->
          forall d0 d1,
            In (Ev (TensorValue t (nth i steps d0)) (inr (nth i vals d1)))
               log)
    /\ forallb is_trial_read log = true.
Proof.
  intros Hrun. unfold get_data in Hrun. simpl in Hrun.
  destruct (h tensor (TrialTensor tr tname) w) as [[e | t] w1];
    [discriminate|].
  destruct (h (list Z) (TensorSteps t) w1) as [[e | steps'] w2];
    [discriminate|].
  rewrite run_bind in Hrun.
  destruct (run h (list_comp (fun s => do (TensorValue t s)) steps') w2)
    as [[[e | vs] w3] log1] eqn:Hvals; [discriminate|].
  simpl in Hrun. injection Hrun as <- <- <- <-.
  destruct (run_values _ _ _ _ _ _ Hvals) as [Hlen ->].
  exists t. rewrite app_nil_r. repeat split.
  - exact Hlen.
  - intros i Hi d0 d1. right. right. unfold value_events.
    apply in_map_iff. exists (nth i steps' d0, nth i vs d1). split.
    + reflexivity.
    + rewrite <- combine_nth by (symmetry; exact Hlen).
      apply nth_In. rewrite length_combine, Hlen. lia.
  - simpl. apply value_events_reads.
Qed.

(** [get_data] returns whenever the store answers its reads. *)
Lemma get_data_returns (tr : trial) (tname : string) (w : W) :
  (forall X (c : call X) w0,
      is_read_call c = true -> exists x w1, h X c w0 = (inr x, w1)) ->
  exists steps vals w' log,
    run h (get_data tr tname) w = (inr (steps, vals), w', log).
Proof.
  intros Hreads. unfold get_data. rewrite run_bind, run_do.
  destruct (Hreads _ (TrialTensor tr tname) w eq_refl) as (t & w1 & ->).
  rewrite run_bind, run_do.
  destruct (Hreads _ (TensorSteps t) w1 eq_refl) as (steps & w2 & ->).
  assert (Hvals : forall w0, exists vals w' log,
            run h (list_comp (fun s => do (TensorValue t s)) steps) w0
            = (inr vals, w', log)).
  { induction steps as [|s steps IH]; intros w0.
    - now exists [], w0, [].
    - cbn [list_comp]. rewrite run_bind, run_do.
      destruct (Hreads _ (TensorValue t s) w0 eq_refl) as (v & w3 & ->).
      rewrite run_bind.
      destruct (IH w3) as (vals & w4 & log & ->).
      now exists (v :: vals), w4, ([Ev (TensorValue t s) (inr v)]
                                  ++ log ++ []). }
  rewrite run_bind. destruct (Hvals w2) as (vals & w3 & log & ->).
  cbn [run]. now eexists steps, vals, w3, _.
Qed.

End GetData.

(** ** Plotting: [plot_collection] and [plot_feature_importance] *)

Section Plotting.

Context `{Handles}.
Context {W : Type} (h : handler W).

Lemma filter_map_app {X Y} (f : X -> option Y) xs ys :
  filter_map f (xs ++ ys) = filter_map f xs ++ filter_map f ys.
Proof.
  induction xs as [|x xs IH]; simpl; [reflexivity|].
  destruct (f x); simpl; now rewrite IH.
Qed.

Lemma filter_map_none {X Y} (f : X -> option Y) xs :
  (forall x, In x xs -> f x = None) -> filter_map f xs = [].
Proof.
  induction xs as [|x xs IH]; intros Hf; simpl; [reflexivity|].
  rewrite (Hf x) by now left. apply IH. intros x' Hx'. apply Hf. now right.
Qed.

Lemma filter_map_In {X Y} (f : X -> option Y) xs y :
  In y (filter_map f xs) -> exists x, In x xs /\ f x = Some y.
Proof.
  induction xs as [|x xs IH]; simpl; [contradiction|].
  destruct (f x) as [y'|] eqn:Hfx.
  - intros [<- | Hin].
    + exists x. split; [now left | assumption].
    + destruct (IH Hin) as [x' [Hx' Hf]]. exists x'. split; [now right | assumption].
  - intros Hin. destruct (IH Hin) as [x' [Hx' Hf]].
    exists x'. split; [now right | assumption].
Qed.

Lemma read_not_match ev : is_trial_read ev = true -> rematch_of ev = None.
Proof. destruct ev as [X c r]. now destruct c. Qed.

Lemma read_not_plot ev : is_trial_read ev = true -> plotted_label ev = None.
Proof. destruct ev as [X c r]. now destruct c. Qed.

Lemma rematch_of_inv ev regex s b :
  rematch_of ev = Some (regex, s, b) -> ev = Ev (ReMatch regex s) (inr b).
Proof.
  destruct ev as [X c r]. destruct c; simpl; try discriminate.
  destruct r as [e | b']; [discriminate|].
  intros Heq. injection Heq as -> -> ->. reflexivity.
Qed.

(** Every logged answer is an answer of the handler. *)
Lemma run_log_answers {A} (p : prog A) :
  forall w r w' log, run h p w = (r, w', log) ->
  forall ev, In ev log -> answered_by h ev.
Proof.
  induction p as [A a | A e | A Y c k IH | A C body IHb hd IHh k IHk];
    intros w r w' log Hrun ev Hin; simpl in Hrun.
  - injection Hrun as <- <- <-. contradiction.
  - injection Hrun as <- <- <-. contradiction.
  - destruct (h Y c w) as [[e | x] w1] eqn:Hh.
    + injection Hrun as <- <- <-. destruct Hin as [<- | []].
      exists w. now rewrite Hh.
    + destruct (run h (k x) w1) as [[r1 w2] log1] eqn:Hk.
      injection Hrun as <- <- <-. destruct Hin as [<- | Hin].
      * exists w. now rewrite Hh.
      * exact (IH x _ _ _ _ Hk _ Hin).
  - destruct (run h body w) as [[[e | b] w1] log1] eqn:Hb.
    + destruct (run h (hd e) w1) as [[[e' | b] w2] log2] eqn:Hh.
      * injection Hrun as <- <- <-. apply in_app_or in Hin.
        destruct Hin as [Hin | Hin];
          [exact (IHb _ _ _ _ Hb _ Hin) | exact (IHh e _ _ _ _ Hh _ Hin)].
      * destruct (run h (k b) w2) as [[r1 w3] log3] eqn:Hk.
        injection Hrun as <- <- <-. apply in_app_or in Hin.
        destruct Hin as [Hin | Hin]; [exact (IHb _ _ _ _ Hb _ Hin)|].
        apply in_app_or in Hin.
        destruct Hin as [Hin | Hin];
          [exact (IHh e _ _ _ _ Hh _ Hin) | exact (IHk b _ _ _ _ Hk _ Hin)].
    + destruct (run h (k b) w1) as [[r1 w2] log2] eqn:Hk.
      injection Hrun as <- <- <-. apply in_app_or in Hin.
      destruct Hin as [Hin | Hin];
        [exact (IHb _ _ _ _ Hb _ Hin) | exact (IHk b _ _ _ _ Hk _ Hin)].
Qed.

Lemma reads_no_matches log :
  forallb is_trial_read log = true -> rematches log = [] /\ plotted log = [].
Proof.
  intros Hreads. rewrite forallb_forall in Hreads. split.
  - apply filter_map_none. intros ev Hin. apply read_not_match. auto.
  - apply filter_map_none. intros ev Hin. apply read_not_plot. auto.
Qed.

Lemma run_plot_if_match tr regex ax name w w' log :
  run h (plot_if_match tr regex ax name) w = (inr tt, w', log) ->
  exists b : bool,
    rematches log = [(regex, name, b)]
    /\ plotted log = if b then [name] else [].
Proof.
  unfold plot_if_match. intros Hrun.
  apply run_bind_ok in Hrun.
  destruct Hrun as (b & w1 & log1 & log2 & Hm & Hrest & ->).
  apply run_do_ok in Hm. subst log1. exists b. destruct b.
  - apply run_bind_ok in Hrest.
    destruct Hrest as ([steps data] & w2 & log3 & log4 & Hgd & Hplot & ->).
    apply run_do_ok in Hplot. subst log4.
    destruct (run_get_data_ok h _ _ _ _ _ _ _ Hgd) as (t & -> & _).
    pose proof (get_data_events_reads tr name t steps data) as Hreads.
    destruct (reads_no_matches _ Hreads) as [Hm Hp].
    unfold rematches, plotted in *.
    rewrite !filter_map_app, Hm, Hp. split; reflexivity.
  - simpl in Hrest. injection Hrest as <- <-. now split.
Qed.

Lemma run_for_each_names tr regex ax names :
  forall w w' log,
    run h (for_each names (plot_if_match tr regex ax)) w = (inr tt, w', log) ->
    exists bs : list bool,
      List.length bs = List.length names
      /\ rematches log
         = map (fun nb => (regex, fst nb, snd nb)) (combine names bs)
      /\ plotted log = map fst (filter snd (combine names bs)).
Proof.
  induction names as [|name names IH]; intros w w' log Hrun.
  - simpl in Hrun. injection Hrun as <- <-. exists []. now repeat split.
  - change (for_each (name :: names) (plot_if_match tr regex ax))
      with (bind (plot_if_match tr regex ax name)
              (fun _ => for_each names (plot_if_match tr regex ax))) in Hrun.
    apply run_bind_ok in Hrun.
    destruct Hrun as ([] & w1 & log1 & log2 & Hbody & Hrest & ->).
    destruct (run_plot_if_match _ _ _ _ _ _ _ Hbody) as (b & Hm1 & Hp1).
    destruct (IH _ _ _ Hrest) as (bs & Hlen & Hm2 & Hp2).
    exists (b :: bs). unfold rematches, plotted in *.
    rewrite !filter_map_app, Hm1, Hp1, Hm2, Hp2. repeat split.
    + simpl. now rewrite Hlen.
    + destruct b; reflexivity.
Qed.

(** [sorted] returns the names in non-decreasing order, each as often as
    it was given. *)
Lemma sorted_spec names :
  Permutation names (sorted names)
  /\ Sorted (fun a b => String.leb a b = true) (sorted names).
Proof.
  split.
  - apply StringSort.Permuted_sort.
  - unfold sorted.
    pose proof (StringSort.Sorted_sort names) as Hs.
    induction Hs as [|a l Hl IH Hhd]; constructor; [assumption|].
    destruct Hhd; constructor. assumption.
Qed.

(** What a successful [plot_collection] did, read off its log. *)
Lemma run_plot_collection tr cname regex figsize w w' log :
  run h (plot_collection tr cname regex figsize) w = (inr tt, w', log) ->
  exists c names (bs : list bool),
    In (Ev (TrialCollection tr cname) (inr c)) log
    /\ In (Ev (CollectionTensorNames c) (inr names)) log
    /\ List.length bs = List.length (sorted names)
    /\ rematches log
       = map (fun nb => (regex, fst nb, snd nb)) (combine (sorted names) bs)
    /\ plotted log = map fst (filter snd (combine (sorted names) bs)).
Proof.
  unfold plot_collection. intros Hrun.
  apply run_bind_ok in Hrun.
  destruct Hrun as ([fig ax] & w1 & l1 & l1' & H1 & Hrun & ->).
  apply run_do_ok in H1. subst l1.
  apply run_bind_ok in Hrun.
  destruct Hrun as (u & w2 & l2 & l2' & H2 & Hrun & ->).
  apply run_do_ok in H2. subst l2.
  apply run_bind_ok in Hrun.
  destruct Hrun as (c & w3 & l3 & l3' & H3 & Hrun & ->).
  apply run_do_ok in H3. subst l3.
  apply run_bind_ok in Hrun.
  destruct Hrun as (names & w4 & l4 & l4' & H4 & Hrun & ->).
  apply run_do_ok in H4. subst l4.
  apply run_bind_ok in Hrun.
  destruct Hrun as ([] & w5 & l5 & l5' & Hloop & Hrun & ->).
  apply run_bind_ok in Hrun.
  destruct Hrun as (u6 & w6 & l6 & l6' & H6 & H7 & ->).
  apply run_do_ok in H6. subst l6. apply run_do_ok in H7. subst l6'.
  destruct (run_for_each_names _ _ _ _ _ _ _ Hloop) as (bs & Hlen & Hm & Hp).
  exists c, names, bs. repeat split.
  - right. right. now left.
  - right. right. right. now left.
  - exact Hlen.
  - unfold rematches in *. simpl. rewrite filter_map_app, Hm. simpl.
    now rewrite app_nil_r.
  - unfold plotted in *. simpl. rewrite filter_map_app, Hp. simpl.
    now rewrite app_nil_r.
Qed.

Lemma combine_determined {X} (f : X -> bool) (xs : list X) :
  forall bs : list bool,
    List.length bs = List.length xs ->
    (forall x b, In (x, b) (combine xs bs) -> b = f x) ->
    map fst (filter snd (combine xs bs)) = filter f xs.
Proof.
  induction xs as [|x xs IH]; intros bs Hlen Hdet.
  - reflexivity.
  - destruct bs as [|b bs]; [discriminate|]. simpl in *.
    rewrite <- (Hdet x b) by now left.
    destruct b; simpl; rewrite IH; auto.
Qed.

Lemma gain_excludes_total n :
  startswith "feature_importance/gain/" n = true ->
  startswith "feature_importance/total_gain/" n = false.
Proof. intros Hp. destruct (startswith_inv _ _ Hp) as [r ->]. reflexivity. Qed.

Lemma cover_excludes_total n :
  startswith "feature_importance/cover/" n = true ->
  startswith "feature_importance/total_cover/" n = false.
Proof. intros Hp. destruct (startswith_inv _ _ Hp) as [r ->]. reflexivity. Qed.

Lemma run_plot_collection_answers tr cname regex m figsize w w' log :
  re_answers h regex m ->
  run h (plot_collection tr cname regex figsize) w = (inr tt, w', log) ->
  exists c names,
    In (Ev (TrialCollection tr cname) (inr c)) log
    /\ In (Ev (CollectionTensorNames c) (inr names)) log
    /\ plotted log = filter m (sorted names).
Proof.
  intros Hre Hrun.
  destruct (run_plot_collection _ _ _ _ _ _ _ Hrun)
    as (c & names & bs & Hc & Hn & Hlen & Hm & Hp).
  exists c, names. repeat split; [assumption | assumption |].
  rewrite Hp. apply combine_determined; [exact Hlen|].
  intros n b Hin.
  assert (Hlogged : In (regex, n, b) (rematches log)).
  { rewrite Hm. apply in_map_iff. now exists (n, b). }
  apply filter_map_In in Hlogged. destruct Hlogged as (ev & Hev & Hof).
  apply rematch_of_inv in Hof. subst ev.
  destruct (run_log_answers _ _ _ _ _ Hrun _ Hev) as [w0 Hans].
  rewrite (Hre n w0) in Hans. now injection Hans.
Qed.

Lemma run_plot_feature_importance (tr : trial) (t : string) (w : W) :
  if str_in t SUPPORTED_IMPORTANCE_TYPES then
    run h (plot_feature_importance tr t) w
    = run h (plot_collection tr "feature_importance"
               ("feature_importance/" ++ t ++ "/.*") default_figsize) w
    /\ exists a rest,
        snd (run h (plot_feature_importance tr t) w)
        = Ev (PltSubplots default_figsize) a :: rest
  else
    run h (plot_feature_importance tr t) w
    = (inl (ValueError
              (t ++ " is not one of the supported importance types.")),
       w, []).
Proof.
  unfold plot_feature_importance.
  destruct (str_in t SUPPORTED_IMPORTANCE_TYPES); simpl; [|reflexivity].
  split; [reflexivity|].
  destruct (h _ (PltSubplots default_figsize) w) as [[e | [fig ax]] w1].
  - now exists (inl e), [].
  - match goal with
    | |- context [run h ?p w1] => destruct (run h p w1) as [[r w2] log]
    end.
    now exists (inr (fig, ax)), log.
Qed.

(** C1: [plot_feature_importance] checks [importance_type] before
    anything else.  For a value outside the supported list the run is
    the [ValueError] alone: no call is made (the log is empty, so
    [plot_collection] is not entered and no figure is created) and the
    world is untouched.  For a value in the list no [ValueError] of the
    validation is raised: the run is the run of [plot_collection] on the
    collection ["feature_importance"], and its first call is
    [plt.subplots]. *)
Theorem plot_feature_importance_validates (tr : trial) (t : string) (w : W) :
  (~ In t ["weight"; "gain"; "cover"; "total_gain"; "total_cover"] ->
   run h (plot_feature_importance tr t) w
   = (inl (ValueError
             (t ++ " is not one of the supported importance types.")),
      w, []))
  /\ (In t ["weight"; "gain"; "cover"; "total_gain"; "total_cover"] ->
      run h (plot_feature_importance tr t) w
      = run h (plot_collection tr "feature_importance"
                 ("feature_importance/" ++ t ++ "/.*") default_figsize) w
      /\ exists a rest,
          snd (run h (plot_feature_importance tr t) w)
          = Ev (PltSubplots default_figsize) a :: rest).
Proof.
  pose proof (run_plot_feature_importance tr t w) as Hrun.
  fold SUPPORTED_IMPORTANCE_TYPES. split; intros Hin.
  - apply str_in_not_In in Hin. now rewrite Hin in Hrun.
  - apply str_in_In in Hin. now rewrite Hin in Hrun.
Qed.

(** C9: which tensors get plotted.  For every world: a successful
    [plot_collection] asks [re.match] once per name of the collection,
    in sorted order, and plots exactly the names for which it answered a
    match, in that order.  So when [re.match] answers [m] on the names
    for the pattern passed, the plotted names are the sorted names
    filtered by [m].  For the pattern of
    [plot_feature_importance(trial, t)] the library answers whether the
    name starts with ["feature_importance/<t>/"] (a literal text
    followed by [.*], matched from the start of the name): then exactly
    the sorted names with that start are plotted, so that for ["gain"]
    no ["feature_importance/total_gain/..."] tensor is plotted, and for
    ["cover"] no ["feature_importance/total_cover/..."] tensor. *)
Theorem plot_collection_selects :
  (forall tr cname regex figsize w w' log,
      run h (plot_collection tr cname regex figsize) w = (inr tt, w', log) ->
      exists c names (bs : list bool),
        In (Ev (TrialCollection tr cname) (inr c)) log
        /\ In (Ev (CollectionTensorNames c) (inr names)) log
        /\ Permutation names (sorted names)
        /\ Sorted (fun a b => String.leb a b = true) (sorted names)
        /\ List.length bs = List.length (sorted names)
        /\ rematches log
           = map (fun nb => (regex, fst nb, snd nb))
                 (combine (sorted names) bs)
        /\ plotted log = map fst (filter snd (combine (sorted names) bs)))
  /\ (forall tr cname regex m figsize w w' log,
        re_answers h regex m ->
        run h (plot_collection tr cname regex figsize) w = (inr tt, w', log) ->
        exists c names,
          In (Ev (TrialCollection tr cname) (inr c)) log
          /\ In (Ev (CollectionTensorNames c) (inr names)) log
          /\ plotted log = filter m (sorted names))
  /\ (forall tr t w w' log,
        re_answers h ("feature_importance/" ++ t ++ "/.*")
          (startswith (importance_prefix t)) ->
        run h (plot_feature_importance tr t) w = (inr tt, w', log) ->
        exists c names,
          In (Ev (TrialCollection tr "feature_importance") (inr c)) log
          /\ In (Ev (CollectionTensorNames c) (inr names)) log
          /\ plotted log
             = filter (startswith (importance_prefix t)) (sorted names)
          /\ (t = "gain" ->
              Forall (fun n =>
                startswith "feature_importance/total_gain/" n = false)
                (plotted log))
          /\ (t = "cover" ->
              Forall (fun n =>
                startswith "feature_importance/total_cover/" n = false)
                (plotted log))).
Proof.
  split; [|split].
  - intros tr cname regex figsize w w' log Hrun.
    destruct (run_plot_collection _ _ _ _ _ _ _ Hrun)
      as (c & names & bs & Hc & Hn & Hlen & Hm & Hp).
    destruct (sorted_spec names) as [Hperm Hsorted].
    exists c, names, bs. repeat split; assumption.
  - intros tr cname regex m figsize w w' log Hre Hrun.
    exact (run_plot_collection_answers _ _ _ _ _ _ _ _ Hre Hrun).
  - intros tr t w w' log Hre Hrun.
    pose proof (run_plot_feature_importance tr t w) as Hv.
    destruct (str_in t SUPPORTED_IMPORTANCE_TYPES) eqn:Hsup.
    + destruct Hv as [Hv _]. rewrite Hv in Hrun.
      destruct (run_plot_collection_answers _ _ _ _ _ _ _ _ Hre Hrun)
        as (c & names & Hc & Hn & Hp).
      exists c, names. repeat split; try assumption.
      * intros ->. rewrite Hp. apply Forall_forall. intros n Hin.
        apply filter_In in Hin. apply gain_excludes_total, Hin.
      * intros ->. rewrite Hp. apply Forall_forall. intros n Hin.
        apply filter_In in Hin. apply cover_excludes_total, Hin.
    + rewrite Hv in Hrun. discriminate.
Qed.

End Plotting.

(** ** Waiting for the training job *)

Section Polling.

Context `{Handles}.
Context {W : Type} (h : handler W).

Lemma last_cons {X} (l : list X) :
  forall a d, last (a :: l) d = last l a.
Proof.
  induction l as [|b l IH]; intros a d; [reflexivity|].
  change (last (a :: b :: l) d) with (last (b :: l) d).
  rewrite (IH b d), (IH b a). reflexivity.
Qed.

Lemma poll_loop_eq (fuel : nat) (cl : client) (job_name : string) d :
  poll_loop fuel cl job_name d =
  if negb (exits d) then
    match fuel with
    | O => Ret None
    | S fuel' =>
        bind (do (DescribeTrainingJob cl job_name)) (fun d' =>
        bind (do (StrftimeGmtime "%X")) (fun now =>
        bind (do (Print (now ++ ": " ++ TrainingJobStatus d' ++ ", "
                             ++ SecondaryStatus d'))) (fun _ =>
        bind (do (TimeSleep 15)) (fun _ =>
        poll_loop fuel' cl job_name d'))))
    end
  else Ret (Some d).
Proof. destruct fuel; reflexivity. Qed.

Lemma run_poll_loop (cl : client) (job_name : string) (fuel : nat) :
  forall d w res w' log,
    run h (poll_loop fuel cl job_name d) w = (inr res, w', log) ->
    exists polls : list (description * string),
      log = flat_map (poll_events cl job_name) polls
      /\ Forall (fun d' => exits d' = false)
                (removelast (d :: map fst polls))
      /\ match res with
         | Some d' => d' = last (map fst polls) d /\ exits d' = true
         | None => List.length polls = fuel
                   /\ exits (last (map fst polls) d) = false
         end.
Proof.
  induction fuel as [|fuel IH]; intros d w res w' log Hrun;
    rewrite poll_loop_eq in Hrun.
  - destruct (exits d) eqn:Hd; simpl in Hrun; injection Hrun as <- <- <-;
      exists []; simpl; repeat split; auto.
  - destruct (exits d) eqn:Hd; cbn [negb] in Hrun.
    + simpl in Hrun. injection Hrun as <- <- <-. exists []. simpl.
      repeat split; auto.
    + apply run_bind_ok in Hrun.
      destruct Hrun as (d1 & w1 & l1 & l1' & H1 & Hrun & ->).
      apply run_do_ok in H1. subst l1.
      apply run_bind_ok in Hrun.
      destruct Hrun as (now & w2 & l2 & l2' & H2 & Hrun & ->).
      apply run_do_ok in H2. subst l2.
      apply run_bind_ok in Hrun.
      destruct Hrun as (u & w3 & l3 & l3' & H3 & Hrun & ->).
      apply run_do_ok in H3. subst l3.
      apply run_bind_ok in Hrun.
      destruct Hrun as (u' & w4 & l4 & log5 & H4 & Hrest & ->).
      apply run_do_ok in H4. subst l4.
      destruct (IH _ _ _ _ _ Hrest) as (polls & -> & Hall & Hres).
      exists ((d1, now) :: polls). destruct u, u'. repeat split.
      * change (removelast (d :: map fst ((d1, now) :: polls)))
          with (d :: removelast (d1 :: map fst polls)).
        constructor; assumption.
      * change (map fst ((d1, now) :: polls)) with (d1 :: map fst polls).
        rewrite last_cons. destruct res as [d'|].
        -- exact Hres.
        -- destruct Hres as [Hlen He]. split; [simpl; now rewrite Hlen|].
           exact He.
Qed.

(** C5, as the code has it: what the waiting cell does.  After the first
    [describe_training_job] and two prints, each iteration of the loop
    re-queries the job, prints a line and sleeps 15 seconds.  The loop is
    entered only if [TrainingJobStatus] is not ['Completed'], it goes on
    as long as [SecondaryStatus] is neither ['Training'] nor
    ['Completed'], and it exits at the first description whose
    [SecondaryStatus] is one of the two.  Running out of fuel means that
    every one of [fuel] polls was answered with another status. *)
Theorem wait_for_training_exit (cl : client) (job_name : string)
  (fuel : nat) (w : W) (res : option description) (w' : W)
  (log : list event) :
  run h (wait_for_training fuel cl job_name) w = (inr res, w', log) ->
  exists (d0 : description) (polls : list (description * string)),
    log = header_events cl job_name d0
          ++ flat_map (poll_events cl job_name) polls
    /\ Forall (fun d => exits d = false) (removelast (d0 :: map fst polls))
    /\ (polls <> [] -> TrainingJobStatus d0 <> "Completed")
    /\ match res with
       | Some d =>
           d = last (map fst polls) d0
           /\ (exits d = true
               \/ (polls = [] /\ TrainingJobStatus d = "Completed"))
       | None =>
           List.length polls = fuel
           /\ exits (last (map fst polls) d0) = false
       end.
Proof.
  unfold wait_for_training. intros Hrun.
  apply run_bind_ok in Hrun.
  destruct Hrun as (d0 & w1 & l1 & l1' & H1 & Hrun & ->).
  apply run_do_ok in H1. subst l1.
  apply run_bind_ok in Hrun.
  destruct Hrun as (u & w2 & l2 & l2' & H2 & Hrun & ->).
  apply run_do_ok in H2. subst l2.
  apply run_bind_ok in Hrun.
  destruct Hrun as (u' & w3 & l3 & log4 & H3 & Hloop & ->).
  apply run_do_ok in H3. subst l3.
  exists d0. destruct u, u'.
  destruct (String.eqb (TrainingJobStatus d0) "Completed") eqn:Hc;
    cbn [negb] in Hloop.
  - simpl in Hloop. injection Hloop as <- <- <-. exists [].
    apply String.eqb_eq in Hc. simpl. repeat split; auto.
  - destruct (run_poll_loop _ _ _ _ _ _ _ _ Hloop)
      as (polls & -> & Hall & Hres).
    exists polls. repeat split.
    + exact Hall.
    + intros _ Heq. rewrite Heq in Hc. discriminate.
    + destruct res as [d|].
      * destruct Hres as [-> He]. split; [reflexivity | now left].
      * exact Hres.
Qed.

End Polling.

(** ** Floats: the split points *)

Module Float64Facts.
Import Float64.
Local Open Scope Z_scope.

(** The model agrees with the Standard Library's IEEE 754 operations on
    the length of the data set and on lengths around it. *)
Example int_mul_agrees_with_spec :
  forallb (fun n =>
             (int_mul_Z lit_0_7 n =? spec_int_mul_Z lit_0_7 n)
             && (int_mul_Z lit_0_9 n =? spec_int_mul_Z lit_0_9 n))
          [0; 1; 2; 3; 4; 5; 7; 10; 30; 100; 1000; 41188;
           2 ^ 53 + 1; 2 ^ 53 + 3; 2 ^ 63 - 1]
  = true.
Proof. vm_compute. reflexivity. Qed.

Example split_points_of_bank_data :
  int_mul_Z lit_0_7 41188 = 28831 /\ int_mul_Z lit_0_9 41188 = 37069.
Proof. vm_compute. split; reflexivity. Qed.

Lemma bits_bounds m k :
  0 < k -> bits m - 53 = k -> 2 ^ 52 * 2 ^ k <= m.
Proof.
  unfold bits. intros Hk Hb. destruct (Z.eqb_spec m 0) as [->|Hm]; [lia|].
  assert (0 < m).
  { destruct (Z.lt_trichotomy m 0) as [Hneg | [-> | Hpos]]; try lia.
    rewrite Z.log2_nonpos in Hb by lia. lia. }
  pose proof (Z.log2_spec m ltac:(assumption)) as [Hlo _].
  replace (Z.log2 m) with (52 + k) in Hlo by lia.
  rewrite Z.pow_add_r in Hlo by lia. exact Hlo.
Qed.

(** Rounding moves a value by at most one part in [2^52]; stated on the
    values scaled by [2^s] so that they are integers. *)
Lemma round_bounds m e s :
  0 <= m -> 0 <= e + s ->
  let f := round m e in
  0 <= mant f
  /\ e <= expo f
  /\ 2 ^ 52 * (mant f * 2 ^ (expo f + s))
     <= (2 ^ 52 + 1) * (m * 2 ^ (e + s))
  /\ (2 ^ 52 - 1) * (m * 2 ^ (e + s))
     <= 2 ^ 52 * (mant f * 2 ^ (expo f + s)).
Proof.
  intros Hm Hes. unfold round.
  assert (HB : 0 < 2 ^ (e + s)) by (apply Z.pow_pos_nonneg; lia).
  assert (H52 : 2 ^ 52 = 4503599627370496) by reflexivity.
  destruct (Z.leb_spec (bits m - 53) 0) as [Hk | Hk]; simpl mant; simpl expo.
  - rewrite H52. set (B := 2 ^ (e + s)) in *.
    assert (0 <= m * B) by nia. repeat split; lia.
  - set (k := bits m - 53) in *.
    assert (HK : 0 < 2 ^ k) by (apply Z.pow_pos_nonneg; lia).
    pose proof (bits_bounds m k Hk eq_refl) as Hlo.
    pose proof (Z.div_mod m (2 ^ k) ltac:(lia)) as Hdm.
    pose proof (Z.mod_pos_bound m (2 ^ k) HK) as Hr.
    set (q := m / 2 ^ k) in *. set (r := m mod 2 ^ k) in *.
    assert (Hq : 0 <= q) by (apply Z.div_pos; lia).
    replace (e + k + s) with (k + (e + s)) by lia.
    rewrite Z.pow_add_r by lia.
    set (B := 2 ^ (e + s)) in *. set (K := 2 ^ k) in *.
    rewrite H52 in *.
    assert (HqK : q * K <= m /\ m < q * K + K) by lia.
    destruct ((2 ^ (k - 1) <? r) || ((r =? 2 ^ (k - 1)) && Z.odd q)).
    + assert (H1 : 4503599627370496 * ((q + 1) * K)
                   <= (4503599627370496 + 1) * m) by lia.
      assert (H2 : (4503599627370496 - 1) * m
                   <= 4503599627370496 * ((q + 1) * K)) by lia.
      apply (Z.mul_le_mono_nonneg_r _ _ B) in H1; [|lia].
      apply (Z.mul_le_mono_nonneg_r _ _ B) in H2; [|lia].
      repeat split; lia.
    + assert (H1 : 4503599627370496 * (q * K)
                   <= (4503599627370496 + 1) * m) by lia.
      assert (H2 : (4503599627370496 - 1) * m
                   <= 4503599627370496 * (q * K)) by lia.
      apply (Z.mul_le_mono_nonneg_r _ _ B) in H1; [|lia].
      apply (Z.mul_le_mono_nonneg_r _ _ B) in H2; [|lia].
      repeat split; lia.
Qed.

Lemma to_int_scaled f :
  0 <= mant f -> 0 <= expo f + 53 ->
  to_int f = (mant f * 2 ^ (expo f + 53)) / 2 ^ 53.
Proof.
  intros Hm He. unfold to_int.
  destruct (Z.leb_spec 0 (expo f)) as [Hpos | Hneg].
  - rewrite Z.pow_add_r by lia. rewrite Z.mul_assoc.
    rewrite Z.div_mul by (apply Z.pow_nonzero; lia). reflexivity.
  - replace (2 ^ 53) with (2 ^ (- expo f) * 2 ^ (expo f + 53)).
    + rewrite Z.div_mul_cancel_r; [reflexivity | |];
        apply Z.pow_nonzero; lia.
    + rewrite <- Z.pow_add_r by lia. f_equal. lia.
Qed.

(** The scaled value of [c * n] for a literal [c = M / 2^53]. *)
Lemma int_mul_scaled M n :
  0 <= M -> 0 <= n ->
  let X := mant (of_int n) * 2 ^ (expo (of_int n) + 0) in
  exists S,
    int_mul_Z (mk_float M (-53)) n = S / 2 ^ 53
    /\ 0 <= X /\ 0 <= S
    /\ 2 ^ 52 * X <= (2 ^ 52 + 1) * n
    /\ 2 ^ 52 * S <= (2 ^ 52 + 1) * (M * X)
    /\ (2 ^ 52 - 1) * (M * X) <= 2 ^ 52 * S.
Proof.
  intros HM Hn. unfold int_mul_Z, of_int, mul. cbn [mant expo]. cbv zeta.
  destruct (round_bounds n 0 0 Hn ltac:(lia)) as (Hmx & Hex & Hup & _).
  set (x := round n 0) in *.
  assert (Hp : 0 <= M * mant x) by nia.
  destruct (round_bounds (M * mant x) (-53 + expo x) 53 Hp ltac:(lia))
    as (Hmf & Hef & Hfu & Hfl).
  set (f := round (M * mant x) (-53 + expo x)) in *.
  exists (mant f * 2 ^ (expo f + 53)).
  assert (HBx : 0 < 2 ^ (expo x + 0)) by (apply Z.pow_pos_nonneg; lia).
  assert (HBf : 0 < 2 ^ (expo f + 53)) by (apply Z.pow_pos_nonneg; lia).
  replace (-53 + expo x + 53) with (expo x + 0) in * by lia.
  replace (n * 2 ^ (0 + 0)) with n in Hup by (simpl; lia).
  repeat split.
  - apply to_int_scaled; lia.
  - nia.
  - nia.
  - exact Hup.
  - rewrite <- Z.mul_assoc in Hfu. exact Hfu.
  - rewrite <- Z.mul_assoc in Hfl. exact Hfl.
Qed.

(** [0 <= int(0.7 * n) <= int(0.9 * n) <= n] *)
Lemma split_points_ordered_Z n :
  0 <= n ->
  0 <= int_mul_Z lit_0_7 n
  /\ int_mul_Z lit_0_7 n <= int_mul_Z lit_0_9 n
  /\ int_mul_Z lit_0_9 n <= n.
Proof.
  intros Hn. unfold lit_0_7, lit_0_9.
  destruct (int_mul_scaled 6305039478318694 n ltac:(lia) Hn)
    as (S7 & -> & HX & HS7 & HXn & H7u & H7l).
  destruct (int_mul_scaled 8106479329266893 n ltac:(lia) Hn)
    as (S9 & -> & _ & HS9 & _ & H9u & H9l).
  set (X := mant (of_int n) * 2 ^ (expo (of_int n) + 0)) in *.
  assert (H52 : 2 ^ 52 = 4503599627370496) by reflexivity.
  assert (H53 : 2 ^ 53 = 9007199254740992) by reflexivity.
  rewrite H52, H53 in *.
  repeat split.
  - apply Z.div_pos; lia.
  - apply Z.div_le_mono; lia.
  - apply Z.div_le_upper_bound; lia.
Qed.

End Float64Facts.

(** ** Frames: rows by position, slices, the split *)

Module PandasFacts.
Import Pandas.

Lemma map_col_compose f g c :
  map_col f (map_col g c) = map_col (fun X d xs => f X d (g X d xs)) c.
Proof. now destruct c. Qed.

Lemma map_col_ext f g c :
  (forall X d xs, f X d xs = g X d xs) -> map_col f c = map_col g c.
Proof. intros Hfg. destruct c; simpl; now rewrite Hfg. Qed.

Lemma on_rows_compose f g df :
  on_rows f (on_rows g df) = on_rows (fun X d xs => f X d (g X d xs)) df.
Proof.
  unfold on_rows. simpl. f_equal. rewrite map_map. apply map_ext.
  intros c. simpl. now rewrite map_col_compose.
Qed.

Lemma on_rows_ext f g df :
  (forall X d xs, f X d xs = g X d xs) -> on_rows f df = on_rows g df.
Proof.
  intros Hfg. unfold on_rows. rewrite Hfg. f_equal. apply map_ext.
  intros c. now rewrite (map_col_ext f g).
Qed.

Lemma slice_take_list start stop ps X d xs :
  slice start stop X d (take_list ps X d xs)
  = take_list (slice start stop nat O ps) X d xs.
Proof. unfold slice, take_list. now rewrite firstn_map, skipn_map. Qed.

(** A slice of rows taken by position is the rows at the slice of the
    positions. *)
Lemma iloc_slice_rows_at start stop ps df :
  iloc_slice start stop (rows_at ps df)
  = rows_at (slice start stop nat O ps) df.
Proof.
  unfold iloc_slice, rows_at. rewrite on_rows_compose.
  apply on_rows_ext. intros X d xs. apply slice_take_list.
Qed.

Lemma nrows_rows_at ps df : nrows (rows_at ps df) = List.length ps.
Proof. unfold nrows, rows_at, on_rows, take_list. simpl. apply length_map. Qed.

Lemma labels_rows_at ps df : labels (rows_at ps df) = labels df.
Proof.
  unfold labels, rows_at, on_rows. simpl. rewrite map_map. reflexivity.
Qed.

Lemma take_in_range ps df :
  Forall (fun p => p < nrows df) ps -> take ps df = ok (rows_at ps df).
Proof.
  intros Hall. unfold take.
  replace (forallb (fun p => (p <? nrows df)%nat) ps) with true; [reflexivity|].
  symmetry. apply forallb_forall. intros p Hp.
  rewrite Forall_forall in Hall. apply Nat.ltb_lt. auto.
Qed.

Lemma permutation_in_range ps n :
  Permutation ps (seq 0 n) -> Forall (fun p => p < n) ps.
Proof.
  intros Hperm. apply Forall_forall. intros p Hp.
  apply (Permutation_in _ Hperm) in Hp. apply in_seq in Hp. lia.
Qed.

(** Cutting a list at two ordered points gives three pieces that
    concatenate to the list. *)
Lemma three_slices {X} (d : X) (xs : list X) c1 c2 :
  c1 <= c2 -> c2 <= List.length xs ->
  slice 0 c1 X d xs ++ slice c1 c2 X d xs
    ++ slice c2 (List.length xs) X d xs = xs
  /\ List.length (slice 0 c1 X d xs) = c1
  /\ List.length (slice c1 c2 X d xs) = c2 - c1
  /\ List.length (slice c2 (List.length xs) X d xs) = List.length xs - c2.
Proof.
  intros H12 H2n. unfold slice. simpl. rewrite firstn_all.
  repeat split.
  - replace (firstn c1 xs) with (firstn c1 (firstn c2 xs))
      by (rewrite firstn_firstn; f_equal; lia).
    now rewrite app_assoc, !firstn_skipn.
  - rewrite length_firstn. lia.
  - rewrite length_skipn, length_firstn. lia.
  - rewrite length_skipn. lia.
Qed.

Lemma split_points_ordered n :
  Float64.int_mul Float64.lit_0_7 n <= Float64.int_mul Float64.lit_0_9 n
  /\ Float64.int_mul Float64.lit_0_9 n <= n.
Proof.
  unfold Float64.int_mul.
  destruct (Float64Facts.split_points_ordered_Z (Z.of_nat n) ltac:(lia))
    as (H0 & H1 & H2).
  lia.
Qed.

Lemma nth_error_take_list (ps : list nat) X (d : X) (xs : list X) i p :
  nth_error ps i = Some p -> p < List.length xs ->
  nth_error (take_list ps X d xs) i = nth_error xs p.
Proof.
  intros Hi Hp. unfold take_list.
  rewrite nth_error_map, Hi. cbn [option_map].
  symmetry. now apply nth_error_nth'.
Qed.

Lemma cell_at_take_list ps c i p :
  nth_error ps i = Some p -> p < col_len c ->
  cell_at (map_col (take_list ps) c) i = cell_at c p.
Proof.
  intros Hi Hp. destruct c as [xs | xs | xs]; simpl in *;
    now rewrite (nth_error_take_list ps _ _ xs i p Hi Hp).
Qed.

(** The row at position [i] of the rows taken at [ps] is the row of the
    table at position [ps[i]]. *)
Lemma iloc_rows_at ps df i p :
  well_formed df ->
  nth_error ps i = Some p -> p < nrows df ->
  iloc (rows_at ps df) i = iloc df p.
Proof.
  intros Hwf Hi Hp. unfold iloc, rows_at, on_rows. cbn [index columns].
  f_equal.
  - now apply nth_error_take_list.
  - rewrite map_map. apply map_ext_in. intros c Hc. cbn [fst snd].
    f_equal. apply cell_at_take_list; [exact Hi|].
    unfold well_formed in Hwf. rewrite Forall_forall in Hwf.
    now rewrite (Hwf c Hc).
Qed.

Lemma iterrows_rows_at ps df :
  well_formed df ->
  Forall (fun p => p < nrows df) ps ->
  iterrows (rows_at ps df) = map (iloc df) ps.
Proof.
  intros Hwf Hps. unfold iterrows. rewrite nrows_rows_at.
  apply nth_error_ext. intros i.
  rewrite !nth_error_map, nth_error_seq.
  destruct (nth_error ps i) as [p|] eqn:Hi.
  - assert (Hlt : i < List.length ps)
      by (apply nth_error_Some; congruence).
    apply Nat.ltb_lt in Hlt. rewrite Hlt. cbn [option_map Nat.add].
    f_equal. apply iloc_rows_at; [exact Hwf | exact Hi |].
    rewrite Forall_forall in Hps. apply Hps.
    now apply nth_error_In with (n := i).
  - apply nth_error_None in Hi. apply Nat.ltb_ge in Hi. now rewrite Hi.
Qed.

Lemma NoDup_app_disjoint {X} (xs ys : list X) :
  NoDup (xs ++ ys) -> forall x, In x xs -> ~ In x ys.
Proof.
  induction xs as [|a xs IH]; intros Hnd x Hx Hy; [contradiction|].
  simpl in Hnd. inversion Hnd as [|? ? Hnotin Hnd']. subst.
  destruct Hx as [<- | Hx].
  - apply Hnotin. apply in_or_app. now right.
  - exact (IH Hnd' x Hx Hy).
Qed.

End PandasFacts.

(** ** The shuffle and the split *)

Section SplitFacts.
Import Pandas Pipeline PandasFacts.

Context `{NumpyRandom}.

(** What numpy's documentation says of [permutation(n)]: the result is
    a permutation of [range(n)]. *)
Hypothesis permutation_spec :
  forall g n, Permutation (fst (permutation g n)) (seq 0 n).

Lemma shuffle_and_split_run (df : DataFrame) (g : rng) :
  let n := nrows df in
  let c1 := Float64.int_mul Float64.lit_0_7 n in
  let c2 := Float64.int_mul Float64.lit_0_9 n in
  let ps := fst (permutation (RandomState 1729%Z) n) in
  shuffle_and_split df g
  = (ok (rows_at (slice 0 c1 nat O ps) df,
         rows_at (slice c1 c2 nat O ps) df,
         rows_at (slice c2 n nat O ps) df), g).
Proof.
  intros n c1 c2 ps. unfold shuffle_and_split, sample_all.
  fold n. fold ps.
  pose proof (permutation_spec (RandomState 1729%Z) n) as Hperm. fold ps in Hperm.
  rewrite (take_in_range ps df (permutation_in_range _ _ Hperm)).
  unfold rbind, ok. cbv beta iota. unfold np_split, split_points.
  fold c1 c2.
  rewrite nrows_rows_at. rewrite (Permutation_length Hperm), length_seq.
  cbn [combine app map fst snd]. now rewrite !iloc_slice_rows_at.
Qed.

(** C2: the shuffle-and-split cell partitions the rows.  On a table
    with a cell in every column for each of its [n] rows, the cell
    returns three frames [train], [validation] and [test] whose rows
    are the rows of the table at three lists of positions: row by row,
    in order, the same label and the same cells as the table has there.
    Concatenated, the three lists are the drawn permutation of
    [0 .. n-1]: no position occurs twice (the subsets are pairwise
    disjoint) and every position occurs (their union is the whole
    table), so the rows of the three frames together are the rows of
    the table in another order.  The cuts are at [int(0.7 * n)] and
    [int(0.9 * n)], which gives the three row counts, and the counts
    sum to [n]. *)
Theorem shuffle_and_split_partition (df : DataFrame) (g : rng) :
  well_formed df ->
  let n := nrows df in
  let c1 := Float64.int_mul Float64.lit_0_7 n in
  let c2 := Float64.int_mul Float64.lit_0_9 n in
  exists (train validation test : DataFrame) (p1 p2 p3 : list nat),
    shuffle_and_split df g = (ok (train, validation, test), g)
    /\ p1 ++ p2 ++ p3 = fst (permutation (RandomState 1729%Z) n)
    /\ Permutation (p1 ++ p2 ++ p3) (seq 0 n)
    /\ NoDup (p1 ++ p2 ++ p3)
    /\ (forall p, In p p1 -> ~ In p p2)
    /\ (forall p, In p p1 -> ~ In p p3)
    /\ (forall p, In p p2 -> ~ In p p3)
    /\ iterrows train = map (iloc df) p1
    /\ iterrows validation = map (iloc df) p2
    /\ iterrows test = map (iloc df) p3
    /\ Permutation (iterrows train ++ iterrows validation ++ iterrows test)
                   (iterrows df)
    /\ labels train = labels df
    /\ labels validation = labels df
    /\ labels test = labels df
    /\ nrows train = c1
    /\ nrows validation = c2 - c1
    /\ nrows test = n - c2
    /\ nrows train + nrows validation + nrows test = n.
Proof.
  intros Hwf n c1 c2.
  pose proof (shuffle_and_split_run df g) as Hrun. cbv zeta in Hrun.
  fold n c1 c2 in Hrun.
  set (ps := fst (permutation (RandomState 1729%Z) n)) in *.
  pose proof (permutation_spec (RandomState 1729%Z) n) as Hperm.
  fold ps in Hperm.
  assert (Hlen : List.length ps = n)
    by (rewrite (Permutation_length Hperm); apply length_seq).
  destruct (split_points_ordered n) as [H12 H2n]. fold c1 c2 in H12, H2n.
  destruct (three_slices O ps c1 c2 H12 ltac:(lia))
    as (Hcat & Hl1 & Hl2 & Hl3).
  rewrite Hlen in Hcat, Hl3.
  set (p1 := slice 0 c1 nat O ps) in *.
  set (p2 := slice c1 c2 nat O ps) in *.
  set (p3 := slice c2 n nat O ps) in *.
  assert (Hnd : NoDup (p1 ++ p2 ++ p3)).
  { rewrite Hcat. apply (Permutation_NoDup (Permutation_sym Hperm)).
    apply seq_NoDup. }
  assert (Hrange : Forall (fun p => p < nrows df) (p1 ++ p2 ++ p3)).
  { rewrite Hcat. exact (permutation_in_range _ _ Hperm). }
  apply Forall_app in Hrange. destruct Hrange as [Hr1 Hrange].
  apply Forall_app in Hrange. destruct Hrange as [Hr2 Hr3].
  pose proof (iterrows_rows_at p1 df Hwf Hr1) as Hrows1.
  pose proof (iterrows_rows_at p2 df Hwf Hr2) as Hrows2.
  pose proof (iterrows_rows_at p3 df Hwf Hr3) as Hrows3.
  exists (rows_at p1 df), (rows_at p2 df), (rows_at p3 df), p1, p2, p3.
  rewrite !nrows_rows_at, !labels_rows_at.
  split; [exact Hrun|]. split; [exact Hcat|].
  split; [now rewrite Hcat|]. split; [exact Hnd|].
  split; [|split; [|split]].
  - intros p Hp1 Hp2. apply (NoDup_app_disjoint _ _ Hnd p Hp1).
    apply in_or_app. now left.
  - intros p Hp1 Hp3. apply (NoDup_app_disjoint _ _ Hnd p Hp1).
    apply in_or_app. now right.
  - apply NoDup_app_disjoint. apply (NoDup_app_remove_l _ _ Hnd).
  - split; [exact Hrows1|]. split; [exact Hrows2|]. split; [exact Hrows3|].
    split.
    + rewrite Hrows1, Hrows2, Hrows3, <- !map_app, Hcat.
      unfold iterrows. fold n. now apply Permutation_map.
    + repeat split; lia.
Qed.

(** C6: the split does not depend on the state of numpy's global
    generator and leaves it as it was, so running the cell again on the
    same table (from whatever state the first run was started in) gives
    the same three subsets; the split points depend only on the row
    count. *)
Theorem shuffle_and_split_deterministic (df : DataFrame) (g1 g2 : rng) :
  fst (shuffle_and_split df g1) = fst (shuffle_and_split df g2)
  /\ snd (shuffle_and_split df g1) = g1
  /\ fst (shuffle_and_split df (snd (shuffle_and_split df g1)))
     = fst (shuffle_and_split df g1)
  /\ (forall df', nrows df' = nrows df ->
        split_points (nrows df') = split_points (nrows df)).
Proof.
  unfold shuffle_and_split, sample_all. simpl. repeat split.
  intros df' ->. reflexivity.
Qed.

End SplitFacts.

(** ** The cleaning cells *)

Module CleanFacts.
Import Pandas Pipeline PandasFacts.

Lemma setitem_new df name values :
  List.length values = nrows df ->
  str_in name (labels df) = false ->
  setitem df name values
  = ok (mk_frame (index df) (columns df ++ [(name, IntCol values)])).
Proof.
  intros Hlen Hnew. unfold setitem.
  rewrite Hlen, Nat.eqb_refl, Hnew. reflexivity.
Qed.

Lemma dummy_label prefix xs c :
  In c (dummies prefix xs) ->
  exists level, In level (levels xs)
                /\ c = ((prefix ++ "_" ++ level)%string,
                        IntCol (indicator level xs)).
Proof.
  unfold dummies. intros Hin. apply in_map_iff in Hin.
  destruct Hin as (level & <- & Hl). now exists level.
Qed.

Lemma startswith_app_assoc p q s :
  startswith (p ++ q) (p ++ q ++ s)%string = true.
Proof.
  replace (p ++ q ++ s)%string with ((p ++ q) ++ s)%string.
  - apply startswith_app.
  - induction p as [|a p IH]; simpl; [reflexivity | now rewrite IH].
Qed.

(** Dropping names none of which starts with [prefix_] keeps every
    indicator column of [prefix]. *)
Lemma dummies_kept names prefix xs :
  forallb (fun n => negb (startswith (prefix ++ "_") n)) names = true ->
  filter (fun c => negb (str_in (fst c) names)) (dummies prefix xs)
  = dummies prefix xs.
Proof.
  intros Hnames. apply forallb_filter_id. apply forallb_forall.
  intros c Hc. destruct (dummy_label _ _ _ Hc) as (level & _ & ->).
  cbn [fst]. apply negb_true_iff. apply str_in_not_In. intros Hin.
  rewrite forallb_forall in Hnames. specialize (Hnames _ Hin).
  now rewrite startswith_app_assoc in Hnames.
Qed.

(** The distinct values of a column, each once. *)
Lemma levels_spec xs :
  NoDup (levels xs) /\ (forall v, In v (levels xs) <-> In v xs).
Proof.
  unfold levels, sorted.
  pose proof (StringSort.Permuted_sort (nodup string_dec xs)) as Hperm.
  split.
  - apply (Permutation_NoDup Hperm). apply NoDup_nodup.
  - intros v. rewrite <- (nodup_In string_dec xs). split; intros Hin.
    + exact (Permutation_in _ (Permutation_sym Hperm) Hin).
    + exact (Permutation_in _ Hperm Hin).
Qed.

Lemma add_indicators_bank_frame rows :
  add_indicators (bank_frame rows)
  = ok (mk_frame (seq 0 (List.length rows))
          ([ ("age", IntCol (map age rows));
             ("duration", IntCol (map duration rows));
             ("campaign", IntCol (map campaign rows));
             ("pdays", IntCol (map pdays rows));
             ("previous", IntCol (map previous rows));
             ("emp.var.rate", FloatCol (map emp_var_rate rows));
             ("cons.price.idx", FloatCol (map cons_price_idx rows));
             ("cons.conf.idx", FloatCol (map cons_conf_idx rows));
             ("euribor3m", FloatCol (map euribor3m rows));
             ("nr.employed", FloatCol (map nr_employed rows));
             ("no_previous_contact",
              IntCol (map no_previous_contact rows));
             ("not_working", IntCol (map not_working rows)) ]
           ++ indicator_columns rows)).
Proof.
  unfold add_indicators.
  change (getitem_series (bank_frame rows) "pdays")
    with (ok (IntCol (map pdays rows))).
  cbn [rbind ok].
  rewrite setitem_new; cycle 1.
  { unfold np_where, eq_scalar, nrows. simpl.
    now rewrite !length_map, length_seq. }
  { reflexivity. }
  cbn [rbind ok].
  match goal with
  | |- context [getitem_series ?df "job"] =>
      change (getitem_series df "job") with (ok (ObjCol (map job rows)))
  end.
  cbn [rbind ok].
  rewrite setitem_new; cycle 1.
  { unfold np_where, np_in1d, nrows. simpl.
    now rewrite !length_map, length_seq. }
  { reflexivity. }
  unfold get_dummies, np_where, eq_scalar, np_in1d.
  unfold indicator_columns, categorical, dummies_of, bank_frame.
  cbn [rbind ok index columns filter flat_map negb is_object fst snd app].
  rewrite !map_map, !app_nil_r. reflexivity.
Qed.

Lemma drop_bank_frame rows :
  drop (mk_frame (seq 0 (List.length rows))
          ([ ("age", IntCol (map age rows));
             ("duration", IntCol (map duration rows));
             ("campaign", IntCol (map campaign rows));
             ("pdays", IntCol (map pdays rows));
             ("previous", IntCol (map previous rows));
             ("emp.var.rate", FloatCol (map emp_var_rate rows));
             ("cons.price.idx", FloatCol (map cons_price_idx rows));
             ("cons.conf.idx", FloatCol (map cons_conf_idx rows));
             ("euribor3m", FloatCol (map euribor3m rows));
             ("nr.employed", FloatCol (map nr_employed rows));
             ("no_previous_contact",
              IntCol (map no_previous_contact rows));
             ("not_working", IntCol (map not_working rows)) ]
           ++ indicator_columns rows))
       dropped_columns
  = ok (cleaned rows).
Proof.
  unfold drop, cleaned. cbn [labels columns index].
  change (filter _ dropped_columns) with (@nil string).
  cbv iota. f_equal. f_equal.
  rewrite filter_app. f_equal.
  unfold indicator_columns, categorical. cbn [flat_map fst snd].
  rewrite !filter_app.
  rewrite !dummies_kept by reflexivity. reflexivity.
Qed.



Lemma read_csv_records rows : rows <> [] -> read_csv rows = bank_frame rows.
Proof. destruct rows; [congruence | reflexivity]. Qed.

Lemma clean_read_csv_eq rows :
  rows <> [] -> clean (read_csv rows) = ok (cleaned rows).
Proof.
  intros Hrows. rewrite (read_csv_records rows Hrows).
  unfold clean. rewrite add_indicators_bank_frame. cbn [rbind ok].
  apply drop_bank_frame.
Qed.

(** On a file without records the cleaning cells fail at the [drop]:
    every column is of dtype [object], [get_dummies] turns each into its
    indicator columns, of which there is none, and the six columns to
    drop are not there. *)
Lemma clean_read_csv_empty :
  exists e,
    clean (read_csv []) = raise e
    /\ exn_class e = "KeyError"
    /\ add_indicators (read_csv [])
       = ok (mk_frame [] [("no_previous_contact", IntCol []);
                          ("not_working", IntCol [])])
    /\ drop (mk_frame [] [("no_previous_contact", IntCol []);
                          ("not_working", IntCol [])]) dropped_columns
       = raise e.
Proof. eexists. repeat split. Qed.












End CleanFacts.

(** ** The written files *)

Module WriteFacts.
Import Pandas Pipeline PandasFacts CleanFacts.

Lemma filter_label_rows_at (keep : string -> bool) ps df :
  filter (fun c => keep (fst c)) (columns (rows_at ps df))
  = map (fun c => (fst c, map_col (take_list ps) (snd c)))
        (filter (fun c => keep (fst c)) (columns df)).
Proof.
  unfold rows_at, on_rows. cbn [columns].
  induction (columns df) as [|c cs IH]; [reflexivity|].
  simpl. destruct (keep (fst c)); simpl; now rewrite IH.
Qed.

Lemma filter_eqb_NoDup (a : string) (l : list string) :
  NoDup l ->
  filter (fun x => String.eqb x a) l = if str_in a l then [a] else [].
Proof.
  induction 1 as [|x l Hx Hnd IH]; [reflexivity|].
  simpl. rewrite IH. rewrite (String.eqb_sym a x).
  destruct (String.eqb_spec x a) as [-> | Hne]; simpl.
  - apply str_in_not_In in Hx. now rewrite Hx.
  - reflexivity.
Qed.

Lemma label_not_dummy prefix xs name :
  startswith (prefix ++ "_") name = false ->
  filter (has_label name) (dummies prefix xs) = [].
Proof.
  intros Hp.
  destruct (filter (has_label name) (dummies prefix xs)) as [|c cs] eqn:Hf;
    [reflexivity|].
  assert (Hin : In c (filter (has_label name) (dummies prefix xs)))
    by (rewrite Hf; now left).
  apply filter_In in Hin. destruct Hin as [Hc Hl].
  destruct (dummy_label _ _ _ Hc) as (level & _ & ->).
  unfold has_label in Hl. cbn [fst] in Hl. apply String.eqb_eq in Hl.
  rewrite <- Hl, startswith_app_assoc in Hp. discriminate.
Qed.

(** The indicator column of one value of a categorical column: present
    exactly when the value occurs. *)
Lemma label_of_value prefix xs v :
  filter (has_label (prefix ++ "_" ++ v)) (dummies prefix xs)
  = if str_in v xs
    then [((prefix ++ "_" ++ v)%string, IntCol (indicator v xs))]
    else [].
Proof.
  unfold dummies.
  assert (Heq : forall l,
    filter (has_label (prefix ++ "_" ++ v))
      (map (fun level => ((prefix ++ "_" ++ level)%string,
                          IntCol (indicator level xs))) l)
    = map (fun level => ((prefix ++ "_" ++ level)%string,
                         IntCol (indicator level xs)))
          (filter (fun x => String.eqb x v) l)).
  { induction l as [|a l IH]; [reflexivity|].
    cbn [map filter]. unfold has_label at 1. cbn [fst].
    assert (Hab : String.eqb (prefix ++ "_" ++ a) (prefix ++ "_" ++ v)
                  = String.eqb a v).
    { clear. induction prefix as [|c p IHp].
      - simpl. destruct (Ascii.eqb_spec "_" "_"); [reflexivity | congruence].
      - simpl. rewrite Ascii.eqb_refl. exact IHp. }
    rewrite Hab. destruct (String.eqb a v); cbn [map]; now rewrite IH. }
  rewrite Heq. destruct (levels_spec xs) as [Hnd Hin].
  rewrite (filter_eqb_NoDup v _ Hnd).
  assert (Hsame : str_in v (levels xs) = str_in v xs).
  { apply eq_true_iff_eq. rewrite !str_in_In. apply Hin. }
  rewrite Hsame. now destruct (str_in v xs).
Qed.

Lemma label_column_of_cleaned rows (v : string) :
  filter (has_label ("y" ++ "_" ++ v)) (columns (cleaned rows))
  = if str_in v (map y rows)
    then [(("y" ++ "_" ++ v)%string, IntCol (indicator v (map y rows)))]
    else [].
Proof.
  unfold cleaned, indicator_columns, categorical.
  cbn [columns flat_map fst snd].
  rewrite !filter_app, app_nil_r.
  rewrite (label_of_value "y" (map y rows) v).
  rewrite !label_not_dummy by reflexivity.
  reflexivity.
Qed.

Lemma str_in_labels name df :
  str_in name (labels df)
  = match filter (has_label name) (columns df) with
    | [] => false
    | _ => true
    end.
Proof.
  unfold labels. induction (columns df) as [|c cs IH]; [reflexivity|].
  simpl. unfold has_label at 1. rewrite (String.eqb_sym name (fst c)).
  destruct (String.eqb (fst c) name); simpl; [reflexivity | exact IH].
Qed.

Lemma has_label_rows_at name ps df :
  filter (has_label name) (columns (rows_at ps df))
  = map (fun c => (fst c, map_col (take_list ps) (snd c)))
        (filter (has_label name) (columns df)).
Proof. exact (filter_label_rows_at (fun n => String.eqb n name) ps df). Qed.

Lemma y_yes_column rows :
  filter (has_label "y_yes") (columns (cleaned rows))
  = if str_in "yes" (map y rows)
    then [("y_yes", IntCol (indicator "yes" (map y rows)))]
    else [].
Proof. exact (label_column_of_cleaned rows "yes"). Qed.

Lemma y_no_column rows :
  filter (has_label "y_no") (columns (cleaned rows))
  = if str_in "no" (map y rows)
    then [("y_no", IntCol (indicator "no" (map y rows)))]
    else [].
Proof. exact (label_column_of_cleaned rows "no"). Qed.

Lemma indicator_yes rows : indicator "yes" (map y rows) = map label rows.
Proof. unfold indicator. rewrite map_map. reflexivity. Qed.

(** Moving the label to the front of a subset of the cleaned frame: it
    needs both indicator columns of [y], that is both values among the
    records. *)
Lemma label_first_rows_at ps rows :
  label_first (rows_at ps (cleaned rows))
  = if str_in "yes" (map y rows) then
      if str_in "no" (map y rows) then
        ok (mk_frame (take_list ps nat O (seq 0 (List.length rows)))
              (("y_yes", IntCol (take_list ps Z 0%Z (map label rows)))
               :: features (rows_at ps (cleaned rows))))
      else raise (KeyError "y_no not found in axis")
    else raise (KeyError "y_yes").
Proof.
  unfold label_first, getitem.
  rewrite has_label_rows_at, y_yes_column.
  destruct (str_in "yes" (map y rows)) eqn:Hyes; [|reflexivity].
  cbn [map fst snd map_col rbind ok].
  unfold drop. rewrite labels_rows_at.
  cbn [filter]. rewrite !str_in_labels, y_yes_column, y_no_column, Hyes.
  destruct (str_in "no" (map y rows)); [|reflexivity].
  cbn [negb]. unfold concat_axis1, features. cbn [index columns app].
  rewrite indicator_yes. reflexivity.
Qed.

Lemma features_have_no_label df :
  ~ In "y_yes" (map fst (features df)) /\ ~ In "y_no" (map fst (features df)).
Proof.
  unfold features. split; intros Hin; apply in_map_iff in Hin;
    destruct Hin as (c & Hname & Hc); apply filter_In in Hc;
    destruct Hc as [_ Hkeep]; rewrite Hname in Hkeep; discriminate.
Qed.

Lemma map_nth_seq {X} (l : list X) (d : X) :
  map (fun i => nth i l d) (seq 0 (List.length l)) = l.
Proof.
  apply (nth_ext _ _ d d).
  - now rewrite length_map, length_seq.
  - intros i Hi. rewrite length_map, length_seq in Hi.
    rewrite (nth_indep _ d ((fun i => nth i l d) O))
      by now rewrite length_map, length_seq.
    rewrite (map_nth (fun i => nth i l d)). now rewrite seq_nth.
Qed.

(** The first field of every record is the cell of the first column. *)
Lemma first_fields idx c cs :
  List.length (fields (snd c)) = List.length idx ->
  map (hd "") (to_csv_records (mk_frame idx (c :: cs))) = fields (snd c).
Proof.
  intros Hlen. unfold to_csv_records, nrows. cbn [index columns].
  rewrite map_map. cbn [map hd]. rewrite <- Hlen. apply map_nth_seq.
Qed.

Lemma to_csv_records_length df :
  List.length (to_csv_records df) = nrows df.
Proof. unfold to_csv_records. now rewrite length_map, length_seq. Qed.

End WriteFacts.

Section WrittenFiles.
Import Pandas Pipeline PandasFacts CleanFacts WriteFacts.

Context `{NumpyRandom}.

Hypothesis permutation_spec :
  forall g n, Permutation (fst (permutation g n)) (seq 0 n).


Lemma nrows_cleaned rows : nrows (cleaned rows) = List.length rows.
Proof. unfold nrows. simpl. apply length_seq. Qed.

(** The frames handed to [to_csv], when the cells succeed: the label
    column in front of the features, on the rows of the train and of the
    validation positions. *)
Lemma written_frames_run rows g train_out validation_out g' :
  written_frames rows g = (ok (train_out, validation_out), g') ->
  let n := List.length rows in
  let c1 := Float64.int_mul Float64.lit_0_7 n in
  let c2 := Float64.int_mul Float64.lit_0_9 n in
  let ps := fst (permutation (RandomState 1729%Z) n) in
  let p1 := slice 0 c1 nat O ps in
  let p2 := slice c1 c2 nat O ps in
  g' = g
  /\ str_in "yes" (map y rows) = true
  /\ str_in "no" (map y rows) = true
  /\ train_out
     = mk_frame (take_list p1 nat O (seq 0 n))
         (("y_yes", IntCol (take_list p1 Z 0%Z (map label rows)))
          :: features (rows_at p1 (cleaned rows)))
  /\ validation_out
     = mk_frame (take_list p2 nat O (seq 0 n))
         (("y_yes", IntCol (take_list p2 Z 0%Z (map label rows)))
          :: features (rows_at p2 (cleaned rows))).
Proof.
  intros Hrun n c1 c2 ps p1 p2.
  assert (Hrows : rows <> []) by (intros ->; discriminate Hrun).
  unfold written_frames in Hrun.
  rewrite (clean_read_csv_eq rows Hrows) in Hrun. unfold ok at 1 in Hrun.
  pose proof (shuffle_and_split_run permutation_spec (cleaned rows) g)
    as Hsplit.
  cbv zeta in Hsplit. rewrite nrows_cleaned in Hsplit.
  fold n c1 c2 ps p1 p2 in Hsplit. rewrite Hsplit in Hrun.
  cbn [rbind ok] in Hrun. rewrite !label_first_rows_at in Hrun.
  fold n in Hrun.
  destruct (str_in "yes" (map y rows)); [|discriminate].
  destruct (str_in "no" (map y rows)); [|discriminate].
  cbn [rbind ok] in Hrun. injection Hrun as <- <- <-.
  repeat split.
Qed.

Lemma take_list_length ps X (d : X) xs :
  List.length (take_list ps X d xs) = List.length ps.
Proof. unfold take_list. apply length_map. Qed.

(** C10: no copy of the label among the features.  In each of the two
    frames written, [y_yes] is the first column and occurs nowhere else,
    and [y_no] does not occur. *)
Theorem written_frames_label_once rows g train_out validation_out g' :
  written_frames rows g = (ok (train_out, validation_out), g') ->
  Forall (fun out =>
            exists rest,
              labels out = "y_yes" :: rest
              /\ ~ In "y_yes" rest
              /\ ~ In "y_no" rest
              /\ count_occ string_dec (labels out) "y_yes" = 1
              /\ count_occ string_dec (labels out) "y_no" = 0)
         [train_out; validation_out].
Proof.
  intros Hrun.
  destruct (written_frames_run _ _ _ _ _ Hrun) as (_ & _ & _ & -> & ->).
  assert (Hone : forall idx col df,
    exists rest,
      labels (mk_frame idx (("y_yes", col) :: features df))
      = "y_yes" :: rest
      /\ ~ In "y_yes" rest /\ ~ In "y_no" rest
      /\ count_occ string_dec
           (labels (mk_frame idx (("y_yes", col) :: features df)))
           "y_yes" = 1
      /\ count_occ string_dec
           (labels (mk_frame idx (("y_yes", col) :: features df)))
           "y_no" = 0).
  { intros idx col df. exists (map fst (features df)).
    destruct (features_have_no_label df) as [Hyes Hno].
    unfold labels. cbn [columns map fst]. repeat split; try assumption.
    - rewrite count_occ_cons_eq by reflexivity.
      apply (count_occ_not_In string_dec) in Hyes. now rewrite Hyes.
    - rewrite count_occ_cons_neq by discriminate.
      now apply (count_occ_not_In string_dec). }
  constructor; [apply Hone|]. constructor; [apply Hone | constructor].
Qed.

Lemma label_field_binary (z : list Z) :
  Forall (fun v => v = 0%Z \/ v = 1%Z) z ->
  Forall (fun s => s = "0" \/ s = "1") (map str_of_Z z).
Proof.
  intros Hz. apply Forall_map. eapply Forall_impl; [|exact Hz].
  intros v [-> | ->]; [now left | now right].
Qed.

Lemma take_labels_binary ps rows :
  Forall (fun v => v = 0%Z \/ v = 1%Z) (take_list ps Z 0%Z (map label rows)).
Proof.
  unfold take_list. apply Forall_map. apply Forall_forall. intros p _.
  destruct (nth_in_or_default p (map label rows) 0%Z) as [Hin | ->];
    [|now left].
  apply in_map_iff in Hin. destruct Hin as (r & <- & _).
  unfold label. destruct (String.eqb (y r) "yes"); [now right | now left].
Qed.

(** C4: the two files.  Each has exactly one record per row of its
    subset ([int(0.7 * n)] records in [train.csv],
    [int(0.9 * n) - int(0.7 * n)] in [validation.csv]) and nothing else,
    so no header; the first field of the record of a row is its label,
    ["1"] when [y] is ['yes'] and ["0"] otherwise, and all records of a
    file have the same number of fields. *)
Theorem prepare_files rows g train_csv validation_csv g' :
  prepare rows g = (ok (train_csv, validation_csv), g') ->
  let n := List.length rows in
  let c1 := Float64.int_mul Float64.lit_0_7 n in
  let c2 := Float64.int_mul Float64.lit_0_9 n in
  let ps := fst (permutation (RandomState 1729%Z) n) in
  let p1 := slice 0 c1 nat O ps in
  let p2 := slice c1 c2 nat O ps in
  List.length train_csv = c1
  /\ List.length validation_csv = c2 - c1
  /\ map (hd "") train_csv
     = map str_of_Z (take_list p1 Z 0%Z (map label rows))
  /\ map (hd "") validation_csv
     = map str_of_Z (take_list p2 Z 0%Z (map label rows))
  /\ Forall (fun record => hd "" record = "0" \/ hd "" record = "1")
            (train_csv ++ validation_csv)
  /\ (exists width,
        Forall (fun record => List.length record = width)
               (train_csv ++ validation_csv)).
Proof.
  intros Hrun n c1 c2 ps p1 p2. unfold prepare in Hrun.
  destruct (written_frames rows g) as [[e | [train_out validation_out]] g0]
    eqn:Hframes; [discriminate|].
  cbn [rbind ok fst snd] in Hrun. injection Hrun as <- <- <-.
  destruct (written_frames_run _ _ _ _ _ Hframes) as (_ & _ & _ & -> & ->).
  fold n c1 c2 ps p1 p2.
  pose proof (permutation_spec (RandomState 1729%Z) n) as Hperm.
  fold ps in Hperm.
  assert (Hlen : List.length ps = n)
    by (rewrite (Permutation_length Hperm); apply length_seq).
  destruct (split_points_ordered n) as [H12 H2n]. fold c1 c2 in H12, H2n.
  destruct (three_slices O ps c1 c2 H12 ltac:(lia)) as (_ & Hl1 & Hl2 & _).
  fold p1 p2 in Hl1, Hl2.
  assert (Hf1 : map (hd "")
            (to_csv_records
               (mk_frame (take_list p1 nat O (seq 0 n))
                  (("y_yes", IntCol (take_list p1 Z 0%Z (map label rows)))
                   :: features (rows_at p1 (cleaned rows)))))
          = map str_of_Z (take_list p1 Z 0%Z (map label rows))).
  { apply first_fields. cbn [snd fields].
    now rewrite length_map, !take_list_length. }
  assert (Hf2 : map (hd "")
            (to_csv_records
               (mk_frame (take_list p2 nat O (seq 0 n))
                  (("y_yes", IntCol (take_list p2 Z 0%Z (map label rows)))
                   :: features (rows_at p2 (cleaned rows)))))
          = map str_of_Z (take_list p2 Z 0%Z (map label rows))).
  { apply first_fields. cbn [snd fields].
    now rewrite length_map, !take_list_length. }
  split; [|split; [|split; [|split; [|split]]]].
  - rewrite to_csv_records_length. unfold nrows. cbn [index].
    now rewrite take_list_length.
  - rewrite to_csv_records_length. unfold nrows. cbn [index].
    now rewrite take_list_length.
  - exact Hf1.
  - exact Hf2.
  - apply Forall_app. split.
    + apply (Forall_map (hd "") (fun s => s = "0" \/ s = "1")).
      rewrite Hf1. apply label_field_binary, take_labels_binary.
    + apply (Forall_map (hd "") (fun s => s = "0" \/ s = "1")).
      rewrite Hf2. apply label_field_binary, take_labels_binary.
  - exists (S (List.length (features (cleaned rows)))).
    apply Forall_app. split; apply Forall_forall; intros record Hin;
      unfold to_csv_records in Hin; apply in_map_iff in Hin;
      destruct Hin as (i & <- & _); cbn [columns];
      rewrite length_map; cbn [List.length]; f_equal;
      unfold features; rewrite filter_label_rows_at
        with (keep := fun n => negb (str_in n ["y_no"; "y_yes"]));
      apply length_map.
Qed.

(** The cells from [read_csv] to the two files succeed when both ['yes']
    and ['no'] occur in the column [y]. *)
Lemma prepare_succeeds rows g :
  In "yes" (map y rows) -> In "no" (map y rows) ->
  exists train_csv validation_csv,
    prepare rows g = (ok (train_csv, validation_csv), g).
Proof.
  intros Hyes Hno.
  assert (Hrows : rows <> []) by (intros ->; contradiction).
  apply str_in_In in Hyes, Hno.
  unfold prepare, written_frames.
  rewrite (clean_read_csv_eq rows Hrows). unfold ok at 1.
  pose proof (shuffle_and_split_run permutation_spec (cleaned rows) g)
    as Hsplit.
  cbv zeta in Hsplit. rewrite Hsplit. cbn [rbind ok].
  rewrite !label_first_rows_at, Hyes, Hno.
  cbn [rbind ok fst snd]. eexists. eexists. reflexivity.
Qed.

End WrittenFiles.

(** ** The notebook on the in-memory world and on a small table *)

Import Memory.

(** The in-memory world answers the notebook's patterns as the library
    does. *)
Lemma memory_re_dotstar :
  re_answers Memory.handle default_regex (fun _ => true).
Proof. intros s w. destruct s; reflexivity. Qed.

Lemma memory_re_importance t :
  In t SUPPORTED_IMPORTANCE_TYPES ->
  re_answers Memory.handle ("feature_importance/" ++ t ++ "/.*")
    (startswith (importance_prefix t)).
Proof.
  intros Hin s w. simpl in Hin.
  destruct Hin as [<- | [<- | [<- | [<- | [<- | []]]]]]; reflexivity.
Qed.

Lemma reversing_permutation :
  forall g n,
    Permutation (fst (@Pipeline.permutation Pipeline.reversing g n)) (seq 0 n).
Proof. intros g n. simpl. apply Permutation_sym, Permutation_rev. Qed.

(** [get_data] on a stored series returns its steps and its values, and
    leaves the store as it was. *)
Lemma plot_feature_importance_validates_witness :
  run Memory.handle (plot_feature_importance tt "shap") Memory.demo
  = (inl (ValueError "shap is not one of the supported importance types."),
     Memory.demo, [])
  /\ exists a rest,
      snd (run Memory.handle (plot_feature_importance tt "cover") Memory.demo)
      = Ev (PltSubplots default_figsize) a :: rest.
Proof.
  split.
  - apply (plot_feature_importance_validates Memory.handle tt "shap"
             Memory.demo).
    simpl. intuition discriminate.
  - apply (plot_feature_importance_validates Memory.handle tt "cover"
             Memory.demo).
    simpl. tauto.
Defined.

Example get_data_train_error :
  run Memory.handle (get_data tt "train-error") Memory.demo
  = (inr ([0; 2; 4]%Z, [12; 9; 7]%Z), Memory.demo,
     Ev (TrialTensor tt "train-error") (inr "train-error")
     :: Ev (TensorSteps "train-error") (inr [0; 2; 4]%Z)
     :: value_events "train-error" [0; 2; 4]%Z [12; 9; 7]%Z).
Proof. reflexivity. Qed.

Lemma get_data_pass_through_witness :
  exists t,
    snd (run Memory.handle (get_data tt "train-error") Memory.demo)
    = Ev (TrialTensor tt "train-error") (inr t)
      :: Ev (TensorSteps t) (inr [0; 2; 4]%Z)
      :: value_events t [0; 2; 4]%Z [12; 9; 7]%Z.
Proof.
  destruct (get_data_pass_through Memory.handle tt "train-error" Memory.demo
              [0; 2; 4]%Z [12; 9; 7]%Z Memory.demo _ eq_refl)
    as (t & Hlog & _).
  exists t. exact Hlog.
Defined.

Lemma plot_collection_selects_witness :
  (exists c names (bs : list bool),
      In (Ev (CollectionTensorNames c) (inr names))
         (snd (run Memory.handle
                 (plot_collection tt "metrics" default_regex default_figsize)
                 Memory.demo))
      /\ plotted (snd (run Memory.handle
                         (plot_collection tt "metrics" default_regex
                            default_figsize) Memory.demo))
         = map fst (filter snd (combine (sorted names) bs)))
  /\ (exists c names,
        In (Ev (CollectionTensorNames c) (inr names))
           (snd (run Memory.handle
                   (plot_feature_importance tt "gain") Memory.demo))
        /\ plotted (snd (run Memory.handle
                           (plot_feature_importance tt "gain") Memory.demo))
           = filter (startswith (importance_prefix "gain")) (sorted names)).
Proof.
  destruct (plot_collection_selects Memory.handle) as (Hall & _ & Hfi).
  split.
  - destruct (Hall tt "metrics" default_regex default_figsize Memory.demo
                _ _ eq_refl)
      as (c & names & bs & _ & Hn & _ & _ & _ & _ & Hp).
    exists c, names, bs. split; [exact Hn | exact Hp].
  - destruct (Hfi tt "gain" Memory.demo _ _
                (memory_re_importance "gain" ltac:(simpl; tauto)) eq_refl)
      as (c & names & _ & Hn & Hp & _).
    exists c, names. split; [exact Hn | exact Hp].
Defined.

Example plot_gain_excludes_total_gain :
  plotted (snd (run Memory.handle (plot_feature_importance tt "gain")
                  Memory.demo))
  = ["feature_importance/gain/f1"].
Proof. reflexivity. Qed.

(** C5, as the spec has it, fails: on a job that is still in progress the
    waiting cell returns as soon as the secondary status is ['Training'],
    which is not a terminal phase. *)
Lemma wait_for_training_exits_while_in_progress :
  ~ (forall fuel w d w' log,
        run Memory.handle (wait_for_training fuel tt "job") w
        = (inr (Some d), w', log) ->
        is_terminal d = true).
Proof.
  intros Hclaim.
  assert (Hrun :
    exists w' log,
      run Memory.handle (wait_for_training 5 tt "job") Memory.demo
      = (inr (Some (mk_description "InProgress" "Training")), w', log)).
  { eexists. eexists. reflexivity. }
  destruct Hrun as (w' & log & Hrun).
  specialize (Hclaim _ _ _ _ _ Hrun). discriminate Hclaim.
Qed.

Lemma wait_for_training_exit_witness :
  exists d0 polls,
    snd (run Memory.handle (wait_for_training 5 tt "job") Memory.demo)
    = header_events tt "job" d0 ++ flat_map (poll_events tt "job") polls
    /\ List.length polls = 2.
Proof.
  destruct (wait_for_training_exit Memory.handle tt "job" 5 Memory.demo
              _ _ _ eq_refl)
    as (d0 & polls & Hlog & _).
  exists d0, polls. split; [exact Hlog|].
  apply (f_equal (@List.length _)) in Hlog. rewrite length_app in Hlog.
  simpl in Hlog.
  assert (Hfour : forall l, List.length (flat_map (poll_events tt "job") l)
                            = 4 * List.length l).
  { induction l as [|[d now] l IH]; [reflexivity|].
    cbn [flat_map]. rewrite length_app, IH. simpl. lia. }
  rewrite Hfour in Hlog. lia.
Defined.

Lemma shuffle_and_split_partition_witness :
  exists train validation test p1 p2 p3,
    fst (@Pipeline.shuffle_and_split Pipeline.reversing
           (Pipeline.cleaned Pipeline.demo_rows) O)
    = ok (train, validation, test)
    /\ Permutation (p1 ++ p2 ++ p3) (seq 0 5)
    /\ Pandas.iterrows train
       = map (Pandas.iloc (Pipeline.cleaned Pipeline.demo_rows)) p1
    /\ Pandas.iterrows validation
       = map (Pandas.iloc (Pipeline.cleaned Pipeline.demo_rows)) p2
    /\ Pandas.iterrows test
       = map (Pandas.iloc (Pipeline.cleaned Pipeline.demo_rows)) p3
    /\ (Pandas.nrows train, Pandas.nrows validation, Pandas.nrows test)
       = (3, 1, 1).
Proof.
  assert (Hwf : Pandas.well_formed (Pipeline.cleaned Pipeline.demo_rows))
    by (vm_compute; repeat constructor).
  destruct (@shuffle_and_split_partition Pipeline.reversing
              reversing_permutation (Pipeline.cleaned Pipeline.demo_rows) O
              Hwf)
    as (tr & va & te & p1 & p2 & p3 & Hrun & _ & Hperm & _ & _ & _ & _
        & Hr1 & Hr2 & Hr3 & _ & _ & _ & _ & H1 & H2 & H3 & _).
  exists tr, va, te, p1, p2, p3. split; [now rewrite Hrun|].
  split; [exact Hperm|]. split; [exact Hr1|]. split; [exact Hr2|].
  split; [exact Hr3|]. rewrite H1, H2, H3. reflexivity.
Defined.


Lemma written_frames_label_once_witness :
  exists train_out validation_out,
    fst (@Pipeline.written_frames Pipeline.reversing Pipeline.demo_rows O)
    = ok (train_out, validation_out)
    /\ count_occ string_dec (Pandas.labels train_out) "y_yes" = 1
    /\ count_occ string_dec (Pandas.labels train_out) "y_no" = 0.
Proof.
  eexists. eexists. split; [reflexivity|].
  pose proof (@written_frames_label_once Pipeline.reversing
                reversing_permutation Pipeline.demo_rows O _ _ _ eq_refl)
    as Hthm.
  inversion Hthm as [|? ? (rest & _ & _ & _ & Hyes & Hno) _].
  split; [exact Hyes | exact Hno].
Defined.

Lemma prepare_files_witness :
  exists train_csv validation_csv,
    fst (@Pipeline.prepare Pipeline.reversing Pipeline.demo_rows O)
    = ok (train_csv, validation_csv)
    /\ List.length train_csv = 3
    /\ List.length validation_csv = 1
    /\ map (hd "") train_csv = ["1"; "1"; "0"].
Proof.
  eexists. eexists. split; [reflexivity|].
  destruct (@prepare_files Pipeline.reversing reversing_permutation
              Pipeline.demo_rows O _ _ _ eq_refl)
    as (H1 & H2 & H3 & _).
  split; [exact H1|]. split; [exact H2 | exact H3].
Defined.

(** The waiting cell returns once the scripted service has answered a
    description on which the loop exits, given fuel for the polls before
    it. *)
Lemma poll_loop_returns (job_name : string) ts cs rest d :
  exits d = true ->
  forall ds dcur fuel,
    exits dcur = false ->
    Forall (fun d' => exits d' = false) ds ->
    List.length ds < fuel ->
    exists log,
      run Memory.handle (poll_loop fuel tt job_name dcur)
          (mk_world ts cs (ds ++ d :: rest))
      = (inr (Some d), mk_world ts cs rest, log).
Proof.
  intros Hd. induction ds as [|d1 ds IH]; intros dcur fuel Hcur Hds Hfuel;
    (destruct fuel as [|fuel]; [simpl in Hfuel; lia|]);
    rewrite poll_loop_eq, Hcur; cbn [negb];
    rewrite run_bind, run_do; cbn [handle answer job_answers app];
    rewrite run_bind, run_do; cbn [handle answer];
    rewrite run_bind, run_do; cbn [handle answer];
    rewrite run_bind, run_do; cbn [handle answer tensors collections].
  - rewrite poll_loop_eq, Hd. cbn [negb run]. eexists. reflexivity.
  - inversion Hds as [|? ? Hd1 Hds']. subst.
    destruct (IH d1 fuel Hd1 Hds' ltac:(simpl in Hfuel; lia)) as [log ->].
    eexists. reflexivity.
Qed.

Lemma wait_for_training_returns (job_name : string) ts cs rest d0 ds d fuel :
  TrainingJobStatus d0 <> "Completed" ->
  Forall (fun d' => exits d' = false) (d0 :: ds) ->
  exits d = true ->
  List.length ds < fuel ->
  exists log,
    run Memory.handle (wait_for_training fuel tt job_name)
        (mk_world ts cs (d0 :: ds ++ d :: rest))
    = (inr (Some d), mk_world ts cs rest, log).
Proof.
  intros Hc Hall Hd Hfuel. inversion Hall as [|? ? Hd0 Hds]. subst.
  unfold wait_for_training.
  rewrite run_bind, run_do; cbn [handle answer job_answers].
  rewrite run_bind, run_do; cbn [handle answer].
  rewrite run_bind, run_do; cbn [handle answer tensors collections].
  apply String.eqb_neq in Hc. rewrite Hc. cbn [negb].
  destruct (poll_loop_returns job_name ts cs rest d Hd ds d0 fuel Hd0 Hds Hfuel)
    as [log ->].
  eexists. reflexivity.
Qed.

(** * More facts: behaviour at the edges *)

(** ** The waiting cell on a job that never trains *)

Section WaitingMore.

Context `{Handles}.
Context {W : Type} (h : handler W).

Lemma sleeps_polls cl job_name polls :
  sleeps (flat_map (poll_events cl job_name) polls)
  = repeat 15%Z (List.length polls).
Proof.
  unfold sleeps. induction polls as [|[d now] polls IH]; [reflexivity|].
  cbn [flat_map]. rewrite filter_map_app, IH. reflexivity.
Qed.

Lemma poll_loop_never_exits cl job_name :
  never_training h cl job_name ->
  forall fuel d0 w,
    exits d0 = false ->
    exists w' polls,
      run h (poll_loop fuel cl job_name d0) w
      = (inr None, w', flat_map (poll_events cl job_name) polls)
      /\ List.length polls = fuel.
Proof.
  intros (Hdesc & Hclock & Hprint & Hsleep).
  induction fuel as [|fuel IH]; intros d0 w Hd0;
    rewrite poll_loop_eq, Hd0; cbn [negb].
  - exists w, []. split; reflexivity.
  - rewrite run_bind, run_do.
    destruct (Hdesc w) as (d & w1 & -> & Hd & _).
    rewrite run_bind, run_do.
    destruct (Hclock "%X" w1) as (now & w2 & ->).
    rewrite run_bind, run_do.
    destruct (Hprint (now ++ ": " ++ TrainingJobStatus d ++ ", "
                          ++ SecondaryStatus d)%string w2) as (w3 & ->).
    rewrite run_bind, run_do.
    destruct (Hsleep 15%Z w3) as (w4 & ->).
    destruct (IH d w4 Hd) as (w5 & polls & -> & Hlen).
    exists w5, ((d, now) :: polls). split; [reflexivity|].
    simpl. now rewrite Hlen.
Qed.

(** X1: when the job never reaches ['Training'] or ['Completed'] (it
    failed or was stopped before training, say), the waiting cell never
    leaves its loop: whatever the bound on the iterations, it uses all of
    them, re-querying and sleeping 15 seconds each time. *)
Theorem wait_for_training_never_returns cl job_name :
  never_training h cl job_name ->
  forall fuel w,
    exists w' log,
      run h (wait_for_training fuel cl job_name) w = (inr None, w', log)
      /\ sleeps log = repeat 15%Z fuel.
Proof.
  intros Hstuck fuel w.
  pose proof Hstuck as (Hdesc & _ & Hprint & _).
  unfold wait_for_training. rewrite run_bind, run_do.
  destruct (Hdesc w) as (d & w1 & -> & Hd & Hc).
  rewrite run_bind, run_do.
  destruct (Hprint ("Training job name: " ++ job_name)%string w1) as (w2 & ->).
  rewrite run_bind, run_do.
  destruct (Hprint (TrainingJobStatus d) w2) as (w3 & ->).
  apply String.eqb_neq in Hc. rewrite Hc. cbn [negb].
  destruct (poll_loop_never_exits cl job_name Hstuck fuel d w3 Hd)
    as (w4 & polls & -> & Hlen).
  eexists. eexists. split; [reflexivity|].
  change (sleeps (flat_map (poll_events cl job_name) polls)
          = repeat 15%Z fuel).
  now rewrite sleeps_polls, Hlen.
Qed.

Lemma described_polls cl job_name polls :
  described (flat_map (poll_events cl job_name) polls) = map fst polls.
Proof.
  unfold described. induction polls as [|[d now] polls IH]; [reflexivity|].
  cbn [flat_map]. rewrite filter_map_app, IH. reflexivity.
Qed.

Lemma poll_events_end cl job_name polls :
  polls <> [] ->
  exists before,
    flat_map (poll_events cl job_name) polls
    = before ++ [Ev (TimeSleep 15) (inr tt)].
Proof.
  induction polls as [|[d now] polls IH]; [congruence|]. intros _.
  destruct polls as [|p polls].
  - eexists [_; _; _]. reflexivity.
  - destruct IH as [before Hb]; [discriminate|].
    exists (poll_events cl job_name (d, now) ++ before).
    cbn [flat_map] in *. rewrite Hb, <- app_assoc. reflexivity.
Qed.

Lemma wait_for_training_log cl job_name fuel w res w' log :
  run h (wait_for_training fuel cl job_name) w = (inr res, w', log) ->
  exists d0 polls,
    log = header_events cl job_name d0
          ++ flat_map (poll_events cl job_name) polls.
Proof.
  unfold wait_for_training. intros Hrun.
  apply run_bind_ok in Hrun.
  destruct Hrun as (d0 & w1 & l1 & l1' & H1 & Hrun & ->).
  apply run_do_ok in H1. subst l1.
  apply run_bind_ok in Hrun.
  destruct Hrun as (u & w2 & l2 & l2' & H2 & Hrun & ->).
  apply run_do_ok in H2. subst l2.
  apply run_bind_ok in Hrun.
  destruct Hrun as (u' & w3 & l3 & log4 & H3 & Hloop & ->).
  apply run_do_ok in H3. subst l3.
  exists d0. destruct u, u'.
  destruct (negb (String.eqb (TrainingJobStatus d0) "Completed")).
  - destruct (run_poll_loop _ _ _ _ _ _ _ _ _ Hloop) as (polls & -> & _).
    now exists polls.
  - simpl in Hloop. injection Hloop as <- <- <-. now exists [].
Qed.

(** X18: the cell sleeps after every query of the loop, also after the
    one that ends it.  In a run that came back, every sleep is of 15
    seconds, the job was described once more than the cell slept, and if
    the loop was entered the last thing the cell did is sleep: it comes
    back 15 seconds after the description that ended the loop, not at
    once. *)
Theorem wait_for_training_sleeps cl job_name fuel w res w' log :
  run h (wait_for_training fuel cl job_name) w = (inr res, w', log) ->
  exists n,
    sleeps log = repeat 15%Z n
    /\ List.length (described log) = S n
    /\ (n <> 0 ->
        exists before, log = before ++ [Ev (TimeSleep 15) (inr tt)]).
Proof.
  intros Hrun.
  destruct (wait_for_training_log _ _ _ _ _ _ _ Hrun) as (d0 & polls & ->).
  exists (List.length polls). repeat split.
  - unfold sleeps. rewrite filter_map_app. fold (sleeps (flat_map
      (poll_events cl job_name) polls)). now rewrite sleeps_polls.
  - unfold described. rewrite filter_map_app.
    fold (described (flat_map (poll_events cl job_name) polls)).
    rewrite described_polls, length_app, length_map. reflexivity.
  - intros Hn.
    destruct (poll_events_end cl job_name polls) as [before Hb].
    { intros ->. now apply Hn. }
    exists (header_events cl job_name d0 ++ before).
    rewrite Hb, app_assoc. reflexivity.
Qed.

End WaitingMore.

(** ** Reading and plotting: failures, and what is fetched *)

Section PlottingMore.

Context `{Handles}.
Context {W : Type} (h : handler W).

Lemma run_values_fail (t : tensor) (steps : list Z) :
  forall w e w' log,
    run h (list_comp (fun s => do (TensorValue t s)) steps) w
    = (inl e, w', log) ->
    exists k vals,
      k < List.length steps
      /\ List.length vals = k
      /\ log = value_events t (firstn k steps) vals
               ++ [Ev (TensorValue t (nth k steps 0%Z)) (inl e)].
Proof.
  induction steps as [|s steps IH]; intros w e w' log Hrun.
  - discriminate Hrun.
  - cbn [list_comp] in Hrun. rewrite run_bind, run_do in Hrun.
    destruct (h ndarray (TensorValue t s) w) as [[e1 | v] w1].
    + injection Hrun as <- <- <-. exists 0, []. simpl.
      repeat split. lia.
    + rewrite run_bind in Hrun.
      destruct (run h (list_comp (fun s0 => do (TensorValue t s0)) steps) w1)
        as [[[e1 | vs] w2] log1] eqn:Hrest.
      * injection Hrun as <- <- <-.
        destruct (IH _ _ _ _ Hrest) as (k & vals & Hk & Hlen & ->).
        exists (S k), (v :: vals). simpl. repeat split; [lia | now rewrite Hlen].
      * discriminate Hrun.
Qed.

(** X2: a failing [get_data] stops at the failure.  It fails at
    [trial.tensor], or at [tensor.steps], or at the [tensor.value] of
    some step after reading the values of all earlier steps in order;
    the exception is the one that call raised, and no step after the
    failing one is read. *)
Theorem get_data_failure (tr : trial) (tname : string) (w : W)
  (e : exn) (w' : W) (log : list event) :
  run h (get_data tr tname) w = (inl e, w', log) ->
  log = [Ev (TrialTensor tr tname) (inl e)]
  \/ (exists t,
        log = [Ev (TrialTensor tr tname) (inr t);
               Ev (TensorSteps t) (inl e)])
  \/ (exists t steps k vals,
        k < List.length steps
        /\ List.length vals = k
        /\ log = Ev (TrialTensor tr tname) (inr t)
                 :: Ev (TensorSteps t) (inr steps)
                 :: value_events t (firstn k steps) vals
                 ++ [Ev (TensorValue t (nth k steps 0%Z)) (inl e)]).
Proof.
  intros Hrun. unfold get_data in Hrun. rewrite run_bind, run_do in Hrun.
  destruct (h tensor (TrialTensor tr tname) w) as [[e1 | t] w1].
  { injection Hrun as <- <- <-. now left. }
  rewrite run_bind, run_do in Hrun.
  destruct (h (list Z) (TensorSteps t) w1) as [[e1 | steps] w2].
  { injection Hrun as <- <- <-. right. left. now exists t. }
  rewrite run_bind in Hrun.
  destruct (run h (list_comp (fun s => do (TensorValue t s)) steps) w2)
    as [[[e1 | vals] w3] log1] eqn:Hvals; [|discriminate Hrun].
  injection Hrun as <- <- <-.
  destruct (run_values_fail _ _ _ _ _ _ Hvals) as (k & vs & Hk & Hlen & ->).
  right. right. now exists t, steps, k, vs.
Qed.

Lemma value_events_quiet (f : event -> option (string * nat * nat))
  (g : event -> option string) (t : tensor) steps vals :
  (forall s v, f (Ev (TensorValue t s) (inr v)) = None) ->
  (forall s v, g (Ev (TensorValue t s) (inr v)) = None) ->
  filter_map f (value_events t steps vals) = []
  /\ filter_map g (value_events t steps vals) = [].
Proof.
  intros Hf Hg. split; apply filter_map_none; intros ev Hin;
    apply in_map_iff in Hin; destruct Hin as (sv & <- & _); auto.
Qed.

Lemma run_plot_if_match_log tr regex ax name w w' log :
  run h (plot_if_match tr regex ax name) w = (inr tt, w', log) ->
  log = [Ev (ReMatch regex name) (inr false)]
  \/ exists t steps data,
       List.length data = List.length steps
       /\ log = Ev (ReMatch regex name) (inr true)
                :: get_data_events tr name t steps data
                ++ [Ev (AxPlot ax steps data name) (inr tt)].
Proof.
  unfold plot_if_match. intros Hrun.
  apply run_bind_ok in Hrun.
  destruct Hrun as (b & w1 & log1 & log2 & Hm & Hrest & ->).
  apply run_do_ok in Hm. subst log1. destruct b.
  - right. apply run_bind_ok in Hrest.
    destruct Hrest as ([steps data] & w2 & log3 & log4 & Hgd & Hplot & ->).
    pose proof Hplot as Hu. apply run_do_ok in Hplot. subst log4.
    destruct (run_get_data_ok h _ _ _ _ _ _ _ Hgd) as (t & -> & Hlen).
    now exists t, steps, data.
  - left. simpl in Hrest. injection Hrest as <- <-. reflexivity.
Qed.

Lemma plot_if_match_fetches tr regex ax name w w' log :
  run h (plot_if_match tr regex ax name) w = (inr tt, w', log) ->
  fetched log = plotted log
  /\ map (fun s => fst (fst s)) (plot_shapes log) = plotted log
  /\ Forall (fun s => snd (fst s) = snd s) (plot_shapes log).
Proof.
  intros Hrun.
  destruct (run_plot_if_match_log _ _ _ _ _ _ _ Hrun)
    as [-> | (t & steps & data & Hlen & ->)].
  - repeat split. constructor.
  - unfold fetched, plotted, plot_shapes, get_data_events.
    cbn [filter_map fetched_name plotted_label plot_shape app].
    rewrite !filter_map_app.
    destruct (value_events_quiet plot_shape fetched_name t steps data)
      as [-> ->]; try reflexivity.
    destruct (value_events_quiet plot_shape plotted_label t steps data)
      as [_ ->]; try reflexivity.
    cbn [filter_map fetched_name plotted_label plot_shape app map fst snd].
    repeat split. constructor; [now rewrite Hlen | constructor].
Qed.

Lemma for_each_fetches tr regex ax names :
  forall w w' log,
    run h (for_each names (plot_if_match tr regex ax)) w = (inr tt, w', log) ->
    fetched log = plotted log
    /\ map (fun s => fst (fst s)) (plot_shapes log) = plotted log
    /\ Forall (fun s => snd (fst s) = snd s) (plot_shapes log).
Proof.
  induction names as [|name names IH]; intros w w' log Hrun.
  - simpl in Hrun. injection Hrun as <- <-. repeat split. constructor.
  - change (for_each (name :: names) (plot_if_match tr regex ax))
      with (bind (plot_if_match tr regex ax name)
              (fun _ => for_each names (plot_if_match tr regex ax))) in Hrun.
    apply run_bind_ok in Hrun.
    destruct Hrun as ([] & w1 & log1 & log2 & Hbody & Hrest & ->).
    destruct (plot_if_match_fetches _ _ _ _ _ _ _ Hbody) as (Hf1 & Hs1 & Ha1).
    destruct (IH _ _ _ Hrest) as (Hf2 & Hs2 & Ha2).
    unfold fetched, plotted, plot_shapes in *.
    rewrite !filter_map_app, map_app, Hf1, Hf2, Hs1, Hs2.
    repeat split. now apply Forall_app.
Qed.

(** X3: [plot_collection] reads from the store only what it plots.  In a
    successful run the tensors fetched with [trial.tensor] are, in order,
    exactly the tensors plotted (a name the pattern does not match is
    never fetched), every curve is labelled with the name of its tensor,
    and every [ax.plot] gets as many values as steps. *)
Theorem plot_collection_fetches tr cname regex figsize w w' log :
  run h (plot_collection tr cname regex figsize) w = (inr tt, w', log) ->
  fetched log = plotted log
  /\ map (fun s => fst (fst s)) (plot_shapes log) = plotted log
  /\ Forall (fun s => snd (fst s) = snd s) (plot_shapes log).
Proof.
  unfold plot_collection. intros Hrun.
  apply run_bind_ok in Hrun.
  destruct Hrun as ([fig ax] & w1 & l1 & l1' & H1 & Hrun & ->).
  apply run_do_ok in H1. subst l1.
  apply run_bind_ok in Hrun.
  destruct Hrun as (u & w2 & l2 & l2' & H2 & Hrun & ->).
  apply run_do_ok in H2. subst l2.
  apply run_bind_ok in Hrun.
  destruct Hrun as (c & w3 & l3 & l3' & H3 & Hrun & ->).
  apply run_do_ok in H3. subst l3.
  apply run_bind_ok in Hrun.
  destruct Hrun as (names & w4 & l4 & l4' & H4 & Hrun & ->).
  apply run_do_ok in H4. subst l4.
  apply run_bind_ok in Hrun.
  destruct Hrun as ([] & w5 & l5 & l5' & Hloop & Hrun & ->).
  apply run_bind_ok in Hrun.
  destruct Hrun as (u6 & w6 & l6 & l6' & H6 & H7 & ->).
  apply run_do_ok in H6. subst l6. apply run_do_ok in H7. subst l6'.
  destruct (for_each_fetches _ _ _ _ _ _ _ Hloop) as (Hf & Hs & Ha).
  unfold fetched, plotted, plot_shapes in *.
  rewrite !filter_map_app, Hf.
  cbn [filter_map fetched_name plotted_label plot_shape app].
  rewrite !app_nil_r, Hs. repeat split. exact Ha.
Qed.

(** X4: with the default pattern ['.*'], which matches at the start of
    every name (it matches the empty text), every tensor of the
    collection is plotted, in sorted order. *)
Theorem plot_collection_default_regex tr cname figsize w w' log :
  re_answers h default_regex (fun _ => true) ->
  run h (plot_collection tr cname default_regex figsize) w
  = (inr tt, w', log) ->
  exists c names,
    In (Ev (TrialCollection tr cname) (inr c)) log
    /\ In (Ev (CollectionTensorNames c) (inr names)) log
    /\ plotted log = sorted names.
Proof.
  intros Hre Hrun.
  destruct (run_plot_collection_answers h tr cname default_regex
              (fun _ => true) figsize w w' log Hre Hrun)
    as (c & names & Hc & Hn & Hp).
  assert (Hall : filter (fun _ : string => true) (sorted names)
                 = sorted names).
  { apply forallb_filter_id. apply forallb_forall. reflexivity. }
  rewrite Hall in Hp. exists c, names. now repeat split.
Qed.

Lemma importance_prefixes_exclusive t1 t2 n :
  In t1 SUPPORTED_IMPORTANCE_TYPES ->
  In t2 SUPPORTED_IMPORTANCE_TYPES ->
  startswith (importance_prefix t1) n = true ->
  startswith (importance_prefix t2) n = true ->
  t1 = t2.
Proof.
  intros H1 H2 Hp1 Hp2. simpl in H1, H2.
  destruct (startswith_inv _ _ Hp1) as [r ->]. clear Hp1.
  destruct H1 as [<- | [<- | [<- | [<- | [<- | []]]]]];
    destruct H2 as [<- | [<- | [<- | [<- | [<- | []]]]]];
    try reflexivity; discriminate Hp2.
Qed.

(** X17: no tensor is plotted for two importance types.  The five
    supported types select the tensors by the start of their names, and
    no name starts with the prefixes of two different types: the curves
    of [plot_feature_importance(trial, t1)] and of
    [plot_feature_importance(trial, t2)] have no tensor in common.
    What is asked of [re.match] is its answer on the two patterns
    passed: whether the name starts with the text before [.*]. *)
Theorem importance_types_disjoint tr1 tr2 t1 t2 w1 w1' log1 w2 w2' log2 :
  re_answers h ("feature_importance/" ++ t1 ++ "/.*")
    (startswith (importance_prefix t1)) ->
  re_answers h ("feature_importance/" ++ t2 ++ "/.*")
    (startswith (importance_prefix t2)) ->
  t1 <> t2 ->
  run h (plot_feature_importance tr1 t1) w1 = (inr tt, w1', log1) ->
  run h (plot_feature_importance tr2 t2) w2 = (inr tt, w2', log2) ->
  forall n, In n (plotted log1) -> ~ In n (plotted log2).
Proof.
  intros Hre1 Hre2 Hneq Hrun1 Hrun2 n Hin1 Hin2. apply Hneq.
  pose proof (run_plot_feature_importance h tr1 t1 w1) as Hv1.
  pose proof (run_plot_feature_importance h tr2 t2 w2) as Hv2.
  destruct (str_in t1 SUPPORTED_IMPORTANCE_TYPES) eqn:Hs1;
    [|rewrite Hv1 in Hrun1; discriminate].
  destruct (str_in t2 SUPPORTED_IMPORTANCE_TYPES) eqn:Hs2;
    [|rewrite Hv2 in Hrun2; discriminate].
  destruct Hv1 as [Hv1 _]. destruct Hv2 as [Hv2 _].
  rewrite Hv1 in Hrun1. rewrite Hv2 in Hrun2.
  destruct (run_plot_collection_answers h _ _ _ _ _ _ _ _ Hre1 Hrun1)
    as (c1 & ns1 & _ & _ & Hp1).
  destruct (run_plot_collection_answers h _ _ _ _ _ _ _ _ Hre2 Hrun2)
    as (c2 & ns2 & _ & _ & Hp2).
  rewrite Hp1 in Hin1. rewrite Hp2 in Hin2.
  apply filter_In in Hin1. apply filter_In in Hin2.
  apply (importance_prefixes_exclusive t1 t2 n);
    [now apply str_in_In | now apply str_in_In | apply Hin1 | apply Hin2].
Qed.

End PlottingMore.

(** ** The uploaded objects and the training channels *)

Module StorageFacts.
Import Storage.

Lemma startswith_cancel a x y :
  startswith (a ++ x) (a ++ y)%string = startswith x y.
Proof.
  unfold startswith. induction a as [|c a IH]; [reflexivity|].
  simpl. destruct (ascii_dec c c); [exact IH | congruence].
Qed.

(** X5: the uploaded files are found by the training channels exactly
    when [prefix] is not empty and does not end with a slash.  Then each
    object lies directly under its channel's address; otherwise
    [os.path.join] adds no slash where the channel address has one, and
    neither object is under its channel. *)
Theorem uploads_under_channels (bucket prefix : string) :
  let plain := negb (String.eqb prefix "" || ends_with "/" prefix) in
  startswith (s3_input_train bucket prefix)
             (s3_uri bucket (train_key prefix)) = plain
  /\ startswith (s3_input_validation bucket prefix)
                (s3_uri bucket (validation_key prefix)) = plain
  /\ (plain = true ->
      s3_uri bucket (train_key prefix)
      = (s3_input_train bucket prefix ++ "/train.csv")%string
      /\ s3_uri bucket (validation_key prefix)
         = (s3_input_validation bucket prefix ++ "validation.csv")%string).
Proof.
  cbv zeta.
  unfold s3_uri, s3_input_train, s3_input_validation, train_key,
    validation_key, os_path_join.
  change (startswith "/" "train/train.csv") with false.
  change (startswith "/" "validation/validation.csv") with false.
  cbv iota.
  assert (Hassoc : forall a b c : string,
             ((a ++ b) ++ c = a ++ b ++ c)%string).
  { intros a b c. induction a as [|x a IH]; simpl; [reflexivity|].
    now rewrite IH. }
  destruct (String.eqb prefix "" || ends_with "/" prefix); cbn [negb].
  - repeat split; try discriminate;
      rewrite (startswith_cancel "s3://"), (startswith_cancel bucket),
        (startswith_cancel "/"), (startswith_cancel prefix); reflexivity.
  - repeat split.
    + rewrite (startswith_cancel "s3://"), (startswith_cancel bucket),
        (startswith_cancel "/"), (startswith_cancel prefix). reflexivity.
    + rewrite (startswith_cancel "s3://"), (startswith_cancel bucket),
        (startswith_cancel "/"), (startswith_cancel prefix). reflexivity.
    + rewrite !Hassoc. reflexivity.
    + rewrite !Hassoc. reflexivity.
Qed.

End StorageFacts.

(** ** How exact the split points are *)

Module SplitPoints.
Import Float64 Float64Facts.
Local Open Scope Z_scope.

Lemma bits_le m j : 0 <= m -> 0 <= j -> m < 2 ^ j -> bits m <= j.
Proof.
  intros Hm Hj Hlt. unfold bits. destruct (Z.eqb_spec m 0); [lia|].
  assert (Z.log2 m < j) by (apply Z.log2_lt_pow2; lia). lia.
Qed.

Lemma of_int_exact n : 0 <= n -> n < 2 ^ 53 -> of_int n = mk_float n 0.
Proof.
  intros Hn Hlt. unfold of_int, round.
  pose proof (bits_le n 53 Hn ltac:(lia) Hlt).
  destruct (Z.leb_spec (bits n - 53) 0); [reflexivity | lia].
Qed.

(** Rounding does not fall below a multiple of [2^j] that the value
    reaches, when at most [j] low bits are rounded away. *)
Lemma round_above m e N j :
  0 <= m -> 0 <= j -> bits m - 53 <= j -> N * 2 ^ j <= m ->
  N * 2 ^ j <= mant (round m e) * 2 ^ (expo (round m e) - e).
Proof.
  intros Hm Hj Hbits HN. unfold round.
  destruct (Z.leb_spec (bits m - 53) 0) as [Hk | Hk]; cbn [mant expo].
  - replace (e - e) with 0 by lia. simpl. lia.
  - set (k := bits m - 53) in *.
    replace (e + k - e) with k by lia.
    assert (HK : 0 < 2 ^ k) by (apply Z.pow_pos_nonneg; lia).
    assert (Hsplit : 2 ^ j = 2 ^ (j - k) * 2 ^ k).
    { rewrite <- Z.pow_add_r by lia. f_equal. lia. }
    assert (Hq : N * 2 ^ (j - k) <= m / 2 ^ k).
    { apply Z.div_le_lower_bound; [lia|]. rewrite Hsplit in HN. lia. }
    set (q := m / 2 ^ k) in *.
    assert (Hq' : q <= (if (2 ^ (k - 1) <? m mod 2 ^ k)
                           || ((m mod 2 ^ k =? 2 ^ (k - 1)) && Z.odd q)
                        then q + 1 else q)).
    { destruct (_ || _); lia. }
    rewrite Hsplit. rewrite Z.mul_assoc.
    apply Z.mul_le_mono_nonneg_r; lia.
Qed.

(** [int(c * n)] for a literal [c = M / 2^53] and [n < 2^52], as the
    truncation of a scaled integer within one part in [2^52] of [M * n],
    and not below any multiple of [2^53] under [M * n]. *)
Lemma int_mul_small M n :
  0 <= M < 2 ^ 53 -> 0 <= n < 2 ^ 52 ->
  exists S,
    int_mul_Z (mk_float M (-53)) n = S / 2 ^ 53
    /\ 0 <= S
    /\ 2 ^ 52 * S <= (2 ^ 52 + 1) * (M * n)
    /\ (2 ^ 52 - 1) * (M * n) <= 2 ^ 52 * S
    /\ (forall N, N * 2 ^ 53 <= M * n -> N * 2 ^ 53 <= S).
Proof.
  intros HM Hn. unfold int_mul_Z. rewrite of_int_exact by lia.
  unfold mul. cbn [mant expo].
  assert (Hp : 0 <= M * n) by nia.
  destruct (round_bounds (M * n) (-53 + 0) 53 Hp ltac:(lia))
    as (Hmf & Hef & Hfu & Hfl).
  set (f := round (M * n) (-53 + 0)) in *.
  replace (-53 + 0 + 53) with 0 in * by lia.
  change (2 ^ 0) with 1 in *. rewrite Z.mul_1_r in *.
  exists (mant f * 2 ^ (expo f + 53)).
  assert (HB : 0 < 2 ^ (expo f + 53)) by (apply Z.pow_pos_nonneg; lia).
  repeat split.
  - apply to_int_scaled; lia.
  - nia.
  - exact Hfu.
  - exact Hfl.
  - intros N HN.
    assert (Hbits : bits (M * n) - 53 <= 53).
    { assert (bits (M * n) <= 106); [|lia].
      apply bits_le; [lia | lia |].
      change (2 ^ 106) with (2 ^ 53 * 2 ^ 53).
      assert (M * n <= (2 ^ 53 - 1) * n) by nia.
      assert (2 ^ 53 = 9007199254740992) by reflexivity.
      assert (2 ^ 52 = 4503599627370496) by reflexivity. nia. }
    pose proof (round_above (M * n) (-53 + 0) N 53 Hp ltac:(lia) Hbits HN)
      as Habove.
    fold f in Habove.
    replace (expo f - (-53 + 0)) with (expo f + 53) in Habove by lia.
    exact Habove.
Qed.

(** [int(0.9 * n)] is the floor of nine tenths of [n]; [int(0.7 * n)] is
    the floor of seven tenths of [n] or one less. *)
Lemma split_points_exact_Z n :
  0 <= n < 2 ^ 48 ->
  int_mul_Z lit_0_9 n = 9 * n / 10
  /\ 7 * n / 10 - 1 <= int_mul_Z lit_0_7 n <= 7 * n / 10.
Proof.
  intros Hn. unfold lit_0_7, lit_0_9.
  assert (H48 : 2 ^ 48 = 281474976710656) by reflexivity.
  assert (H52 : 2 ^ 52 = 4503599627370496) by reflexivity.
  assert (H53 : 2 ^ 53 = 9007199254740992) by reflexivity.
  destruct (int_mul_small 8106479329266893 n ltac:(lia) ltac:(lia))
    as (S9 & -> & HS9 & H9u & _ & H9a).
  destruct (int_mul_small 6305039478318694 n ltac:(lia) ltac:(lia))
    as (S7 & -> & HS7 & H7u & H7l & _).
  rewrite H52, H53 in *.
  pose proof (Z.div_mod S9 9007199254740992 ltac:(lia)) as Hd9.
  pose proof (Z.mod_pos_bound S9 9007199254740992 ltac:(lia)) as Hr9.
  pose proof (Z.div_mod S7 9007199254740992 ltac:(lia)) as Hd7.
  pose proof (Z.mod_pos_bound S7 9007199254740992 ltac:(lia)) as Hr7.
  pose proof (Z.div_mod (9 * n) 10 ltac:(lia)) as Hn9.
  pose proof (Z.mod_pos_bound (9 * n) 10 ltac:(lia)) as Hm9.
  pose proof (Z.div_mod (7 * n) 10 ltac:(lia)) as Hn7.
  pose proof (Z.mod_pos_bound (7 * n) 10 ltac:(lia)) as Hm7.
  specialize (H9a (9 * n / 10) ltac:(lia)).
  set (c9 := S9 / 9007199254740992) in *.
  set (c7 := S7 / 9007199254740992) in *.
  set (k9 := 9 * n / 10) in *. set (k7 := 7 * n / 10) in *.
  repeat split; lia.
Qed.

(** The same bounds on the row counts the notebook computes. *)
Lemma int_mul_cuts (n : nat) :
  (Z.of_nat n < 2 ^ 48)%Z ->
  (int_mul lit_0_9 n = 9 * n / 10
   /\ int_mul lit_0_7 n <= 7 * n / 10
   /\ 7 * n / 10 <= int_mul lit_0_7 n + 1)%nat.
Proof.
  intros Hn. unfold int_mul.
  destruct (split_points_exact_Z (Z.of_nat n) ltac:(lia))
    as (H9 & H7l & H7u).
  rewrite H9.
  pose proof (Float64Facts.split_points_ordered_Z (Z.of_nat n) ltac:(lia))
    as (H0 & _).
  assert (E9 : (9 * Z.of_nat n / 10)%Z = Z.of_nat (9 * n / 10)).
  { rewrite Nat2Z.inj_div, Nat2Z.inj_mul. reflexivity. }
  assert (E7 : (7 * Z.of_nat n / 10)%Z = Z.of_nat (7 * n / 10)).
  { rewrite Nat2Z.inj_div, Nat2Z.inj_mul. reflexivity. }
  rewrite E9, E7 in *. rewrite Nat2Z.id. repeat split; lia.
Qed.

End SplitPoints.

(** X6: the cuts of the split, for tables of fewer than [2^48] rows.
    The second cut [int(0.9 * n)] is exactly the floor of [9n/10]; the
    first cut [int(0.7 * n)] is the floor of [7n/10] or one less (the
    double nearest to 0.7 is below 0.7: for 90 rows the product is
    62.99999999999999, and the train subset has 62 rows). *)
Theorem split_points_exact (n : nat) :
  (Z.of_nat n < 2 ^ 48)%Z ->
  exists c1 c2,
    Pipeline.split_points n = [c1; c2]
    /\ c2 = 9 * n / 10
    /\ c1 <= 7 * n / 10
    /\ 7 * n / 10 <= c1 + 1.
Proof.
  intros Hn. unfold Pipeline.split_points.
  destruct (SplitPoints.int_mul_cuts n Hn) as (H9 & H7u & H7l).
  eexists. eexists. split; [reflexivity|]. repeat split; assumption.
Qed.

Example train_cut_of_90_rows :
  Pipeline.split_points 90 = [62; 81] /\ 7 * 90 / 10 = 63.
Proof. vm_compute. split; reflexivity. Qed.

Lemma split_points_exact_witness :
  exists c1 c2,
    Pipeline.split_points 90 = [c1; c2]
    /\ c2 = 9 * 90 / 10 /\ c1 <= 7 * 90 / 10 /\ 7 * 90 / 10 <= c1 + 1.
Proof. apply (split_points_exact 90). vm_compute. reflexivity. Defined.

(** ** Which subsets are empty *)

Section SubsetsMore.
Import Pandas Pipeline PandasFacts.

Context `{NumpyRandom}.

Hypothesis permutation_spec :
  forall g n, Permutation (fst (permutation g n)) (seq 0 n).

(** The split returns three frames whose row counts are the differences
    of the cuts. *)
Lemma shuffle_and_split_counts (df : DataFrame) (g : rng) :
  exists tr va te,
    shuffle_and_split df g = (ok (tr, va, te), g)
    /\ nrows tr = Float64.int_mul Float64.lit_0_7 (nrows df)
    /\ nrows va = Float64.int_mul Float64.lit_0_9 (nrows df)
                  - Float64.int_mul Float64.lit_0_7 (nrows df)
    /\ nrows te = nrows df - Float64.int_mul Float64.lit_0_9 (nrows df).
Proof.
  pose proof (shuffle_and_split_run permutation_spec df g) as Hrun.
  cbv zeta in Hrun.
  set (n := nrows df) in *.
  set (ps := fst (permutation (RandomState 1729%Z) n)) in *.
  pose proof (permutation_spec (RandomState 1729%Z) n) as Hperm.
  fold ps in Hperm.
  assert (Hlen : List.length ps = n)
    by (rewrite (Permutation_length Hperm); apply length_seq).
  destruct (split_points_ordered n) as [H12 H2n].
  destruct (three_slices O ps _ _ H12 ltac:(lia)) as (_ & Hl1 & Hl2 & Hl3).
  rewrite Hlen in Hl3.
  eexists. eexists. eexists. split; [exact Hrun|].
  rewrite !nrows_rows_at. repeat split; assumption.
Qed.

(** X7: which of the three subsets have rows, for a table of fewer than
    [2^48] rows: the test subset as soon as the table has a row, the train
    subset from two rows on, the validation subset from four rows on.  A
    table of two or three rows gives an empty validation subset. *)
Theorem subsets_nonempty (df : DataFrame) (g : rng) :
  (Z.of_nat (nrows df) < 2 ^ 48)%Z ->
  exists tr va te,
    shuffle_and_split df g = (ok (tr, va, te), g)
    /\ (0 < nrows te <-> 1 <= nrows df)
    /\ (0 < nrows tr <-> 2 <= nrows df)
    /\ (0 < nrows va <-> 4 <= nrows df).
Proof.
  intros Hn.
  destruct (shuffle_and_split_counts df g)
    as (tr & va & te & Hrun & Htr & Hva & Hte).
  exists tr, va, te. split; [exact Hrun|]. rewrite Htr, Hva, Hte.
  clear Htr Hva Hte.
  destruct (SplitPoints.int_mul_cuts (nrows df) Hn) as (H9 & H7u & H7l).
  set (n := nrows df) in *. clearbody n. clear Hrun.
  do 10 (destruct n as [|n]; [vm_compute; repeat split; lia|]).
  set (m := S (S (S (S (S (S (S (S (S (S n)))))))))) in *.
  assert (Hm : 10 <= m) by (unfold m; lia). clearbody m.
  pose proof (Nat.div_mod_eq (9 * m) 10) as Hd9.
  pose proof (Nat.mod_upper_bound (9 * m) 10 ltac:(lia)) as Hr9.
  pose proof (Nat.div_mod_eq (7 * m) 10) as Hd7.
  pose proof (Nat.mod_upper_bound (7 * m) 10 ltac:(lia)) as Hr7.
  set (c7 := Float64.int_mul Float64.lit_0_7 m) in *.
  set (c9 := Float64.int_mul Float64.lit_0_9 m) in *.
  repeat split; lia.
Qed.

End SubsetsMore.

(** ** The cleaning cells on any frame *)

Module CleanMore.
Import Pandas Pipeline Reading.

Lemma setitem_inv df name values df' :
  setitem df name values = ok df' ->
  index df' = index df
  /\ List.length values = nrows df
  /\ In (name, IntCol values) (columns df')
  /\ (forall c, In c (columns df) -> fst c <> name -> In c (columns df'))
  /\ (forall c, In c (columns df') ->
        c = (name, IntCol values) \/ In c (columns df)).
Proof.
  unfold setitem.
  destruct (List.length values =? nrows df)%nat eqn:Hlen; [|discriminate].
  apply Nat.eqb_eq in Hlen. cbn [negb].
  destruct (str_in name (labels df)) eqn:Hin; intros Heq;
    injection Heq as <-; cbn [index columns];
    (split; [reflexivity|]); (split; [exact Hlen|]).
  - split; [|split].
    + apply str_in_In in Hin. unfold labels in Hin.
      apply in_map_iff in Hin. destruct Hin as (c & Hc & Hcin).
      apply in_map_iff. exists c. split; [|exact Hcin].
      unfold has_label. rewrite Hc, String.eqb_refl. reflexivity.
    + intros c Hc Hne. apply in_map_iff. exists c. split; [|exact Hc].
      unfold has_label. apply String.eqb_neq in Hne. now rewrite Hne.
    + intros c Hc. apply in_map_iff in Hc. destruct Hc as (c0 & <- & Hc0).
      destruct (has_label name c0); [now left | now right].
  - split; [|split].
    + apply in_or_app. right. now left.
    + intros c Hc _. apply in_or_app. now left.
    + intros c Hc. apply in_app_or in Hc. destruct Hc as [Hc | [<- | []]];
        [now right | now left].
Qed.

Lemma drop_inv df names df' :
  drop df names = ok df' ->
  index df' = index df
  /\ columns df' = filter (fun c => negb (str_in (fst c) names)) (columns df)
  /\ Forall (fun n => In n (labels df)) names.
Proof.
  unfold drop.
  destruct (filter (fun n => negb (str_in n (labels df))) names) eqn:Hmiss;
    [|discriminate].
  intros Heq. injection Heq as <-. repeat split.
  apply Forall_forall. intros n Hn. apply str_in_In.
  destruct (str_in n (labels df)) eqn:Hin; [reflexivity|].
  assert (Hbad : In n (filter (fun n => negb (str_in n (labels df))) names)).
  { apply filter_In. split; [exact Hn | now rewrite Hin]. }
  rewrite Hmiss in Hbad. contradiction.
Qed.

Lemma getitem_series_inv df name c :
  getitem_series df name = ok c -> In (name, c) (columns df).
Proof.
  unfold getitem_series, getitem.
  destruct (filter (has_label name) (columns df)) as [|c0 [|c1 cs]] eqn:Hf;
    try discriminate.
  cbn [rbind ok]. intros Heq. injection Heq as <-.
  assert (Hin : In c0 (filter (has_label name) (columns df)))
    by (rewrite Hf; now left).
  apply filter_In in Hin. destruct Hin as [Hin Hl].
  unfold has_label in Hl. apply String.eqb_eq in Hl.
  destruct c0 as [n0 col]. simpl in *. now subst.
Qed.

Lemma dummies_of_int c d :
  In d (dummies_of c) -> exists zs, snd d = IntCol zs.
Proof.
  unfold dummies_of. destruct (snd c) as [xs | xs | xs]; try contradiction.
  intros Hd. destruct (CleanFacts.dummy_label _ _ _ Hd) as (level & _ & ->).
  now eexists.
Qed.

Lemma get_dummies_no_object df :
  Forall (fun c => is_object c = false) (columns (get_dummies df)).
Proof.
  unfold get_dummies. cbn [columns]. apply Forall_app. split.
  - apply Forall_forall. intros c Hc. apply filter_In in Hc.
    destruct Hc as [_ Hc]. now apply negb_true_iff in Hc.
  - apply Forall_forall. intros d Hd. apply in_flat_map in Hd.
    destruct Hd as (c & _ & Hd). destruct (dummies_of_int _ _ Hd) as [zs Hz].
    unfold is_object. now rewrite Hz.
Qed.

Lemma count_char_app c s1 s2 :
  count_char c (s1 ++ s2) = count_char c s1 + count_char c s2.
Proof.
  induction s1 as [|a s1 IH]; [reflexivity|].
  simpl. rewrite IH. lia.
Qed.

(** The label of an indicator column has an underscore. *)
Lemma dummy_label_underscore c d :
  In d (dummies_of c) -> 1 <= count_char "_" (fst d).
Proof.
  unfold dummies_of. destruct (snd c) as [xs | xs | xs]; try contradiction.
  intros Hd. destruct (CleanFacts.dummy_label _ _ _ Hd) as (level & _ & ->).
  cbn [fst]. rewrite !count_char_app. simpl. lia.
Qed.

Lemma well_formed_setitem df name values df' :
  setitem df name values = ok df' -> well_formed df -> well_formed df'.
Proof.
  intros Hset Hwf.
  destruct (setitem_inv _ _ _ _ Hset) as (Hidx & Hlen & _ & _ & Hfrom).
  unfold well_formed, nrows in *. rewrite Hidx.
  apply Forall_forall. intros c Hc.
  destruct (Hfrom c Hc) as [-> | Hold].
  - exact Hlen.
  - rewrite Forall_forall in Hwf. now apply Hwf.
Qed.

Lemma well_formed_get_dummies df :
  well_formed df -> well_formed (get_dummies df).
Proof.
  unfold well_formed, get_dummies, nrows. cbn [index columns].
  intros Hwf. rewrite Forall_forall in Hwf.
  apply Forall_app. split; apply Forall_forall; intros c Hc.
  - apply filter_In in Hc. now apply Hwf.
  - apply in_flat_map in Hc. destruct Hc as (c0 & Hc0 & Hd).
    specialize (Hwf c0 Hc0). unfold dummies_of in Hd.
    destruct (snd c0) as [xs | xs | xs]; try contradiction.
    destruct (CleanFacts.dummy_label _ _ _ Hd) as (level & _ & ->).
    cbn [snd col_len] in *. unfold indicator. now rewrite length_map.
Qed.

Lemma well_formed_drop df names df' :
  drop df names = ok df' -> well_formed df -> well_formed df'.
Proof.
  intros Hdrop Hwf. destruct (drop_inv _ _ _ Hdrop) as (Hidx & Hcols & _).
  unfold well_formed, nrows in *. rewrite Hidx, Hcols.
  apply Forall_forall. intros c Hc. apply filter_In in Hc.
  rewrite Forall_forall in Hwf. now apply Hwf.
Qed.

(** The steps of the cleaning cells, when they succeed. *)
Lemma clean_steps data df' :
  clean data = ok df' ->
  exists pdays_col data1 job_col data2,
    getitem_series data "pdays" = ok pdays_col
    /\ setitem data "no_previous_contact"
         (np_where (eq_scalar pdays_col 999) 1 0) = ok data1
    /\ getitem_series data1 "job" = ok job_col
    /\ setitem data1 "not_working"
         (np_where (np_in1d job_col not_working_jobs) 1 0) = ok data2
    /\ drop (get_dummies data2) dropped_columns = ok df'.
Proof.
  unfold clean, add_indicators. intros Hclean.
  destruct (getitem_series data "pdays") as [e | pdays_col]; [discriminate|].
  cbn [rbind] in Hclean.
  destruct (setitem data "no_previous_contact" _) as [e | data1] eqn:H1;
    [discriminate|].
  cbn [rbind] in Hclean.
  destruct (getitem_series data1 "job") as [e | job_col] eqn:H2;
    [discriminate|].
  cbn [rbind] in Hclean.
  destruct (setitem data1 "not_working" _) as [e | data2] eqn:H3;
    [discriminate|].
  cbn [rbind ok] in Hclean.
  now exists pdays_col, data1, job_col, data2.
Qed.

(** X8: what the cleaning cells keep, on any frame on which they
    succeed.  The rows are the same; no column of dtype [object] is left;
    none of the six dropped names labels a column; the two synthetic
    indicators are there; and a frame with one cell per row in every
    column stays so. *)
Theorem clean_invariants data df' :
  clean data = ok df' ->
  index df' = index data
  /\ Forall (fun c => is_object c = false) (columns df')
  /\ Forall (fun n => ~ In n (labels df')) dropped_columns
  /\ In "no_previous_contact" (labels df')
  /\ In "not_working" (labels df')
  /\ (well_formed data -> well_formed df').
Proof.
  intros Hclean.
  destruct (clean_steps _ _ Hclean)
    as (pdays_col & data1 & job_col & data2 & _ & H1 & _ & H3 & Hdrop).
  destruct (setitem_inv _ _ _ _ H1) as (Hi1 & _ & Hin1 & _ & _).
  destruct (setitem_inv _ _ _ _ H3) as (Hi3 & _ & Hin3 & Hkeep3 & _).
  destruct (drop_inv _ _ _ Hdrop) as (Hi & Hcols & _).
  assert (Hkept : forall name values,
             In (name, IntCol values) (columns data2) ->
             str_in name dropped_columns = false ->
             In name (labels df')).
  { intros name values Hin Hnot. unfold labels. rewrite Hcols.
    apply in_map_iff. exists (name, IntCol values). split; [reflexivity|].
    apply filter_In. split.
    - unfold get_dummies. cbn [columns]. apply in_or_app. left.
      apply filter_In. split; [exact Hin | reflexivity].
    - cbn [fst]. now rewrite Hnot. }
  split; [|split; [|split; [|split; [|split]]]].
  - rewrite Hi. cbn [get_dummies index]. now rewrite Hi3, Hi1.
  - rewrite Hcols. apply Forall_forall. intros c Hc.
    apply filter_In in Hc. destruct Hc as [Hc _].
    pose proof (get_dummies_no_object data2) as Hno.
    rewrite Forall_forall in Hno. now apply Hno.
  - apply Forall_forall. intros n Hn Hin. unfold labels in Hin.
    rewrite Hcols in Hin. apply in_map_iff in Hin.
    destruct Hin as (c & <- & Hc). apply filter_In in Hc.
    destruct Hc as [_ Hc]. apply negb_true_iff in Hc.
    apply str_in_not_In in Hc. contradiction.
  - eapply Hkept; [|reflexivity].
    apply Hkeep3; [exact Hin1 | discriminate].
  - eapply Hkept; [exact Hin3 | reflexivity].
  - intros Hwf.
    apply (well_formed_drop _ _ _ Hdrop), well_formed_get_dummies.
    apply (well_formed_setitem _ _ _ _ H3).
    now apply (well_formed_setitem _ _ _ _ H1).
Qed.

(** X9: what the cleaning cells need.  They succeed only on a frame
    that has a column [pdays], a column [job], and each of the six
    dropped columns with a dtype other than [object]: a categorical
    column of that name is renamed by [get_dummies], and the [drop] then
    raises. *)
Theorem clean_needs_columns data df' :
  clean data = ok df' ->
  In "pdays" (labels data)
  /\ In "job" (labels data)
  /\ Forall (fun n => exists c, In c (columns data) /\ fst c = n
                                /\ is_object c = false) dropped_columns.
Proof.
  intros Hclean.
  destruct (clean_steps _ _ Hclean)
    as (pdays_col & data1 & job_col & data2 & H0 & H1 & H2 & H3 & Hdrop).
  destruct (setitem_inv _ _ _ _ H1) as (_ & _ & _ & _ & Hfrom1).
  destruct (setitem_inv _ _ _ _ H3) as (_ & _ & _ & _ & Hfrom3).
  destruct (drop_inv _ _ _ Hdrop) as (_ & _ & Hall).
  apply getitem_series_inv in H0. apply getitem_series_inv in H2.
  split; [|split].
  - unfold labels. apply in_map_iff. now exists ("pdays", pdays_col).
  - destruct (Hfrom1 _ H2) as [Heq | Hold]; [discriminate Heq|].
    unfold labels. apply in_map_iff. now exists ("job", job_col).
  - apply Forall_forall. intros n Hn.
    rewrite Forall_forall in Hall. specialize (Hall n Hn).
    unfold labels, get_dummies in Hall. cbn [columns] in Hall.
    apply in_map_iff in Hall. destruct Hall as (c & Hname & Hc).
    apply in_app_or in Hc. destruct Hc as [Hc | Hc].
    + apply filter_In in Hc. destruct Hc as [Hc Hobj].
      apply negb_true_iff in Hobj.
      destruct (Hfrom3 c Hc) as [-> | Hc1].
      { simpl in Hname. subst n. simpl in Hn.
        repeat (destruct Hn as [Hn | Hn]; [discriminate Hn|]).
        contradiction. }
      destruct (Hfrom1 c Hc1) as [-> | Hc0].
      { simpl in Hname. subst n. simpl in Hn.
        repeat (destruct Hn as [Hn | Hn]; [discriminate Hn|]).
        contradiction. }
      now exists c.
    + apply in_flat_map in Hc. destruct Hc as (c0 & _ & Hd).
      pose proof (dummy_label_underscore _ _ Hd) as Hu.
      rewrite Hname in Hu. simpl in Hn.
      repeat (destruct Hn as [<- | Hn]; [simpl in Hu; lia|]).
      contradiction.
Qed.

End CleanMore.

(** ** One-hot columns *)

Module OneHot.
Import Pandas Pipeline Reading CleanFacts WriteFacts.
Local Open Scope Z_scope.












End OneHot.

(** ** What is in the files *)

Module FileFacts.
Import Pandas Pipeline Reading PandasFacts CleanFacts WriteFacts.

Lemma cleaned_all_int rows :
  Forall (fun c => exists zs, snd c = IntCol zs) (columns (cleaned rows)).
Proof.
  unfold cleaned. cbn [columns]. apply Forall_app. split.
  - repeat constructor; cbn [snd]; now eexists.
  - apply Forall_forall. intros d Hd. unfold indicator_columns in Hd.
    apply in_flat_map in Hd. destruct Hd as (c & _ & Hd).
    destruct (dummy_label _ _ _ Hd) as (level & _ & ->). now eexists.
Qed.

Lemma features_int ps rows :
  Forall (fun c => exists zs, snd c = IntCol zs
                              /\ List.length zs = List.length ps)
         (features (rows_at ps (cleaned rows))).
Proof.
  unfold features.
  rewrite filter_label_rows_at
    with (keep := fun n => negb (str_in n ["y_no"; "y_yes"])).
  apply Forall_forall. intros c Hc. apply in_map_iff in Hc.
  destruct Hc as (c0 & <- & Hc0). apply filter_In in Hc0.
  destruct Hc0 as [Hc0 _].
  pose proof (cleaned_all_int rows) as Hint. rewrite Forall_forall in Hint.
  destruct (Hint c0 Hc0) as [zs Hz]. cbn [snd]. rewrite Hz. cbn [map_col].
  eexists. split; [reflexivity|]. unfold take_list. apply length_map.
Qed.

(** The records of a frame of integer columns are made of printed
    integers. *)
Lemma records_numeric df :
  Forall (fun c => exists zs, snd c = IntCol zs
                              /\ List.length zs = nrows df) (columns df) ->
  Forall (Forall (fun f => exists z, f = str_of_Z z)) (to_csv_records df).
Proof.
  intros Hint. unfold to_csv_records. apply Forall_forall.
  intros record Hr. apply in_map_iff in Hr. destruct Hr as (i & <- & Hi).
  apply in_seq in Hi. apply Forall_forall. intros f Hf.
  apply in_map_iff in Hf. destruct Hf as (c & <- & Hc).
  rewrite Forall_forall in Hint. destruct (Hint c Hc) as (zs & -> & Hlen).
  cbn [fields]. exists (nth i zs 0%Z).
  rewrite (nth_indep _ "" (str_of_Z 0%Z)) by (rewrite length_map; lia).
  apply map_nth.
Qed.

Lemma string_of_uint_chars (c : ascii) (d : Decimal.uint) :
  (forall a, In a integer_chars -> Ascii.eqb a c = false) ->
  count_char c (NilEmpty.string_of_uint d) = 0.
Proof.
  intros Hc.
  induction d as [|d IH|d IH|d IH|d IH|d IH|d IH|d IH|d IH|d IH|d IH];
    cbn [NilEmpty.string_of_uint count_char]; [reflexivity|..];
    rewrite IH, Hc; try reflexivity; simpl; tauto.
Qed.

(** A printed integer has digits and at most a sign: no separator, no
    quote, no line end. *)
Lemma str_of_Z_chars (c : ascii) (z : Z) :
  (forall a, In a integer_chars -> Ascii.eqb a c = false) ->
  count_char c (str_of_Z z) = 0.
Proof.
  intros Hc.
  assert (Hu : forall d, count_char c (NilZero.string_of_uint d) = 0).
  { intros d. pose proof (string_of_uint_chars c d Hc) as Hd.
    destruct d; try exact Hd. cbn [NilZero.string_of_uint count_char].
    rewrite Hc; [reflexivity | simpl; tauto]. }
  unfold str_of_Z. destruct (Z.to_int z) as [d | d];
    cbn [NilZero.string_of_int count_char]; [apply Hu|].
  rewrite Hu, Hc; [reflexivity | simpl; tauto].
Qed.

Lemma count_char_concat (c : ascii) (sep : string) (l : list string) :
  count_char c (String.concat sep l)
  = fold_right Nat.add 0 (map (count_char c) l)
    + (List.length l - 1) * count_char c sep.
Proof.
  induction l as [|x l IH]; [reflexivity|].
  destruct l as [|x' l].
  - simpl. lia.
  - change (String.concat sep (x :: x' :: l))
      with (x ++ sep ++ String.concat sep (x' :: l))%string.
    rewrite !CleanMore.count_char_app, IH. cbn [map fold_right List.length].
    lia.
Qed.

Lemma count_none (c : ascii) (l : list string) :
  Forall (fun f => count_char c f = 0) l ->
  fold_right Nat.add 0 (map (count_char c) l) = 0.
Proof.
  induction 1 as [|f l Hf _ IH]; [reflexivity|]. simpl. now rewrite Hf, IH.
Qed.

(** The line of a record of printed integers: one comma between
    consecutive fields, no quote, no line end. *)
Lemma csv_line_shape (record : list string) :
  Forall (fun f => exists z, f = str_of_Z z) record ->
  count_char "," (csv_line record) = List.length record - 1
  /\ count_char "010" (csv_line record) = 0
  /\ count_char quote_char (csv_line record) = 0.
Proof.
  intros Hrec. unfold csv_line. rewrite !count_char_concat.
  assert (Hnone : forall c,
    forallb (fun a => negb (Ascii.eqb a c)) integer_chars = true ->
    fold_right Nat.add 0 (map (count_char c) record) = 0).
  { intros c Hc. apply count_none. eapply Forall_impl; [|exact Hrec].
    intros f [z ->]. apply str_of_Z_chars. intros a Ha.
    rewrite forallb_forall in Hc. apply negb_true_iff. now apply Hc. }
  rewrite !Hnone by reflexivity. simpl. repeat split; lia.
Qed.

Lemma to_csv_newlines df :
  Forall (fun record => count_char "010" (csv_line record) = 0)
         (to_csv_records df) ->
  count_char "010" (to_csv df) = nrows df.
Proof.
  intros Hlines. unfold to_csv. rewrite <- (to_csv_records_length df).
  induction (to_csv_records df) as [|r rs IH]; [reflexivity|].
  inversion Hlines as [|? ? Hr Hrs]. subst.
  rewrite count_char_concat in *. cbn [map fold_right List.length] in *.
  rewrite CleanMore.count_char_app. fold (csv_line r). rewrite Hr.
  specialize (IH Hrs). simpl in *. lia.
Qed.

End FileFacts.

Section FilesMore.
Import Pandas Pipeline Reading PandasFacts CleanFacts WriteFacts FileFacts.

Context `{NumpyRandom}.

Hypothesis permutation_spec :
  forall g n, Permutation (fst (permutation g n)) (seq 0 n).

Lemma written_frame_int ps rows :
  let out := mk_frame (take_list ps nat O (seq 0 (List.length rows)))
               (("y_yes", IntCol (take_list ps Z 0%Z (map label rows)))
                :: features (rows_at ps (cleaned rows))) in
  Forall (fun c => exists zs, snd c = IntCol zs
                              /\ List.length zs = nrows out) (columns out).
Proof.
  cbv zeta. unfold nrows. cbn [index columns].
  rewrite take_list_length. constructor.
  - cbn [snd]. eexists. split; [reflexivity | apply take_list_length].
  - apply features_int.
Qed.

(** X12: the two files are numeric.  On a file with records whose
    cells give the columns the dtypes of the bank data, every field of
    every record of [train.csv] and of [validation.csv] is a printed
    integer: the categorical columns have all become indicators, and the
    float columns are among the six dropped. *)
Theorem files_numeric rows g train_csv validation_csv g' :
  bank_dtypes rows ->
  prepare rows g = (ok (train_csv, validation_csv), g') ->
  Forall (Forall (fun f => exists z, f = str_of_Z z))
         (train_csv ++ validation_csv).
Proof.
  intros _ Hrun. unfold prepare in Hrun.
  destruct (written_frames rows g) as [[e | [train_out validation_out]] g0]
    eqn:Hframes; [discriminate|].
  cbn [rbind ok fst snd] in Hrun. injection Hrun as <- <- <-.
  destruct (written_frames_run permutation_spec _ _ _ _ _ Hframes)
    as (_ & _ & _ & -> & ->).
  apply Forall_app. split; apply records_numeric, written_frame_int.
Qed.

(** X13: the text of the two files.  The text written for each frame has
    as many line ends as the subset has rows; every line has one comma
    less than the frame has columns, and no quote: each line is a row of
    that many plain fields. *)
Theorem files_text rows g train_out validation_out g' :
  written_frames rows g = (ok (train_out, validation_out), g') ->
  Forall (fun out =>
            count_char "010" (to_csv out) = nrows out
            /\ Forall (fun record =>
                         count_char "," (csv_line record)
                         = List.length (columns out) - 1
                         /\ count_char "010" (csv_line record) = 0
                         /\ count_char quote_char (csv_line record) = 0)
                      (to_csv_records out))
         [train_out; validation_out].
Proof.
  intros Hframes.
  destruct (written_frames_run permutation_spec _ _ _ _ _ Hframes)
    as (_ & _ & _ & -> & ->).
  assert (Hone : forall out,
    Forall (fun c => exists zs, snd c = IntCol zs
                                /\ List.length zs = nrows out)
           (columns out) ->
    count_char "010" (to_csv out) = nrows out
    /\ Forall (fun record =>
                 count_char "," (csv_line record)
                 = List.length (columns out) - 1
                 /\ count_char "010" (csv_line record) = 0
                 /\ count_char quote_char (csv_line record) = 0)
              (to_csv_records out)).
  { intros out Hint. pose proof (records_numeric out Hint) as Hnum.
    assert (Hshape : Forall (fun record =>
                 count_char "," (csv_line record)
                 = List.length (columns out) - 1
                 /\ count_char "010" (csv_line record) = 0
                 /\ count_char quote_char (csv_line record) = 0)
              (to_csv_records out)).
    { apply Forall_forall. intros record Hr.
      rewrite Forall_forall in Hnum.
      destruct (csv_line_shape record (Hnum record Hr)) as (Hc & Hn & Hq).
      repeat split; try assumption. rewrite Hc.
      unfold to_csv_records in Hr. apply in_map_iff in Hr.
      destruct Hr as (i & <- & _). now rewrite length_map. }
    split; [|exact Hshape]. apply to_csv_newlines.
    eapply Forall_impl; [|exact Hshape]. intros record (_ & Hn & _).
    exact Hn. }
  constructor; [apply Hone, written_frame_int|].
  constructor; [apply Hone, written_frame_int | constructor].
Qed.

Lemma take_list_seq ps n :
  Forall (fun p => p < n) ps -> take_list ps nat O (seq 0 n) = ps.
Proof.
  intros Hps. unfold take_list. rewrite <- (map_id ps) at 2.
  apply map_ext_in. intros p Hp. rewrite Forall_forall in Hps.
  now rewrite seq_nth by auto.
Qed.

(** X14: the rows of the two files.  The train and validation frames
    hold the rows of pairwise different records (no record is in both, or
    twice in one), and together with the held-out test rows, which are in
    neither file and number [n - int(0.9 * n)], they are all the records
    of the table. *)
Theorem written_rows rows g train_out validation_out g' :
  written_frames rows g = (ok (train_out, validation_out), g') ->
  let n := List.length rows in
  exists test_rows,
    Permutation (index train_out ++ index validation_out ++ test_rows)
                (seq 0 n)
    /\ NoDup (index train_out ++ index validation_out)
    /\ List.length test_rows = n - Float64.int_mul Float64.lit_0_9 n
    /\ (forall i, In i test_rows ->
          ~ In i (index train_out ++ index validation_out)).
Proof.
  intros Hframes n.
  destruct (written_frames_run permutation_spec _ _ _ _ _ Hframes)
    as (_ & _ & _ & -> & ->).
  fold n. cbn [index].
  set (c1 := Float64.int_mul Float64.lit_0_7 n).
  set (c2 := Float64.int_mul Float64.lit_0_9 n).
  set (ps := fst (permutation (RandomState 1729%Z) n)).
  pose proof (permutation_spec (RandomState 1729%Z) n) as Hperm.
  fold ps in Hperm.
  assert (Hlen : List.length ps = n)
    by (rewrite (Permutation_length Hperm); apply length_seq).
  destruct (split_points_ordered n) as [H12 H2n]. fold c1 c2 in H12, H2n.
  destruct (three_slices O ps c1 c2 H12 ltac:(lia)) as (Hcat & _ & _ & Hl3).
  rewrite Hlen in Hcat, Hl3.
  set (p1 := slice 0 c1 nat O ps) in *.
  set (p2 := slice c1 c2 nat O ps) in *.
  set (p3 := slice c2 n nat O ps) in *.
  pose proof (permutation_in_range ps n Hperm) as Hrange.
  rewrite <- Hcat in Hrange.
  apply Forall_app in Hrange. destruct Hrange as [Hr1 Hr23].
  apply Forall_app in Hr23. destruct Hr23 as [Hr2 _].
  rewrite (take_list_seq p1 n Hr1), (take_list_seq p2 n Hr2).
  assert (Hnd : NoDup ((p1 ++ p2) ++ p3)).
  { rewrite <- app_assoc, Hcat.
    apply (Permutation_NoDup (Permutation_sym Hperm)), seq_NoDup. }
  exists p3. split; [now rewrite Hcat|]. split; [|split].
  - exact (NoDup_app_remove_r _ _ Hnd).
  - exact Hl3.
  - intros i Hi3 Hi12. exact (NoDup_app_disjoint _ _ Hnd i Hi12 Hi3).
Qed.


End FilesMore.

(** ** The order of the curves *)

Module SortedFacts.

Lemma ascii_compare_trans_le a b c :
  Ascii.compare a b <> Gt -> Ascii.compare b c <> Gt ->
  Ascii.compare a c <> Gt
  /\ (Ascii.compare a c = Eq ->
      Ascii.compare a b = Eq /\ Ascii.compare b c = Eq).
Proof.
  unfold Ascii.compare.
  destruct (N.compare_spec (N_of_ascii a) (N_of_ascii b));
    destruct (N.compare_spec (N_of_ascii b) (N_of_ascii c));
    destruct (N.compare_spec (N_of_ascii a) (N_of_ascii c));
    intros Hab Hbc; try congruence; try (exfalso; lia);
    (split; [congruence | intros Hac; try congruence; try (exfalso; lia)]);
    split; reflexivity.
Qed.

Lemma compare_trans_le s1 :
  forall s2 s3,
    String.compare s1 s2 <> Gt -> String.compare s2 s3 <> Gt ->
    String.compare s1 s3 <> Gt.
Proof.
  induction s1 as [|a s1 IH]; intros [|b s2] [|c s3]; simpl;
    try congruence.
  intros Hab Hbc.
  assert (Hab' : Ascii.compare a b <> Gt)
    by (destruct (Ascii.compare a b); congruence).
  assert (Hbc' : Ascii.compare b c <> Gt)
    by (destruct (Ascii.compare b c); congruence).
  destruct (ascii_compare_trans_le a b c Hab' Hbc') as [Hac Heq].
  destruct (Ascii.compare a c) eqn:Eac; try congruence.
  destruct (Heq eq_refl) as [Eab Ebc]. rewrite Eab in Hab.
  rewrite Ebc in Hbc. now apply (IH s2 s3).
Qed.

Lemma leb_trans s1 s2 s3 :
  String.leb s1 s2 = true -> String.leb s2 s3 = true ->
  String.leb s1 s3 = true.
Proof.
  unfold String.leb. intros H12 H23.
  assert (String.compare s1 s3 <> Gt).
  { apply (compare_trans_le s1 s2 s3).
    - destruct (String.compare s1 s2); congruence.
    - destruct (String.compare s2 s3); congruence. }
  destruct (String.compare s1 s3); congruence.
Qed.

Lemma strongly_sorted names :
  StronglySorted (fun a b => String.leb a b = true) (sorted names).
Proof.
  apply Sorted_StronglySorted.
  - intros a b c. apply leb_trans.
  - apply (proj2 (sorted_spec names)).
Qed.

(** Two sorted lists with the same elements are the same list. *)
Lemma sorted_unique (l1 : list string) :
  forall l2,
    StronglySorted (fun a b => String.leb a b = true) l1 ->
    StronglySorted (fun a b => String.leb a b = true) l2 ->
    Permutation l1 l2 -> l1 = l2.
Proof.
  induction l1 as [|a l1 IH]; intros l2 H1 H2 Hperm.
  - now apply Permutation_nil in Hperm.
  - destruct l2 as [|b l2].
    { apply Permutation_sym, Permutation_nil in Hperm. discriminate. }
    inversion H1 as [|? ? Hs1 Ha]. inversion H2 as [|? ? Hs2 Hb]. subst.
    assert (Hab : a = b).
    { assert (Hin_b : In b (a :: l1))
        by (apply (Permutation_in _ (Permutation_sym Hperm)); now left).
      assert (Hin_a : In a (b :: l2))
        by (apply (Permutation_in _ Hperm); now left).
      destruct Hin_b as [-> | Hin_b]; [reflexivity|].
      destruct Hin_a as [-> | Hin_a]; [reflexivity|].
      rewrite Forall_forall in Ha, Hb.
      apply String.leb_antisym; auto. }
    subst b. f_equal. apply IH; try assumption.
    now apply Permutation_cons_inv in Hperm.
Qed.

(** X16: the order of the curves does not depend on the order in which
    the collection lists its tensors: [sorted] gives the same list for
    any two listings of the same names, and sorting again changes
    nothing. *)
Theorem sorted_order_independent (names1 names2 : list string) :
  Permutation names1 names2 ->
  sorted names1 = sorted names2
  /\ sorted (sorted names1) = sorted names1.
Proof.
  intros Hperm.
  destruct (sorted_spec names1) as [Hp1 _].
  destruct (sorted_spec names2) as [Hp2 _].
  destruct (sorted_spec (sorted names1)) as [Hp3 _].
  split; apply sorted_unique; try apply strongly_sorted.
  - exact (Permutation_trans (Permutation_sym Hp1)
             (Permutation_trans Hperm Hp2)).
  - exact (Permutation_sym Hp3).
Qed.

End SortedFacts.

(** ** The added facts on the in-memory world and on the small table *)

Lemma failed_service_never_training : never_training failed_service tt "job".
Proof.
  repeat split.
  - intros []. exists (mk_description "Failed" "Failed"), tt.
    repeat split. discriminate.
  - intros fmt []. now exists "12:00:00", tt.
  - intros line []. now exists tt.
  - intros seconds []. now exists tt.
Qed.

Lemma wait_for_training_never_returns_witness :
  exists w' log,
    run failed_service (wait_for_training 3 tt "job") tt = (inr None, w', log)
    /\ sleeps log = [15; 15; 15]%Z.
Proof.
  exact (wait_for_training_never_returns failed_service tt "job"
           failed_service_never_training 3 tt).
Defined.

Lemma get_data_failure_witness :
  snd (run Memory.handle (get_data tt "missing") Memory.demo)
  = [Ev (TrialTensor tt "missing")
        (inl (mk_exn "TensorUnavailable" "missing"))]
  \/ (exists t,
        snd (run Memory.handle (get_data tt "missing") Memory.demo)
        = [Ev (TrialTensor tt "missing") (inr t);
           Ev (TensorSteps t)
              (inl (mk_exn "TensorUnavailable" "missing"))])
  \/ (exists t steps k vals,
        k < List.length steps
        /\ List.length vals = k
        /\ snd (run Memory.handle (get_data tt "missing") Memory.demo)
           = Ev (TrialTensor tt "missing") (inr t)
             :: Ev (TensorSteps t) (inr steps)
             :: value_events t (firstn k steps) vals
             ++ [Ev (TensorValue t (nth k steps 0%Z))
                    (inl (mk_exn "TensorUnavailable" "missing"))]).
Proof.
  exact (get_data_failure Memory.handle tt "missing" Memory.demo
           _ _ _ eq_refl).
Defined.

Lemma plot_collection_fetches_witness :
  fetched (snd (run Memory.handle
                  (plot_feature_importance tt "gain") Memory.demo))
  = plotted (snd (run Memory.handle
                    (plot_feature_importance tt "gain") Memory.demo)).
Proof.
  exact (proj1 (plot_collection_fetches Memory.handle tt "feature_importance"
                  "feature_importance/gain/.*" default_figsize Memory.demo
                  _ _ eq_refl)).
Defined.

Lemma plot_collection_default_regex_witness :
  exists c names,
    In (Ev (TrialCollection tt "feature_importance") (inr c))
       (snd (run Memory.handle
               (plot_collection tt "feature_importance" default_regex
                  default_figsize) Memory.demo))
    /\ In (Ev (CollectionTensorNames c) (inr names))
          (snd (run Memory.handle
                  (plot_collection tt "feature_importance" default_regex
                     default_figsize) Memory.demo))
    /\ plotted (snd (run Memory.handle
                       (plot_collection tt "feature_importance" default_regex
                          default_figsize) Memory.demo))
       = sorted names.
Proof.
  exact (plot_collection_default_regex Memory.handle tt "feature_importance"
           default_figsize Memory.demo _ _ memory_re_dotstar eq_refl).
Defined.

Lemma uploads_under_channels_witness :
  Storage.s3_uri "bucket" (Storage.train_key "sagemaker/DEMO-xgboost-dm")
  = "s3://bucket/sagemaker/DEMO-xgboost-dm/train/train.csv"
  /\ Storage.s3_uri "bucket"
       (Storage.validation_key "sagemaker/DEMO-xgboost-dm")
     = (Storage.s3_input_validation "bucket" "sagemaker/DEMO-xgboost-dm"
        ++ "validation.csv")%string.
Proof.
  destruct (StorageFacts.uploads_under_channels "bucket"
              "sagemaker/DEMO-xgboost-dm") as (_ & _ & Hplain).
  destruct (Hplain eq_refl) as [Ht Hv]. split; [exact Ht | exact Hv].
Defined.

Lemma subsets_nonempty_witness :
  exists tr va te,
    @Pipeline.shuffle_and_split Pipeline.reversing
      (Pipeline.cleaned Pipeline.demo_rows) O = (ok (tr, va, te), O)
    /\ 0 < Pandas.nrows te /\ 0 < Pandas.nrows tr /\ 0 < Pandas.nrows va.
Proof.
  destruct (@subsets_nonempty Pipeline.reversing reversing_permutation
              (Pipeline.cleaned Pipeline.demo_rows) O)
    as (tr & va & te & Hrun & Hte & Htr & Hva).
  - vm_compute. reflexivity.
  - exists tr, va, te. split; [exact Hrun|].
    assert (Hn : Pandas.nrows (Pipeline.cleaned Pipeline.demo_rows) = 5)
      by reflexivity.
    rewrite Hn in *. repeat split; [apply Hte | apply Htr | apply Hva]; lia.
Defined.

Lemma clean_invariants_witness :
  exists df',
    Pipeline.clean (Pipeline.read_csv Pipeline.demo_rows) = ok df'
    /\ Pandas.index df' = [0; 1; 2; 3; 4]
    /\ In "not_working" (Pandas.labels df').
Proof.
  eexists. split; [reflexivity|].
  destruct (CleanMore.clean_invariants
              (Pipeline.read_csv Pipeline.demo_rows) _ eq_refl)
    as (Hidx & _ & _ & _ & Hnw & _).
  split; [exact Hidx | exact Hnw].
Defined.

Lemma clean_needs_columns_witness :
  In "pdays" (Pandas.labels (Pipeline.read_csv Pipeline.demo_rows))
  /\ In "job" (Pandas.labels (Pipeline.read_csv Pipeline.demo_rows)).
Proof.
  destruct (CleanMore.clean_needs_columns
              (Pipeline.read_csv Pipeline.demo_rows) _ eq_refl)
    as (Hp & Hj & _).
  split; [exact Hp | exact Hj].
Defined.



Lemma files_numeric_witness :
  Forall (Forall (fun f => exists z, f = Pandas.str_of_Z z))
    (fst (let (r, _) := @Pipeline.prepare Pipeline.reversing
                          Pipeline.demo_rows O in
          match r with
          | inr files => files
          | inl _ => ([], [])
          end)).
Proof.
  assert (Hd : Pipeline.bank_dtypes Pipeline.demo_rows)
    by (split; [discriminate | reflexivity]).
  pose proof (@files_numeric Pipeline.reversing reversing_permutation
                Pipeline.demo_rows O _ _ _ Hd eq_refl) as Hall.
  apply Forall_app in Hall. exact (proj1 Hall).
Defined.

Lemma files_text_witness :
  exists train_out validation_out,
    fst (@Pipeline.written_frames Pipeline.reversing Pipeline.demo_rows O)
    = ok (train_out, validation_out)
    /\ Reading.count_char "010" (Pandas.to_csv train_out) = 3.
Proof.
  eexists. eexists. split; [reflexivity|].
  pose proof (@files_text Pipeline.reversing reversing_permutation
                Pipeline.demo_rows O _ _ _ eq_refl) as Hall.
  inversion Hall as [|? ? [Hlines _] _]. exact Hlines.
Defined.

Lemma written_rows_witness :
  exists train_out validation_out test_rows,
    fst (@Pipeline.written_frames Pipeline.reversing Pipeline.demo_rows O)
    = ok (train_out, validation_out)
    /\ Permutation (Pandas.index train_out ++ Pandas.index validation_out
                    ++ test_rows) (seq 0 5)
    /\ List.length test_rows = 1.
Proof.
  destruct (@written_rows Pipeline.reversing reversing_permutation
              Pipeline.demo_rows O _ _ _ eq_refl)
    as (test_rows & Hperm & _ & Hlen & _).
  eexists. eexists. exists test_rows.
  split; [reflexivity|]. split; [exact Hperm | exact Hlen].
Defined.


Lemma sorted_order_independent_witness :
  sorted ["train-error"; "validation-error"]
  = sorted ["validation-error"; "train-error"].
Proof.
  apply (SortedFacts.sorted_order_independent
           ["train-error"; "validation-error"]
           ["validation-error"; "train-error"]).
  apply perm_swap.
Defined.

Lemma wait_for_training_sleeps_witness :
  exists n,
    sleeps (snd (run Memory.handle (wait_for_training 5 tt "job")
                   Memory.demo))
    = repeat 15%Z n
    /\ List.length
         (described (snd (run Memory.handle (wait_for_training 5 tt "job")
                            Memory.demo)))
       = S n
    /\ (n <> 0 ->
        exists before,
          snd (run Memory.handle (wait_for_training 5 tt "job") Memory.demo)
          = before ++ [Ev (TimeSleep 15) (inr tt)]).
Proof.
  pose proof (wait_for_training_sleeps Memory.handle tt "job" 5 Memory.demo
                _ _ _ eq_refl) as Hrun.
  exact Hrun.
Defined.

Lemma importance_types_disjoint_witness :
  In "feature_importance/gain/f1"
     (plotted (snd (run Memory.handle
                      (plot_feature_importance tt "gain") Memory.demo)))
  /\ ~ In "feature_importance/gain/f1"
         (plotted (snd (run Memory.handle
                          (plot_feature_importance tt "total_gain")
                          Memory.demo))).
Proof.
  assert (Hneq : "gain" <> "total_gain") by discriminate.
  pose proof (importance_types_disjoint Memory.handle tt tt "gain"
                "total_gain" Memory.demo _ _ Memory.demo _ _
                (memory_re_importance "gain" ltac:(simpl; tauto))
                (memory_re_importance "total_gain" ltac:(simpl; tauto))
                Hneq eq_refl eq_refl
                "feature_importance/gain/f1") as Hrun.
  assert (Hin : In "feature_importance/gain/f1"
                   (plotted (snd (run Memory.handle
                                    (plot_feature_importance tt "gain")
                                    Memory.demo))))
    by (left; reflexivity).
  split; [exact Hin | exact (Hrun Hin)].
Defined.
